(** * pyinfra file facts: a shallow embedding of [pyinfra/facts/files.py]

    The facts of this module are pairs of a command builder and an output
    parser.  The embedding keeps the shape of the Python source:

    - Python strings are [string]s, read as sequences of code points below 256;
    - dictionaries are [gmap]s with string keys;
    - a Python call that may raise returns a [result], whose [Raise] case
      names the exception class;
    - the attribute [self.name], written by [command] and read by [process],
      is a field of an explicit instance record that [command] returns updated.

    The Python builtins the module relies on ([str.split], [str.strip],
    [int], the [%] operator and the [re] module) are modelled in the modules
    [Py] and [Re], following Python 3. *)

From Stdlib Require Import ZArith Ascii String List Lia.
From stdpp Require Import base strings gmap list.

(** ** Outcomes of a Python call *)

Inductive exn : Type :=
| IndexError
| KeyError
| ValueError
| TypeError
| AttributeError
| OverflowError
| ReError.

(** [Ok v] is a normal return, [Raise e] an exception of class [e].
    [Unmodelled] marks an input that leaves the fragment of Python's regular
    expression syntax that [Re] covers; nothing is claimed about it. *)
Inductive result (A : Type) : Type :=
| Ok (a : A)
| Raise (e : exn)
| Unmodelled.

Arguments Ok {A} a.
Arguments Raise {A} e.
Arguments Unmodelled {A}.

#[global] Instance result_ret : MRet result := λ A a, Ok a.
#[global] Instance result_bind : MBind result := λ A B f m,
  match m with
  | Ok a => f a
  | Raise e => Raise e
  | Unmodelled => Unmodelled
  end.

Definition of_option {A} (e : exn) (o : option A) : result A :=
  match o with
  | Some a => Ok a
  | None => Raise e
  end.

(** ** Python builtins on strings *)

Module Py.

Definition chr (n : nat) : ascii := ascii_of_nat n.
Definition ord (c : ascii) : nat := nat_of_ascii c.

(** [str.isspace] on one character, for code points below 256. *)
Definition is_space (c : ascii) : bool :=
  let n := ord c in
  ((9 <=? n) && (n <=? 13)) || ((28 <=? n) && (n <=? 32))
  || (n =? 133) || (n =? 160).

Definition is_digit (c : ascii) : bool :=
  let n := ord c in (48 <=? n) && (n <=? 57).

Definition is_alpha (c : ascii) : bool :=
  let n := ord c in
  ((65 <=? n) && (n <=? 90)) || ((97 <=? n) && (n <=? 122)).

Fixpoint str_take (n : nat) (s : string) : string :=
  match n, s with
  | S n', String c s' => String c (str_take n' s')
  | _, _ => EmptyString
  end.

Fixpoint str_drop (n : nat) (s : string) : string :=
  match n, s with
  | S n', String _ s' => str_drop n' s'
  | _, _ => s
  end.

(** [s[i:j]] for non-negative [i], [j]: out-of-range bounds are clamped. *)
Definition slice (s : string) (i j : nat) : string :=
  str_take (j - i) (str_drop i s).

(** [s[i:]]. *)
Definition slice_from (s : string) (i : nat) : string := str_drop i s.

(** [s[0]], a one-character string; [IndexError] on the empty string. *)
Definition first_char (s : string) : result string :=
  match s with
  | String c _ => Ok (String c EmptyString)
  | EmptyString => Raise IndexError
  end.

Fixpoint has_prefix (p s : string) : bool :=
  match p, s with
  | EmptyString, _ => true
  | String a p', String b s' => bool_decide (a = b) && has_prefix p' s'
  | String _ _, EmptyString => false
  end.

Fixpoint mem_char (c : ascii) (chars : string) : bool :=
  match chars with
  | EmptyString => false
  | String d chars' => bool_decide (c = d) || mem_char c chars'
  end.

(** [s.split(None, maxsplit)]: runs of whitespace separate the words, at
    most [maxsplit] splits are made, and what is left after the last split
    is kept verbatim once its leading whitespace is skipped.  [cur] is the
    word being read, if any. *)
Fixpoint split_ws_from (maxsplit : nat) (cur : option string) (s : string)
  : list string :=
  match s, cur with
  | EmptyString, None => []
  | EmptyString, Some w => [w]
  | String c s', None =>
      if is_space c then split_ws_from maxsplit None s'
      else match maxsplit with
           | O => [s]
           | S m => split_ws_from m (Some (String c EmptyString)) s'
           end
  | String c s', Some w =>
      if is_space c then w :: split_ws_from maxsplit None s'
      else split_ws_from maxsplit (Some (w +:+ String c EmptyString)) s'
  end.

Definition split_ws (s : string) (maxsplit : nat) : list string :=
  split_ws_from maxsplit None s.

(** [s.split(sep)] for a non-empty [sep]: every occurrence of [sep], found
    from the left without overlap, separates two parts.  [skip] counts the
    characters of an occurrence still to be passed over, [cur] is the part
    being read. *)
Fixpoint split_from (sep : string) (skip : nat) (cur : string) (s : string)
  : list string :=
  match s with
  | EmptyString => [cur]
  | String c s' =>
      match skip with
      | S k => split_from sep k cur s'
      | O =>
          if has_prefix sep s
          then cur :: split_from sep (String.length sep - 1) EmptyString s'
          else split_from sep O (cur +:+ String c EmptyString) s'
      end
  end.

Definition split (s sep : string) : list string :=
  split_from sep 0 EmptyString s.

(** The whitespace [int] ignores around a number: the ASCII whitespace
    and, above 127, the characters [str.isspace] accepts. *)
Definition is_int_space (c : ascii) : bool :=
  let n := ord c in
  ((9 <=? n) && (n <=? 13)) || (n =? 32) || (n =? 133) || (n =? 160).

Fixpoint ltrim (test : ascii → bool) (s : string) : string :=
  match s with
  | EmptyString => EmptyString
  | String c s' => if test c then ltrim test s' else s
  end.

Fixpoint rtrim (test : ascii → bool) (s : string) : string :=
  match s with
  | EmptyString => EmptyString
  | String c s' =>
      match rtrim test s' with
      | EmptyString => if test c then EmptyString else String c EmptyString
      | r => String c r
      end
  end.

(** [s.strip(chars)]. *)
Definition strip (s chars : string) : string :=
  rtrim (λ c, mem_char c chars) (ltrim (λ c, mem_char c chars) s).

Definition digit_value (c : ascii) : option Z :=
  if is_digit c then Some (Z.of_nat (ord c) - 48)%Z else None.

(** The digits of an integer literal: decimal digits, with single
    underscores allowed between two digits.  [after_digit] tells whether
    the previous character was a digit. *)
Fixpoint int_digits (acc : Z) (after_digit : bool) (s : string) : option Z :=
  match s with
  | EmptyString => if after_digit then Some acc else None
  | String c s' =>
      match digit_value c with
      | Some d => int_digits (10 * acc + d)%Z true s'
      | None =>
          if bool_decide (c = "_"%char) && after_digit
          then int_digits acc false s'
          else None
      end
  end.

(** [int(s)] on a string, base 10: surrounding whitespace is ignored, one
    sign is allowed; [None] stands for [ValueError]. *)
Definition int (s : string) : option Z :=
  match rtrim is_int_space (ltrim is_int_space s) with
  | String "-" s' => Z.opp <$> int_digits 0 false s'
  | String "+" s' => int_digits 0 false s'
  | s' => int_digits 0 false s'
  end.

(** [fmt % arg] for a string [arg] and a format using only [%s] and [%%]:
    the format must consume [arg] exactly once. *)
Fixpoint percent_from (used : bool) (skip : bool) (fmt arg : string)
  : result string :=
  match fmt with
  | EmptyString => if used then Ok EmptyString else Raise TypeError
  | String c fmt' =>
      if skip then percent_from used false fmt' arg
      else if bool_decide (c = "%"%char) then
        match fmt' with
        | String "s" _ =>
            if used then Raise TypeError
            else rest ← percent_from true true fmt' arg; Ok (arg +:+ rest)
        | String "%" _ =>
            rest ← percent_from used true fmt' arg; Ok (String c rest)
        | EmptyString => Raise ValueError
        | _ => Unmodelled
        end
      else rest ← percent_from used false fmt' arg; Ok (String c rest)
  end.

Definition percent (fmt arg : string) : result string :=
  percent_from false false fmt arg.

End Py.

(** ** Python regular expressions

    The fragment of the [re] syntax covered here: literal characters, [.],
    [^], [$], the categories [\s \S \d \D], an escaped punctuation character,
    character sets of characters and ranges (optionally negated), capturing
    groups, alternation and the greedy quantifiers [* + ? {m} {m,n}] applied
    to a sub-pattern that cannot match the empty string.  A pattern outside
    the fragment compiles to [Unmodelled]; a pattern Python rejects compiles
    to [Raise ReError]. *)

Module Re.

Inductive category : Type := Space | NotSpace | Digit | NotDigit.

Inductive set_item : Type :=
| SChar (c : ascii)
| SRange (lo hi : ascii).

(** [TFail] is where reading the pattern stops: with [Some e] Python
    raises [e] there, with [None] the pattern leaves the fragment. *)
Inductive token : Type :=
| TLit (c : ascii)
| TDot
| TBol
| TEol
| TCat (k : category)
| TSet (neg : bool) (items : list set_item)
| TOpen
| TClose
| TBar
| TRepeat (lo : nat) (hi : option nat)
| TQuest
| TFail (e : option exn).

Inductive regex : Type :=
| Eps
| Lit (c : ascii)
| Dot
| Cat (k : category)
| CharSet (neg : bool) (items : list set_item)
| Bol
| Eol
| Seq (r1 r2 : regex)
| Alt (r1 r2 : regex)
| Repeat (lo : nat) (hi : option nat) (r : regex)
| Group (n : nat) (r : regex).

(** *** Lexing *)

Definition backslash : ascii := Py.chr 92.
Definition newline : ascii := Py.chr 10.

(** The items of a character set, read after the opening bracket (and the
    negation mark, if any).  [n] counts the characters consumed so far; the
    result counts them up to and including the closing bracket. *)
Fixpoint set_items (first : bool) (n : nat) (s : string)
  : result (list set_item * nat) :=
  match s with
  | EmptyString => Raise ReError
  | String c s1 =>
      if bool_decide (c = "]"%char) && negb first then Ok ([], S n)
      else if bool_decide (c = backslash) then Unmodelled
      else
        match s1 with
        | String "-" EmptyString => Raise ReError
        | String "-" (String d s3) =>
            if bool_decide (d = "]"%char)
            then Ok ([SChar c; SChar "-"], n + 3)
            else if bool_decide (d = backslash) then Unmodelled
            else if Py.ord d <? Py.ord c then Raise ReError
            else
              '(items, m) ← set_items false (n + 3) s3;
              Ok (SRange c d :: items, m)
        | _ =>
            '(items, m) ← set_items false (S n) s1;
            Ok (SChar c :: items, m)
        end
  end.

Definition scan_set (s : string) : result (bool * list set_item * nat) :=
  match s with
  | String "^" s1 =>
      '(items, m) ← set_items true 1 s1; Ok (true, items, m)
  | _ =>
      '(items, m) ← set_items true 0 s; Ok (false, items, m)
  end.

Fixpoint span_digits (s : string) : string * string :=
  match s with
  | String c s' =>
      if Py.is_digit c
      then let '(ds, rest) := span_digits s' in (String c ds, rest)
      else (EmptyString, s)
  | EmptyString => (EmptyString, EmptyString)
  end.

Definition number (ds : string) : N :=
  (fix go (acc : N) (s : string) : N :=
     match s with
     | EmptyString => acc
     | String c s' => go (10 * acc + N.of_nat (Py.ord c - 48))%N s'
     end) 0%N ds.

Definition MAXREPEAT : N := 4294967295%N.

(** What follows an opening brace: [Some (lo, hi, n)] when the next [n]
    characters complete a repetition count (a missing lower bound is 0, a
    missing upper bound is [None]), and [None] when the brace is a literal
    character. *)
Definition scan_brace (s : string) : option (N * option N * nat) :=
  let '(lo, s1) := span_digits s in
  match s1 with
  | String "}" _ =>
      if bool_decide (lo = EmptyString) then None
      else Some (number lo, Some (number lo), String.length lo + 1)
  | String "," s2 =>
      let '(hi, s3) := span_digits s2 in
      match s3 with
      | String "}" _ =>
          Some (number lo,
                if bool_decide (hi = EmptyString) then None
                else Some (number hi),
                String.length lo + String.length hi + 2)
      | _ => None
      end
  | _ => None
  end.

Definition escape (e : ascii) : token :=
  if bool_decide (e = "s"%char) then TCat Space
  else if bool_decide (e = "S"%char) then TCat NotSpace
  else if bool_decide (e = "d"%char) then TCat Digit
  else if bool_decide (e = "D"%char) then TCat NotDigit
  else if Py.is_alpha e || Py.is_digit e then TFail None
  else TLit e.

Definition special (c : ascii) : option token :=
  if bool_decide (c = "."%char) then Some TDot
  else if bool_decide (c = "^"%char) then Some TBol
  else if bool_decide (c = "$"%char) then Some TEol
  else if bool_decide (c = ")"%char) then Some TClose
  else if bool_decide (c = "|"%char) then Some TBar
  else if bool_decide (c = "*"%char) then Some (TRepeat 0 None)
  else if bool_decide (c = "+"%char) then Some (TRepeat 1 None)
  else if bool_decide (c = "?"%char) then Some TQuest
  else None.

Definition too_large (n : N) : bool := (MAXREPEAT <=? n)%N.

(** The tokens of a pattern.  [skip] counts the characters that belong to
    the token read last and are still to be passed over. *)
Fixpoint lex (skip : nat) (s : string) : list token :=
  match s with
  | EmptyString => []
  | String c s' =>
      match skip with
      | S k => lex k s'
      | O =>
          if bool_decide (c = backslash) then
            match s' with
            | EmptyString => [TFail (Some ReError)]
            | String e _ => escape e :: lex 1 s'
            end
          else if bool_decide (c = "["%char) then
            match scan_set s' with
            | Ok (neg, items, n) => TSet neg items :: lex n s'
            | Raise e => [TFail (Some e)]
            | Unmodelled => [TFail None]
            end
          else if bool_decide (c = "{"%char) then
            match scan_brace s' with
            | Some (lo, hi, n) =>
                if too_large lo || from_option too_large false hi
                then [TFail (Some OverflowError)]
                else TRepeat (N.to_nat lo) (N.to_nat <$> hi) :: lex n s'
            | None => TLit c :: lex 0 s'
            end
          else if bool_decide (c = "("%char) then
            match s' with
            | String "?" _ => [TFail None]
            | _ => TOpen :: lex 0 s'
            end
          else
            match special c with
            | Some t => t :: lex 0 s'
            | None => TLit c :: lex 0 s'
            end
      end
  end.

(** *** Parsing *)

Fixpoint nullable (r : regex) : bool :=
  match r with
  | Eps | Bol | Eol => true
  | Lit _ | Dot | Cat _ | CharSet _ _ => false
  | Seq r1 r2 => nullable r1 && nullable r2
  | Alt r1 r2 => nullable r1 || nullable r2
  | Repeat lo _ r => (lo =? 0) || nullable r
  | Group _ r => nullable r
  end.

(** A sequence is collected most recent item first. *)
Definition seq_of (items : list regex) : regex :=
  foldl (λ acc r, Seq r acc) Eps items.

(** The alternatives of a group, collected most recent first. *)
Definition alt_of (last : regex) (alts : list regex) : regex :=
  foldl (λ acc r, Alt r acc) last alts.

(** An enclosing group that is still open: its number, and the
    alternatives and items read before it was opened. *)
Definition frame : Type := nat * list regex * list regex.

Record pstate : Type := PState {
  items : list regex;
  alts : list regex;
  stack : list frame;
  next_group : nat
}.

Definition push (r : regex) (st : pstate) : pstate :=
  PState (r :: items st) (alts st) (stack st) (next_group st).

Definition quantify (lo : nat) (hi : option nat) (lazy : bool) (st : pstate)
  : result pstate :=
  match items st with
  | [] => Raise ReError
  | Bol :: _ | Eol :: _ => Raise ReError
  | Repeat _ _ _ :: _ => if lazy then Unmodelled else
      match hi with
      | None => if lo =? 1 then Unmodelled else Raise ReError
      | Some _ => Raise ReError
      end
  | r :: rest =>
      if match hi with Some h => h <? lo | None => false end
      then Raise ReError
      else if nullable r then Unmodelled
      else Ok (PState (Repeat lo hi r :: rest) (alts st) (stack st)
                 (next_group st))
  end.

Definition step (t : token) (st : pstate) : result pstate :=
  match t with
  | TLit c => Ok (push (Lit c) st)
  | TDot => Ok (push Dot st)
  | TBol => Ok (push Bol st)
  | TEol => Ok (push Eol st)
  | TCat k => Ok (push (Cat k) st)
  | TSet neg its => Ok (push (CharSet neg its) st)
  | TOpen =>
      Ok (PState [] [] ((next_group st, alts st, items st) :: stack st)
            (S (next_group st)))
  | TBar => Ok (PState [] (seq_of (items st) :: alts st) (stack st)
                  (next_group st))
  | TClose =>
      match stack st with
      | [] => Raise ReError
      | (g, alts0, items0) :: stack' =>
          Ok (PState (Group g (alt_of (seq_of (items st)) (alts st)) :: items0)
                alts0 stack' (next_group st))
      end
  | TRepeat lo hi => quantify lo hi false st
  | TQuest => quantify 0 (Some 1) true st
  | TFail (Some e) => Raise e
  | TFail None => Unmodelled
  end.

Fixpoint parse (ts : list token) (st : pstate) : result pstate :=
  match ts with
  | [] => Ok st
  | t :: ts' => st' ← step t st; parse ts' st'
  end.

(** A compiled pattern and the number of its groups. *)
Definition compile (pattern : string) : result (regex * nat) :=
  st ← parse (lex 0 pattern) (PState [] [] [] 1);
  match stack st with
  | [] => Ok (alt_of (seq_of (items st)) (alts st), next_group st - 1)
  | _ :: _ => Raise ReError
  end.

(** *** Matching

    Backtracking is modelled by the list of all ways a pattern can match
    at a position, in the order in which Python tries them: greedy
    repetitions first take as many iterations as they can, and the left
    branch of an alternation comes first.  The match Python reports is the
    head of that list. *)

Record mstate : Type := MState {
  pos : nat;
  rest : string;
  caps : gmap nat string
}.

Definition in_category (k : category) (c : ascii) : bool :=
  match k with
  | Space => Py.is_space c
  | NotSpace => negb (Py.is_space c)
  | Digit => Py.is_digit c
  | NotDigit => negb (Py.is_digit c)
  end.

Definition in_item (c : ascii) (i : set_item) : bool :=
  match i with
  | SChar d => bool_decide (c = d)
  | SRange lo hi => (Py.ord lo <=? Py.ord c) && (Py.ord c <=? Py.ord hi)
  end.

Definition in_set (neg : bool) (its : list set_item) (c : ascii) : bool :=
  xorb neg (existsb (in_item c) its).

(** Consume one character that passes [test]. *)
Definition one (test : ascii → bool) (st : mstate) : list mstate :=
  match rest st with
  | String c s' =>
      if test c then [MState (S (pos st)) s' (caps st)] else []
  | EmptyString => []
  end.

(** [$] matches at the end and just before a newline that ends the string. *)
Definition at_end (s : string) : bool :=
  match s with
  | EmptyString => true
  | String c EmptyString => bool_decide (c = newline)
  | _ => false
  end.

Definition capture (n : nat) (start : mstate) (st : mstate) : mstate :=
  MState (pos st) (rest st)
    (<[n := Py.str_take (pos st - pos start) (rest start)]> (caps st)).

Definition below (count : nat) (hi : option nat) : bool :=
  match hi with
  | Some h => count <? h
  | None => true
  end.

(** A greedy repetition of [body], [count] iterations being done: one
    more iteration is tried first, and stopping here comes last.  Every
    iteration consumes a character, so [fuel] above the length of the
    rest of the string is never used up. *)
Fixpoint iterate (body : mstate → list mstate) (lo : nat) (hi : option nat)
    (fuel count : nat) (st : mstate) : list mstate :=
  match fuel with
  | O => []
  | S fuel' =>
      (if below count hi
       then body st ≫= iterate body lo hi fuel' (S count)
       else [])
      ++ (if lo <=? count then [st] else [])
  end.

Fixpoint matches (r : regex) (st : mstate) : list mstate :=
  match r with
  | Eps => [st]
  | Lit c => one (λ d, bool_decide (d = c)) st
  | Dot => one (λ d, negb (bool_decide (d = newline))) st
  | Cat k => one (in_category k) st
  | CharSet neg its => one (in_set neg its) st
  | Bol => if pos st =? 0 then [st] else []
  | Eol => if at_end (rest st) then [st] else []
  | Seq r1 r2 => matches r1 st ≫= matches r2
  | Alt r1 r2 => matches r1 st ++ matches r2 st
  | Group n r1 => capture n st <$> matches r1 st
  | Repeat lo hi r1 =>
      iterate (matches r1) lo hi (S (String.length (rest st))) 0 st
  end.

(** The items of a sequence matched one after the other. *)
Fixpoint matches_all (rs : list regex) (st : mstate) : list mstate :=
  match rs with
  | [] => [st]
  | r :: rs' => matches r st ≫= matches_all rs'
  end.

(** [re.match(pattern, s)]: the groups of the first match at the start of
    [s], if there is one, with the number of groups of the pattern. *)
Definition match_ (pattern s : string)
  : result (option (gmap nat string * nat)) :=
  '(r, groups) ← compile pattern;
  Ok ((λ st, (caps st, groups)) <$> head (matches r (MState 0 s ∅))).

(** [m.group(i)] for [i] at least 1: [None] when the group took no part in
    the match. *)
Definition group (m : gmap nat string * nat) (i : nat)
  : result (option string) :=
  if i <=? m.2 then Ok (m.1 !! i) else Raise IndexError.

End Re.

(** ** Collaborators of the module *)

(** [pyinfra.api.connectors.util.escape_unix_path] is imported by the module
    and is not part of it: the facts are parametrised by it. *)
Class Connectors : Type := escape_unix_path : string → string.

(** An instance used to evaluate the facts on concrete paths: it puts a
    backslash before every space that does not follow one, and so leaves a
    path without spaces as it is. *)
Fixpoint escape_spaces_from (escaped : bool) (s : string) : string :=
  match s with
  | EmptyString => EmptyString
  | String c s' =>
      if bool_decide (c = " "%char) && negb escaped
      then String Re.backslash (String c (escape_spaces_from false s'))
      else String c (escape_spaces_from (bool_decide (c = Re.backslash)) s')
  end.

Definition escape_spaces : Connectors := escape_spaces_from false.

Definition dquote : string := String (Py.chr 34) EmptyString.

(** [shlex.quote], which [six.moves.shlex_quote] names. *)
Definition shlex_quote (s : string) : string :=
  let safe c := Py.is_alpha c || Py.is_digit c || Py.mem_char c "_@%+=:,./-" in
  let all_safe := fix go s := match s with
                              | EmptyString => true
                              | String c s' => safe c && go s'
                              end in
  let escape := fix go s := match s with
                            | EmptyString => EmptyString
                            | String c s' =>
                                if bool_decide (c = "'"%char)
                                then "'" +:+ dquote +:+ "'" +:+ dquote +:+ "'"
                                     +:+ go s'
                                else String c (go s')
                            end in
  if bool_decide (s = EmptyString) then "''"
  else if all_safe s then s
  else "'" +:+ escape s +:+ "'".

(** The values a stat record holds. *)
Inductive value : Type :=
| Str (s : string)
| Int (n : Z)
| Datetime (seconds : Z).

(** Modelled from the spec: [pyinfra.api.util.try_int] is not among the
    sources.  A numeric field becomes an integer and any other value is left
    as the raw string, never failing. *)
Definition try_int (v : string) : value :=
  match Py.int v with
  | Some n => Int n
  | None => Str v
  end.

(** The first and last second of the years 1 to 9999, counted from the
    epoch. *)
Definition utc_min : Z := (-62135596800)%Z.
Definition utc_max : Z := 253402300799%Z.

(** [datetime.utcfromtimestamp] on an integer: a naive UTC datetime, kept as
    its number of seconds since the epoch.  Outside the years 1 to 9999 the
    call raises ([ValueError] or [OverflowError], by magnitude and platform;
    the model makes no difference between the two). *)
Definition utcfromtimestamp (n : Z) : result value :=
  if ((utc_min <=? n) && (n <=? utc_max))%Z then Ok (Datetime n)
  else Raise OverflowError.

(** The state of a fact instance: the attribute [name], unset until
    [command] is first called. *)
Record instance : Type := Self { name : option string }.

(** ** The module *)

Definition LINUX_STAT_COMMAND : string :=
  "stat -c 'user=%U group=%G mode=%A atime=%X mtime=%Y ctime=%Z size=%s %N'".

Definition BSD_STAT_COMMAND : string :=
  "stat -f 'user=%Su group=%Sg mode=%Sp atime=%a mtime=%m ctime=%c size=%z %N%SY'".

Definition FLAG_TO_TYPE : gmap string string :=
  list_to_map [
    ("b", "block");
    ("c", "character");
    ("d", "directory");
    ("l", "link");
    ("s", "socket");
    ("p", "fifo");
    ("-", "file")
  ].

Definition SYMBOL_TO_OCTAL_PERMISSIONS : gmap string string :=
  list_to_map [
    ("rwx", "7");
    ("rw-", "6");
    ("r-x", "5");
    ("r--", "4");
    ("-wx", "3");
    ("-w-", "2");
    ("--x", "1")
  ].

(** Converts ls mode output (rwxrwxrwx) -> integer (755). *)
Definition _parse_mode (mode : string) : result Z :=
  let result :=
    foldl (λ result group,
             match SYMBOL_TO_OCTAL_PERMISSIONS !! group with
             | Some digit => result +:+ digit
             | None => result +:+ "0"
             end)
          EmptyString
          [Py.slice mode 0 3; Py.slice mode 3 6; Py.slice mode 6 9] in
  of_option ValueError (Py.int result).

(** What [File.process] returns: [False], or the dictionary [data]. *)
Inductive stat_result : Type :=
| PyFalse
| Data (data : gmap string value).

Module File.

Definition type : string := "file".

Definition command `{Connectors} (path : string) : string :=
  let path := escape_unix_path path in
  "stat " +:+ path +:+ " 1> /dev/null 2> /dev/null && "
  +:+ "(" +:+ LINUX_STAT_COMMAND +:+ " " +:+ path +:+ " 2> /dev/null || "
  +:+ BSD_STAT_COMMAND +:+ " " +:+ path +:+ ") "
  +:+ "|| true".

(** One turn of the loop over [stat_bits]: the state is [data] and
    [path_type]. *)
Definition process_bit (st : gmap string value * option string) (bit : string)
  : result (gmap string value * option string) :=
  let '(data, path_type) := st in
  match Py.split bit "=" with
  | [key; value] =>
      if bool_decide (key = "mode") then
        flag ← Py.first_char value;
        ty ← of_option KeyError (FLAG_TO_TYPE !! flag);
        mode ← _parse_mode (Py.slice_from value 1);
        Ok (<[key := Int mode]> data, Some ty)
      else if bool_decide (key = "size") then
        Ok (<[key := try_int value]> data, path_type)
      else if bool_decide (key ∈ ["atime"; "mtime"; "ctime"]) then
        v ← match try_int value with
            | Int n => utcfromtimestamp n
            | v => Ok v
            end;
        Ok (<[key := v]> data, path_type)
      else Ok (<[key := Str value]> data, path_type)
  | _ => Raise ValueError
  end.

Fixpoint process_bits (stat_bits : list string)
    (st : gmap string value * option string)
  : result (gmap string value * option string) :=
  match stat_bits with
  | [] => Ok st
  | bit :: stat_bits' => st' ← process_bit st bit; process_bits stat_bits' st'
  end.

(** [self_type] is the class attribute [type] of the fact that runs the
    method: [File], [Link], [Directory] and [Socket] share the code. *)
Definition process (self_type : string) (output : list string)
  : result stat_result :=
  line ← of_option IndexError (output !! 0);
  let stat_bits := Py.split_ws line 7 in
  filename ← of_option IndexError (last stat_bits);
  let stat_bits := removelast stat_bits in
  '(data, path_type) ← process_bits stat_bits (∅, None);
  if bool_decide (path_type ≠ Some self_type) then Ok PyFalse
  else if bool_decide (path_type = Some "link") then
    match Py.split filename " -> " with
    | [_; target] =>
        Ok (Data (<["link_target" := Str (Py.strip target "'")]> data))
    | _ => Raise ValueError
    end
  else Ok (Data data).

End File.

Module Link.
Definition type : string := "link".
Definition process : list string → result stat_result := File.process type.
End Link.

Module Directory.
Definition type : string := "directory".
Definition process : list string → result stat_result := File.process type.
End Directory.

Module Socket.
Definition type : string := "socket".
Definition process : list string → result stat_result := File.process type.
End Socket.

(** The three checksum facts share the text of [process]; it reads the
    class attribute [_regexes] and the instance attribute [name]. *)
Module Checksum.

Fixpoint process (_regexes : list string) (self : instance)
    (output : list string) : result (option string) :=
  match _regexes with
  | [] => Ok None
  | regex :: _regexes' =>
      name ← of_option AttributeError (name self);
      regex ← Py.percent regex name;
      line ← of_option IndexError (output !! 0);
      matches ← Re.match_ regex line;
      match matches with
      | Some m => Re.group m 1
      | None => process _regexes' self output
      end
  end.

End Checksum.

Module Sha1File.

Definition _regexes : list string := [
  "^([a-zA-Z0-9]{40})\s+%s$";
  "^SHA1\s+\(%s\)\s+=\s+([a-zA-Z0-9]{40})$"
].

Definition command `{Connectors} (self : instance) (name : string)
  : instance * string :=
  let name := escape_unix_path name in
  (Self (Some name),
   "sha1sum " +:+ name +:+ " 2> /dev/null || shasum " +:+ name
   +:+ " 2> /dev/null || sha1 " +:+ name).

Definition process : instance → list string → result (option string) :=
  Checksum.process _regexes.

End Sha1File.

Module Sha256File.

Definition _regexes : list string := [
  "^([a-zA-Z0-9]{64})\s+%s$";
  "^SHA256\s+\(%s\)\s+=\s+([a-zA-Z0-9]{64})$"
].

Definition command `{Connectors} (self : instance) (name : string)
  : instance * string :=
  let name := escape_unix_path name in
  (Self (Some name),
   "sha256sum " +:+ name +:+ " 2> /dev/null "
   +:+ "|| shasum -a 256 " +:+ name +:+ " 2> /dev/null "
   +:+ "|| sha256 " +:+ name).

Definition process : instance → list string → result (option string) :=
  Checksum.process _regexes.

End Sha256File.

Module Md5File.

Definition _regexes : list string := [
  "^([a-zA-Z0-9]{32})\s+%s$";
  "^SHA256\s+\(%s\)\s+=\s+([a-zA-Z0-9]{32})$"
].

Definition command `{Connectors} (self : instance) (name : string)
  : instance * string :=
  let name := escape_unix_path name in
  (Self (Some name),
   "md5sum " +:+ name +:+ " 2> /dev/null || md5 " +:+ name).

Definition process : instance → list string → result (option string) :=
  Checksum.process _regexes.

End Md5File.

Module FindInFile.

Definition sentinel (name : string) : string := "__pyinfra_exists_" +:+ name.

Definition command `{Connectors} (self : instance) (name pattern : string)
  : instance * string :=
  let name := escape_unix_path name in
  let pattern := shlex_quote pattern in
  (Self (Some name),
   Py.rtrim Py.is_space (Py.ltrim Py.is_space
     ("grep -e " +:+ pattern +:+ " " +:+ name +:+ " 2> /dev/null || "
      +:+ "(find " +:+ name +:+ " -type f > /dev/null && echo "
      +:+ dquote +:+ "__pyinfra_exists_" +:+ name +:+ dquote +:+ ")"))).

(** The result is a list of lines; [None] would be Python's [None]. *)
Definition process (self : instance) (output : list string)
  : result (option (list string)) :=
  match output with
  | first :: _ =>
      name ← of_option AttributeError (name self);
      if bool_decide (first = sentinel name) then Ok (Some [])
      else Ok (Some output)
  | [] => Ok (Some output)
  end.

End FindInFile.

Module FindFiles.

Definition command `{Connectors} (name : string) : string :=
  "find " +:+ escape_unix_path name +:+ " -type f".

Definition process (output : list string) : list string := output.

End FindFiles.

Module FindLinks.

Definition command `{Connectors} (name : string) : string :=
  "find " +:+ escape_unix_path name +:+ " -type l".

Definition process : list string → list string := FindFiles.process.

End FindLinks.

Module FindDirectories.

Definition command `{Connectors} (name : string) : string :=
  "find " +:+ escape_unix_path name +:+ " -type d".

Definition process : list string → list string := FindFiles.process.

End FindDirectories.

(** ** What the specification says, in its own words *)

Module Spec.

(** The eight canonical combinations of [r], [w], [x] and [-]. *)
Definition canonical_groups : list string :=
  ["rwx"; "rw-"; "r-x"; "r--"; "-wx"; "-w-"; "--x"; "---"].

Definition weight (c flag : ascii) (w : Z) : Z :=
  if bool_decide (c = flag) then w else 0%Z.

(** read=4, write=2, execute=1, summed over a three-character group. *)
Definition group_sum (g : string) : Z :=
  match g with
  | String a (String b (String c EmptyString)) =>
      (weight a "r" 4 + weight b "w" 2 + weight c "x" 1)%Z
  | _ => 0%Z
  end.

(** The digit of a group: its sum when canonical, 0 otherwise. *)
Definition group_digit (g : string) : Z :=
  if bool_decide (g ∈ canonical_groups) then group_sum g else 0%Z.

(** The integer whose decimal digits are the digits of the owner, group
    and other groups of a symbolic permission string. *)
Definition encode (mode : string) : Z :=
  (100 * group_digit (Py.slice mode 0 3)
   + 10 * group_digit (Py.slice mode 3 6)
   + group_digit (Py.slice mode 6 9))%Z.

(** A token of key=value shape, taken apart. *)
Definition key_value (bit : string) : option (string * string) :=
  match Py.split bit "=" with
  | [key; v] => Some (key, v)
  | _ => None
  end.

(** The type a mode value's first character stands for in the flag table. *)
Definition flag_type (v : string) : option string :=
  match v with
  | String c _ => FLAG_TO_TYPE !! String c EmptyString
  | EmptyString => None
  end.

Definition times : list string := ["atime"; "mtime"; "ctime"].

Definition representable (n : Z) : bool :=
  ((utc_min <=? n) && (n <=? utc_max))%Z.

(** The tokens the parser accepts: key=value shape, a mode whose flag is
    in the table, a timestamp that is no integer or is one a datetime can
    hold. *)
Definition well_formed (bit : string) : bool :=
  match key_value bit with
  | Some (key, v) =>
      if bool_decide (key = "mode") then bool_decide (is_Some (flag_type v))
      else if bool_decide (key ∈ times) then
        match Py.int v with
        | Some n => representable n
        | None => true
        end
      else true
  | None => false
  end.

(** The value recorded for a key: the permission digits for the mode
    (0 for an ill-formed group), an integer size or timestamp when the
    text is numeric and the raw text otherwise. *)
Definition field (key v : string) : value :=
  if bool_decide (key = "mode") then Int (encode (Py.slice_from v 1))
  else if bool_decide (key = "size") then
    match Py.int v with
    | Some n => Int n
    | None => Str v
    end
  else if bool_decide (key ∈ times) then
    match Py.int v with
    | Some n => Datetime n
    | None => Str v
    end
  else Str v.

(** The record of a sequence of tokens: a later token overrides an
    earlier one with the same key. *)
Definition record (bits : list string) (data : gmap string value)
  : gmap string value :=
  foldl (λ data bit,
           match key_value bit with
           | Some (key, v) => <[key := field key v]> data
           | None => data
           end) data bits.

(** The type the mode tokens resolve to, the last one deciding. *)
Definition resolved_type (bits : list string) (path_type : option string)
  : option string :=
  foldl (λ path_type bit,
           match key_value bit with
           | Some (key, v) =>
               if bool_decide (key = "mode") then flag_type v else path_type
           | None => path_type
           end) path_type bits.

Definition keys (bits : list string) : list string :=
  omap (λ bit, fst <$> key_value bit) bits.

(** What the stat parser returns on a line whose tokens [bits] are well
    formed: [False] unless they resolve to the type [ty] of the fact, and
    the record otherwise, with the link target for a link. *)
Definition stat_outcome (ty : string) (bits : list string) (filename : string)
  : result stat_result :=
  if bool_decide (resolved_type bits None ≠ Some ty) then Ok PyFalse
  else if bool_decide (resolved_type bits None = Some "link") then
    match Py.split filename " -> " with
    | [_; target] =>
        Ok (Data (<["link_target" := Str (Py.strip target "'")]>
                    (record bits ∅)))
    | _ => Raise ValueError
    end
  else Ok (Data (record bits ∅)).

Fixpoint all_chars (test : ascii → bool) (s : string) : bool :=
  match s with
  | EmptyString => true
  | String c s' => test c && all_chars test s'
  end.

(** A digest of [n] characters, each a letter or a digit. *)
Definition digest (n : nat) (d : string) : Prop :=
  String.length d = n ∧ all_chars (λ c, Py.is_alpha c || Py.is_digit c) d = true.

(** A character that is none of the special characters of regular
    expressions and is not whitespace: in a pattern it stands for itself. *)
Definition literal_char (c : ascii) : bool :=
  negb (Py.mem_char c ".^$*+?{}[]\|()") && negb (Py.is_space c).

(** A path written with such characters only. *)
Definition literal (path : string) : Prop := all_chars literal_char path = true.

(** A parser accepts a digest of [k] characters only against the path [n]:
    it returns the digest of a line that reports it against [n] and [None]
    on a line that reports it against another literal path. *)
Definition binds_digest (k : nat)
    (process : list string → result (option string)) (n : string) : Prop :=
  ∀ d, digest k d →
       process [d +:+ "  " +:+ n] = Ok (Some d)
       ∧ ∀ q, literal q → q ≠ n → process [d +:+ "  " +:+ q] = Ok None.

End Spec.

(** ** The lines that stat prints *)

(** Words joined by single spaces. *)
Fixpoint unwords (ws : list string) : string :=
  match ws with
  | [] => EmptyString
  | [w] => w
  | w :: ws' => w +:+ " " +:+ unwords ws'
  end.

(** A non-empty text without whitespace. *)
Definition word (w : string) : Prop :=
  w ≠ EmptyString ∧ Spec.all_chars (λ c, negb (Py.is_space c)) w = true.

(** A text whose first character is not whitespace. *)
Definition starts_a_word (s : string) : Prop :=
  match s with
  | String a _ => Py.is_space a = false
  | EmptyString => False
  end.

(** A text without an equals sign. *)
Definition no_equals (s : string) : Prop :=
  Spec.all_chars (λ c, negb (bool_decide (c = "="%char))) s = true.

(** The text of a field of a stat line: no whitespace, no equals sign. *)
Definition field_text (v : string) : Prop :=
  Spec.all_chars (λ c, negb (Py.is_space c)) v = true ∧ no_equals v.

(** The tokens of the line that the stat formats of [File.command] print. *)
Definition stat_tokens (user group mode atime mtime ctime size : string)
  : list string :=
  ["user=" +:+ user; "group=" +:+ group; "mode=" +:+ mode;
   "atime=" +:+ atime; "mtime=" +:+ mtime; "ctime=" +:+ ctime;
   "size=" +:+ size].

Definition stat_line (user group mode atime mtime ctime size name : string)
  : string :=
  unwords (stat_tokens user group mode atime mtime ctime size ++ [name]).

(** A text without the character [>], and so without an arrow. *)
Definition no_gt (s : string) : Prop :=
  Spec.all_chars (λ c, negb (bool_decide (c = ">"%char))) s = true.

(** A timestamp text the parser can record. *)
Definition timestamp_ok (v : string) : Prop :=
  match Py.int v with
  | Some n => Spec.representable n = true
  | None => True
  end.

(** ** Quotes around a text *)

(** The first and the last character of a text. *)
Definition head_char (s : string) : option ascii :=
  match s with
  | String c _ => Some c
  | EmptyString => None
  end.

Fixpoint last_char (s : string) : option ascii :=
  match s with
  | EmptyString => None
  | String c EmptyString => Some c
  | String _ s' => last_char s'
  end.

(** A text made of single quotes only. *)
Definition quotes (s : string) : Prop :=
  Spec.all_chars (λ c, bool_decide (c = "'"%char)) s = true.

(** A text with no single quote at either end. *)
Definition unquoted (s : string) : Prop :=
  head_char s ≠ Some "'"%char ∧ last_char s ≠ Some "'"%char.

(** ** Permission strings, from their numbers *)

(** The table [SYMBOL_TO_OCTAL_PERMISSIONS] read from right to left, with
    [---] for the digit 0 that has no entry. *)
Definition symbol (digit : Z) : string :=
  match digit with
  | 7 => "rwx"
  | 6 => "rw-"
  | 5 => "r-x"
  | 4 => "r--"
  | 3 => "-wx"
  | 2 => "-w-"
  | 1 => "--x"
  | _ => "---"
  end%Z.

(** The permission string of a number of three digits. *)
Definition symbolic (n : Z) : string :=
  symbol (n / 100) +:+ symbol (n / 10 mod 10) +:+ symbol (n mod 10).

(** A permission string of nine characters in three canonical groups. *)
Definition canonical_mode (mode : string) : Prop :=
  String.length mode = 9
  ∧ Py.slice mode 0 3 ∈ Spec.canonical_groups
  ∧ Py.slice mode 3 6 ∈ Spec.canonical_groups
  ∧ Py.slice mode 6 9 ∈ Spec.canonical_groups.

(** ** The lines the checksum tools print *)

(** A non-empty run of whitespace. *)
Definition blank (ws : string) : Prop :=
  ws ≠ EmptyString ∧ Spec.all_chars Py.is_space ws = true.

(** What [$] accepts: the end of the text, or one newline before it. *)
Definition line_end (e : string) : Prop :=
  e = EmptyString ∨ e = String Re.newline EmptyString.

(** A line in the style of the GNU tools: digest, whitespace, path. *)
Definition gnu_line (n d line : string) : Prop :=
  ∃ ws e, blank ws ∧ line_end e ∧ line = d +:+ ws +:+ n +:+ e.

(** A line in the style of the BSD tools, with the name [algo] of an
    algorithm: [algo (path) = digest]. *)
Definition bsd_line (algo n d line : string) : Prop :=
  ∃ ws1 ws2 ws3 e,
    blank ws1 ∧ blank ws2 ∧ blank ws3 ∧ line_end e
    ∧ line = algo +:+ ws1 +:+ "(" +:+ n +:+ ")" +:+ ws2 +:+ "=" +:+ ws3
             +:+ d +:+ e.

(** The line reports the digest [d] of [k] characters against the path
    [n], in one of the two styles. *)
Definition reports (algo : string) (k : nat) (n line d : string) : Prop :=
  Spec.digest k d ∧ (gnu_line n d line ∨ bsd_line algo n d line).

(** A text that does not start with whitespace. *)
Definition no_space_start (q : string) : Prop :=
  match q with
  | String a _ => Py.is_space a = false
  | EmptyString => True
  end.

(** A path with a backslash put before each of its spaces. *)
Fixpoint backslashed (q : string) : string :=
  match q with
  | EmptyString => EmptyString
  | String c q' =>
      if bool_decide (c = " "%char)
      then String Re.backslash (String c (backslashed q'))
      else String c (backslashed q')
  end.

(** A path of literal characters and spaces that does not start with a
    space. *)
Definition spaced_path (q : string) : Prop :=
  Spec.all_chars (λ c, Spec.literal_char c || bool_decide (c = " "%char)) q
  = true
  ∧ no_space_start q.

(** ** The patterns of the checksum facts, compiled *)

(** The character set [[a-zA-Z0-9]]. *)
Definition alnum : list Re.set_item :=
  [Re.SRange "a" "z"; Re.SRange "A" "Z"; Re.SRange "0" "9"].

(** The group [([a-zA-Z0-9]{k})], the first of its pattern. *)
Definition digest_group (k : nat) : Re.regex :=
  Re.Group 1 (Re.seq_of [Re.Repeat k (Some k) (Re.CharSet false alnum)]).

(** [\s+]. *)
Definition spaces : Re.regex := Re.Repeat 1 None (Re.Cat Re.Space).

(** A text of literal characters. *)
Definition lits (s : string) : list Re.regex :=
  Re.Lit <$> list_ascii_of_string s.

(** The items of the first pattern of a checksum fact once a literal path
    [n] is spliced in, in the order of the pattern; [k] is the length of the
    digest. *)
Definition gnu_items (k : nat) (n : string) : list Re.regex :=
  [Re.Bol; digest_group k; spaces] ++ lits n ++ [Re.Eol].

(** The items of the second pattern, likewise; [algo] is the name the
    pattern spells before the path. *)
Definition bsd_items (algo : string) (k : nat) (n : string) : list Re.regex :=
  (Re.Bol :: lits algo) ++ [spaces; Re.Lit "("] ++ lits n
  ++ [Re.Lit ")"; spaces; Re.Lit "="; spaces; digest_group k; Re.Eol].

(** What is left of [s] after [m] characters that all pass [test], if [s]
    starts with such a run. *)
Fixpoint run_of (test : ascii → bool) (m : nat) (s : string) : option string :=
  match m with
  | O => Some s
  | S m' =>
      match s with
      | String a s' => if test a then run_of test m' s' else None
      | EmptyString => None
      end
  end.

(** Every repetition in a pattern has a body that cannot match the empty
    string; the parser builds no other. *)
Fixpoint guarded (r : Re.regex) : bool :=
  match r with
  | Re.Seq r1 r2 | Re.Alt r1 r2 => guarded r1 && guarded r2
  | Re.Repeat _ _ r1 => negb (Re.nullable r1) && guarded r1
  | Re.Group _ r1 => guarded r1
  | _ => true
  end.

(** The length of the text a matcher state has still to read. *)
Definition len (st : Re.mstate) : nat := String.length (Re.rest st).

(** A parser state all of whose sub-patterns are guarded. *)
Definition guarded_state (st : Re.pstate) : Prop :=
  Forall (λ r, guarded r = true) (Re.items st)
  ∧ Forall (λ r, guarded r = true) (Re.alts st)
  ∧ Forall (λ f : Re.frame,
              Forall (λ r, guarded r = true) f.1.2
              ∧ Forall (λ r, guarded r = true) f.2) (Re.stack st).

(** The first pattern of a checksum fact, with the items [path] in the
    place of the path; [gnu_items k n] is [gnu_pattern k (lits n)]. *)
Definition gnu_pattern (k : nat) (path : list Re.regex) : list Re.regex :=
  [Re.Bol; digest_group k; spaces] ++ path ++ [Re.Eol].

(** The second pattern, likewise. *)
Definition bsd_pattern (algo : string) (k : nat) (path : list Re.regex)
  : list Re.regex :=
  (Re.Bol :: lits algo) ++ [spaces; Re.Lit "("] ++ path
  ++ [Re.Lit ")"; spaces; Re.Lit "="; spaces; digest_group k; Re.Eol].

(** The items of the first pattern once a path [n1(n2)n3] is spliced in:
    the parentheses of the path make a second group. *)
Definition gnu_items_group (k : nat) (n1 n2 n3 : string) : list Re.regex :=
  [Re.Bol; digest_group k; spaces] ++ lits n1
  ++ [Re.Group 2 (Re.seq_of (rev (lits n2)))] ++ lits n3 ++ [Re.Eol].

(** The items of the second pattern, likewise: the parentheses of the path
    make the first group, and the digest is the second. *)
Definition bsd_items_group (algo : string) (k : nat) (n1 n2 n3 : string)
  : list Re.regex :=
  (Re.Bol :: lits algo) ++ [spaces; Re.Lit "("] ++ lits n1
  ++ [Re.Group 1 (Re.seq_of (rev (lits n2)))] ++ lits n3
  ++ [Re.Lit ")"; spaces; Re.Lit "="; spaces;
      Re.Group 2
        (Re.seq_of [Re.Repeat k (Some k) (Re.CharSet false alnum)]);
      Re.Eol].

(** How many opening parentheses a text holds. *)
Fixpoint opening (s : string) : nat :=
  match s with
  | EmptyString => 0
  | String c s' => (if bool_decide (c = "("%char) then 1 else 0) + opening s'
  end.

(** The item of a character of a path with dots: a dot of the path is
    the dot of the pattern. *)
Definition dotted_item (c : ascii) : Re.regex :=
  if bool_decide (c = "."%char) then Re.Dot else Re.Lit c.

(** Its token. *)
Definition dotted_token (c : ascii) : Re.token :=
  if bool_decide (c = "."%char) then Re.TDot else Re.TLit c.

Definition dotted_items (n : string) : list Re.regex :=
  dotted_item <$> list_ascii_of_string n.

(** [q] reads like [n] with any character but the newline allowed where
    [n] has a dot. *)
Fixpoint alike (n q : string) : bool :=
  match n, q with
  | EmptyString, EmptyString => true
  | String a n', String b q' =>
      (if bool_decide (a = "."%char) then negb (bool_decide (b = Re.newline))
       else bool_decide (b = a))
      && alike n' q'
  | _, _ => false
  end.

(** A path of literal characters and dots that does not start with a
    dot. *)
Definition dotted_path (n : string) : Prop :=
  Spec.all_chars (λ c, Spec.literal_char c || bool_decide (c = "."%char)) n
  = true
  ∧ match n with
    | String a _ => a ≠ "."%char
    | EmptyString => True
    end.

(** * Properties *)

(** ** The builtins on examples *)

Example split_ws_keeps_rest :
  Py.split_ws "a  b c  d " 2 = ["a"; "b"; "c  d "].
Proof. reflexivity. Qed.

Example split_ws_trailing : Py.split_ws " a " 1 = ["a"].
Proof. reflexivity. Qed.

Example split_eq : Py.split "k=v=w" "=" = ["k"; "v"; "w"].
Proof. reflexivity. Qed.

Example split_arrow : Py.split "a -> -> t" " -> " = ["a"; "-> t"].
Proof. reflexivity. Qed.

Example strip_quotes : Py.strip "'/b''" "'" = "/b".
Proof. reflexivity. Qed.

Example int_ok : Py.int " -1_000 " = Some (-1000)%Z.
Proof. reflexivity. Qed.

Example int_bad : Py.int "1__0" = None /\ Py.int "" = None /\ Py.int "12a" = None.
Proof. repeat split; reflexivity. Qed.

Example re_groups :
  Re.match_ "^SHA1\s+\((/a)\)\s+=\s+([a-z]{3})$" "SHA1 (/a) = abc"
  = Ok (Some ({[1 := "/a"; 2 := "abc"]}, 2)).
Proof. vm_compute. reflexivity. Qed.

Example re_errors :
  Re.match_ "a**" "a" = Raise ReError
  ∧ Re.match_ "(a" "a" = Raise ReError
  ∧ Re.match_ "a{1,4294967295}" "a" = Raise OverflowError
  ∧ Re.match_ "(?:a)" "a" = Unmodelled.
Proof. repeat split; vm_compute; reflexivity. Qed.

Example percent_ok : Py.percent "^a%sb$" "xy" = Ok "^axyb$".
Proof. reflexivity. Qed.

(** ** Permission strings *)

Lemma group_digit_range g : (0 ≤ Spec.group_digit g ≤ 7)%Z.
Proof.
  unfold Spec.group_digit. case_bool_decide as Hg; [|lia].
  unfold Spec.canonical_groups in Hg.
  repeat (apply elem_of_cons in Hg as [->|Hg]; [vm_compute; split; discriminate|]).
  by apply elem_of_nil in Hg.
Qed.

(** The table holds the digit of every canonical group but [---], which
    like any other string falls to the default. *)
Lemma symbol_lookup g result :
  match SYMBOL_TO_OCTAL_PERMISSIONS !! g with
  | Some digit => result +:+ digit
  | None => result +:+ "0"
  end
  = result +:+ String (Py.chr (48 + Z.to_nat (Spec.group_digit g))) EmptyString.
Proof.
  unfold SYMBOL_TO_OCTAL_PERMISSIONS, list_to_map; cbn [foldr fst snd uncurry].
  repeat (rewrite lookup_insert; case_decide;
          [subst g; vm_compute; reflexivity|]).
  rewrite lookup_empty.
  unfold Spec.group_digit. case_bool_decide as Hg; [|reflexivity].
  unfold Spec.canonical_groups in Hg.
  repeat (apply elem_of_cons in Hg as [->|Hg]; [try congruence|]).
  - reflexivity.
  - by apply elem_of_nil in Hg.
Qed.

Lemma int_three_digits a b c :
  (0 ≤ a ≤ 7)%Z → (0 ≤ b ≤ 7)%Z → (0 ≤ c ≤ 7)%Z →
  Py.int (String (Py.chr (48 + Z.to_nat a))
            (String (Py.chr (48 + Z.to_nat b))
               (String (Py.chr (48 + Z.to_nat c)) EmptyString)))
  = Some (100 * a + 10 * b + c)%Z.
Proof.
  intros Ha Hb Hc.
  assert (Hd : ∀ x, (0 ≤ x ≤ 7)%Z →
    x = 0%Z ∨ x = 1%Z ∨ x = 2%Z ∨ x = 3%Z ∨ x = 4%Z ∨ x = 5%Z ∨ x = 6%Z ∨ x = 7%Z)
    by (intros; lia).
  destruct (Hd a Ha) as [->|[->|[->|[->|[->|[->|[->| ->]]]]]]];
  destruct (Hd b Hb) as [->|[->|[->|[->|[->|[->|[->| ->]]]]]]];
  destruct (Hd c Hc) as [->|[->|[->|[->|[->|[->|[->| ->]]]]]]];
  reflexivity.
Qed.

Lemma parse_mode_encode mode : _parse_mode mode = Ok (Spec.encode mode).
Proof.
  unfold _parse_mode, Spec.encode. cbn [foldl].
  rewrite !symbol_lookup. cbv [String.append].
  rewrite int_three_digits by apply group_digit_range. reflexivity.
Qed.

Lemma encode_range mode :
  ∃ a b c, (0 ≤ a ≤ 7 ∧ 0 ≤ b ≤ 7 ∧ 0 ≤ c ≤ 7)%Z
           ∧ Spec.encode mode = (100 * a + 10 * b + c)%Z.
Proof.
  eexists _, _, _. split; [|reflexivity]. auto using group_digit_range.
Qed.

(** ** The loop over the tokens of a stat line *)

Lemma process_bit_ok data pt bit :
  Spec.well_formed bit = true →
  File.process_bit (data, pt) bit
  = Ok (Spec.record [bit] data, Spec.resolved_type [bit] pt).
Proof.
  unfold Spec.well_formed, File.process_bit, Spec.record, Spec.resolved_type,
    Spec.key_value; cbn [foldl].
  destruct (Py.split bit "=") as [|key [|v [|? ?]]]; try discriminate.
  unfold Spec.field, Spec.times.
  destruct (bool_decide (key = "mode")) eqn:Hmode.
  - intros Hflag%bool_decide_eq_true. destruct Hflag as [ty Hty].
    unfold Spec.flag_type in *. destruct v as [|c v]; [discriminate|].
    cbn [Py.first_char mbind result_bind]. rewrite Hty. cbn [of_option].
    rewrite parse_mode_encode. reflexivity.
  - destruct (bool_decide (key = "size")); [reflexivity|].
    destruct (bool_decide (key ∈ ["atime"; "mtime"; "ctime"])); [|reflexivity].
    unfold try_int. destruct (Py.int v) as [n|]; [|reflexivity].
    unfold Spec.representable, utcfromtimestamp. intros ->. reflexivity.
Qed.

Lemma process_bit_wf st bit st' :
  File.process_bit st bit = Ok st' → Spec.well_formed bit = true.
Proof.
  destruct st as [data pt].
  unfold Spec.well_formed, File.process_bit, Spec.key_value.
  destruct (Py.split bit "=") as [|key [|v [|? ?]]]; try discriminate.
  unfold Spec.times.
  destruct (bool_decide (key = "mode")) eqn:Hmode.
  - unfold Spec.flag_type. destruct v as [|c v]; [discriminate|].
    cbn [Py.first_char mbind result_bind].
    destruct (FLAG_TO_TYPE !! String c "") as [ty|]; [|discriminate].
    intros _. apply bool_decide_eq_true. by eexists.
  - destruct (bool_decide (key = "size")) eqn:Hsize.
    { apply bool_decide_eq_true in Hsize as ->. reflexivity. }
    destruct (bool_decide (key ∈ ["atime"; "mtime"; "ctime"])); [|reflexivity].
    unfold try_int. destruct (Py.int v) as [n|]; [|reflexivity].
    unfold Spec.representable, utcfromtimestamp.
    destruct (_ && _)%bool; [reflexivity|discriminate].
Qed.

Lemma record_cons bit bits data :
  Spec.record (bit :: bits) data = Spec.record bits (Spec.record [bit] data).
Proof. reflexivity. Qed.

Lemma resolved_type_cons bit bits pt :
  Spec.resolved_type (bit :: bits) pt
  = Spec.resolved_type bits (Spec.resolved_type [bit] pt).
Proof. reflexivity. Qed.

(** The loop over the tokens runs to its end exactly on well-formed tokens,
    and then computes the record and the resolved type. *)
Lemma process_bits_ok bits data pt :
  forallb Spec.well_formed bits = true →
  File.process_bits bits (data, pt)
  = Ok (Spec.record bits data, Spec.resolved_type bits pt).
Proof.
  revert data pt. induction bits as [|bit bits IH]; intros data pt Hwf.
  - reflexivity.
  - cbn [forallb] in Hwf. apply andb_true_iff in Hwf as [Hbit Hbits].
    cbn [File.process_bits]. rewrite process_bit_ok by done.
    cbn [mbind result_bind]. rewrite IH by done.
    by rewrite <- record_cons, <- resolved_type_cons.
Qed.

Lemma process_bits_wf bits st st' :
  File.process_bits bits st = Ok st' → forallb Spec.well_formed bits = true.
Proof.
  revert st. induction bits as [|bit bits IH]; intros st; [done|].
  cbn [File.process_bits forallb].
  destruct (File.process_bit st bit) as [st1| |] eqn:Hbit; try discriminate.
  cbn [mbind result_bind]. intros Hrest.
  apply andb_true_iff. split; [by eapply process_bit_wf | by eapply IH].
Qed.

Lemma process_bits_inv bits data pt data' pt' :
  File.process_bits bits (data, pt) = Ok (data', pt') →
  forallb Spec.well_formed bits = true
  ∧ data' = Spec.record bits data ∧ pt' = Spec.resolved_type bits pt.
Proof.
  intros Hrun. pose proof (process_bits_wf _ _ _ Hrun) as Hwf.
  rewrite process_bits_ok in Hrun by done. by simplify_eq.
Qed.

Lemma process_bits_app bits1 bits2 st :
  File.process_bits (bits1 ++ bits2) st
  = File.process_bits bits1 st ≫= File.process_bits bits2.
Proof.
  revert st. induction bits1 as [|bit bits1 IH]; intros st; [done|].
  cbn [app File.process_bits].
  destruct (File.process_bit st bit) as [st'| |]; [|done..].
  cbn [mbind result_bind]. apply IH.
Qed.

(** The exception a token that is not well formed raises. *)
Lemma process_bit_bad st bit :
  Spec.well_formed bit = false →
  ∃ e, File.process_bit st bit = Raise e
       ∧ (Spec.key_value bit = None → e = ValueError)
       ∧ (∀ v, Spec.key_value bit = Some ("mode", v) →
               e = if bool_decide (v = "") then IndexError else KeyError).
Proof.
  destruct st as [data pt].
  unfold Spec.well_formed, File.process_bit, Spec.key_value.
  destruct (Py.split bit "=") as [|key [|v [|? ?]]];
    try (intros _; exists ValueError; by repeat split).
  unfold Spec.times, Spec.flag_type.
  destruct (bool_decide (key = "mode")) eqn:Hmode.
  - apply bool_decide_eq_true in Hmode as ->.
    destruct v as [|c v].
    + intros _. exists IndexError. repeat split; [done|].
      intros v [= <-]. done.
    + cbn [Py.first_char mbind result_bind].
      destruct (FLAG_TO_TYPE !! String c "") as [ty|] eqn:Hflag.
      { intros Hwf%bool_decide_eq_false. destruct Hwf. by eexists. }
      intros _. exists KeyError. repeat split; [done|].
      intros v' [= <-]. done.
  - apply bool_decide_eq_false in Hmode.
    destruct (bool_decide (key = "size")) eqn:Hsize.
    { apply bool_decide_eq_true in Hsize as ->. discriminate. }
    destruct (bool_decide (key ∈ ["atime"; "mtime"; "ctime"]));
      [|discriminate].
    unfold try_int. destruct (Py.int v) as [n|]; [|discriminate].
    unfold Spec.representable, utcfromtimestamp. intros ->.
    exists OverflowError. repeat split; [done|]. intros v' [= ? ?]. done.
Qed.

(** The loop stops at the first token that is not well formed. *)
Lemma process_bits_bad pre bit post :
  forallb Spec.well_formed pre = true →
  Spec.well_formed bit = false →
  ∃ e, File.process_bits (pre ++ bit :: post) (∅, None) = Raise e
       ∧ (Spec.key_value bit = None → e = ValueError)
       ∧ (∀ v, Spec.key_value bit = Some ("mode", v) →
               e = if bool_decide (v = "") then IndexError else KeyError).
Proof.
  intros Hpre Hbit.
  destruct (process_bit_bad (Spec.record pre ∅, Spec.resolved_type pre None)
              bit Hbit) as (e & Hraise & Hshape).
  exists e. split; [|done].
  rewrite process_bits_app, process_bits_ok by done.
  cbn [mbind result_bind File.process_bits]. by rewrite Hraise.
Qed.

(** Among tokens that are not all well formed there is a first one that
    is not. *)
Lemma first_ill_formed bits :
  forallb Spec.well_formed bits = false →
  ∃ pre bit post, bits = pre ++ bit :: post
                  ∧ forallb Spec.well_formed pre = true
                  ∧ Spec.well_formed bit = false.
Proof.
  induction bits as [|b bits IH]; [done|]. cbn [forallb].
  destruct (Spec.well_formed b) eqn:Hb.
  - cbn [andb]. intros (pre & bit & post & -> & Hpre & Hbit)%IH.
    exists (b :: pre), bit, post. cbn [forallb]. by rewrite Hb, Hpre.
  - intros _. by exists [], b, bits.
Qed.

(** The keys of a record are those of its tokens and of the record it
    started from. *)
Lemma record_dom bits data key :
  is_Some (Spec.record bits data !! key)
  ↔ key ∈ Spec.keys bits ∨ is_Some (data !! key).
Proof.
  revert data. induction bits as [|bit bits IH]; intros data.
  - unfold Spec.keys. cbn. rewrite elem_of_nil. tauto.
  - rewrite record_cons, IH. unfold Spec.record, Spec.keys.
    cbn [foldl omap list_omap].
    destruct (Spec.key_value bit) as [[k v]|]; simpl.
    + rewrite elem_of_cons. destruct (decide (key = k)) as [->|Hne].
      * rewrite lookup_insert_eq. split; [by left; left|].
        intros _. by right.
      * rewrite lookup_insert_ne by done. tauto.
    + done.
Qed.

(** ** The stat parser *)


Lemma process_well_formed ty line more bits filename :
  Py.split_ws line 7 = bits ++ [filename] →
  forallb Spec.well_formed bits = true →
  File.process ty (line :: more) = Spec.stat_outcome ty bits filename.
Proof.
  intros Hsplit Hwf. unfold File.process, Spec.stat_outcome.
  cbn [lookup list_lookup of_option mbind result_bind].
  rewrite Hsplit, last_snoc, removelast_last.
  cbn [of_option mbind result_bind].
  rewrite process_bits_ok by done. reflexivity.
Qed.

(** The parser on a line with a last word, up to the loop. *)
Lemma process_tokens ty line more bits filename :
  Py.split_ws line 7 = bits ++ [filename] →
  File.process ty (line :: more)
  = '(data, path_type) ← File.process_bits bits (∅, None);
    if bool_decide (path_type ≠ Some ty) then Ok PyFalse
    else if bool_decide (path_type = Some "link") then
      match Py.split filename " -> " with
      | [_; target] =>
          Ok (Data (<["link_target" := Str (Py.strip target "'")]> data))
      | _ => Raise ValueError
      end
    else Ok (Data data).
Proof.
  intros Hsplit. unfold File.process.
  cbn [lookup list_lookup of_option mbind result_bind].
  rewrite Hsplit, last_snoc, removelast_last. reflexivity.
Qed.

Lemma process_raises ty line more bits filename e :
  Py.split_ws line 7 = bits ++ [filename] →
  File.process_bits bits (∅, None) = Raise e →
  File.process ty (line :: more) = Raise e.
Proof.
  intros Hsplit Hbits. rewrite (process_tokens _ _ _ _ _ Hsplit).
  by rewrite Hbits.
Qed.

Lemma process_returns_inv ty output r :
  File.process ty output = Ok r →
  ∃ line more bits filename,
    output = line :: more
    ∧ Py.split_ws line 7 = bits ++ [filename]
    ∧ forallb Spec.well_formed bits = true
    ∧ Spec.stat_outcome ty bits filename = Ok r.
Proof.
  intros Hrun. destruct output as [|line more]; [discriminate|].
  destruct (Py.split_ws line 7) as [|tok toks] eqn:Hsplit using rev_ind.
  { unfold File.process in Hrun.
    cbn [lookup list_lookup of_option mbind result_bind] in Hrun.
    rewrite Hsplit in Hrun. discriminate. }
  clear IHtoks. rename toks into bits, tok into filename.
  assert (Hwf : forallb Spec.well_formed bits = true).
  { unfold File.process in Hrun.
    cbn [lookup list_lookup of_option mbind result_bind] in Hrun.
    rewrite Hsplit, last_snoc, removelast_last in Hrun.
    cbn [of_option mbind result_bind] in Hrun.
    destruct (File.process_bits bits (∅, None)) as [st| |] eqn:Hbits;
      try discriminate.
    by eapply process_bits_wf. }
  exists line, more, bits, filename. repeat split; try done.
  by rewrite <- (process_well_formed ty line more).
Qed.

Lemma record_snoc bits bit data :
  Spec.record (bits ++ [bit]) data = Spec.record [bit] (Spec.record bits data).
Proof. unfold Spec.record. by rewrite foldl_app. Qed.

Lemma record_lookup_other bits data key :
  key ∉ Spec.keys bits → Spec.record bits data !! key = data !! key.
Proof.
  revert data. induction bits as [|bit bits IH]; intros data Hkey; [done|].
  rewrite record_cons, IH.
  - unfold Spec.record; cbn [foldl].
    unfold Spec.keys in Hkey; cbn [omap list_omap] in Hkey.
    destruct (Spec.key_value bit) as [[k v]|]; [|done].
    cbn in Hkey. apply not_elem_of_cons in Hkey as [Hne _].
    by rewrite lookup_insert_ne.
  - unfold Spec.keys in *; cbn [omap list_omap] in Hkey.
    destruct (fst <$> Spec.key_value bit); [|done].
    by apply not_elem_of_cons in Hkey as [_ ?].
Qed.

(** Once a mode token has resolved to a type, the record holds the encoded
    permissions of a mode token. *)
Lemma mode_recorded bits data pt :
  (is_Some pt → ∃ v, data !! "mode" = Some (Int (Spec.encode v))) →
  is_Some (Spec.resolved_type bits pt) →
  ∃ v, Spec.record bits data !! "mode" = Some (Int (Spec.encode v)).
Proof.
  revert data pt. induction bits as [|bit bits IH]; intros data pt Hinv Hty.
  - by apply Hinv.
  - rewrite record_cons. rewrite resolved_type_cons in Hty.
    eapply IH; [|exact Hty].
    unfold Spec.record, Spec.resolved_type; cbn [foldl].
    destruct (Spec.key_value bit) as [[k v]|]; [|done].
    unfold Spec.field.
    destruct (bool_decide (k = "mode")) eqn:Hk.
    + apply bool_decide_eq_true in Hk as ->. intros _.
      eexists. by rewrite lookup_insert_eq.
    + apply bool_decide_eq_false in Hk. intros Hpt.
      rewrite lookup_insert_ne by done. by apply Hinv.
Qed.

Lemma stat_outcome_data ty bits filename d :
  Spec.stat_outcome ty bits filename = Ok (Data d) →
  Spec.resolved_type bits None = Some ty
  ∧ ∀ key, key ≠ "link_target" → d !! key = Spec.record bits ∅ !! key.
Proof.
  unfold Spec.stat_outcome. case_bool_decide as Hty; [discriminate|].
  intros Hd. split; [done|]. intros key Hkey.
  case_bool_decide.
  - destruct (Py.split filename " -> ") as [|? [|target [|? ?]]];
      simplify_eq. by rewrite lookup_insert_ne.
  - by simplify_eq.
Qed.

(** C1: [_parse_mode] never raises and returns the integer whose decimal
    digits are the digits of the three consecutive three-character groups of
    its argument: the read=4/write=2/execute=1 sum of a group that is one of
    the eight canonical combinations, and 0 for any other group. *)
Theorem parse_mode_digits mode :
  _parse_mode mode
  = Ok (100 * Spec.group_digit (Py.slice mode 0 3)
        + 10 * Spec.group_digit (Py.slice mode 3 6)
        + Spec.group_digit (Py.slice mode 6 9))%Z.
Proof. apply parse_mode_encode. Qed.

Example parse_mode_754 : _parse_mode "rwxr-xr--" = Ok 754%Z.
Proof. reflexivity. Qed.

Example parse_mode_setuid_group : _parse_mode "rwsr-xr--" = Ok 54%Z.
Proof. reflexivity. Qed.

Example group_digit_canonical :
  Spec.group_digit <$> Spec.canonical_groups = [7; 6; 5; 4; 3; 2; 1; 0]%Z.
Proof. reflexivity. Qed.

(** C2, as stated, fails: a file with every permission bit set is recorded
    with mode 777, which is above 511. *)
Lemma mode_777_exceeds_511 :
  ∃ d, File.process File.type
         ["user=root group=root mode=-rwxrwxrwx atime=1 mtime=2 ctime=3 size=4 /a"]
       = Ok (Data d)
       ∧ d !! "mode" = Some (Int 777)
       ∧ ¬ (0 ≤ 777 ≤ 511)%Z.
Proof.
  exists (Spec.record ["user=root"; "group=root"; "mode=-rwxrwxrwx"; "atime=1";
                       "mtime=2"; "ctime=3"; "size=4"] ∅).
  split; [vm_compute; reflexivity|].
  split; [vm_compute; reflexivity | lia].
Qed.

(** C2, amended: the mode of every record the stat parser returns is an
    integer whose three decimal digits are each between 0 and 7, hence an
    integer between 0 and 777. *)
Theorem mode_three_octal_digits ty output d :
  File.process ty output = Ok (Data d) →
  ∃ a b c, (0 ≤ a ≤ 7 ∧ 0 ≤ b ≤ 7 ∧ 0 ≤ c ≤ 7)%Z
           ∧ d !! "mode" = Some (Int (100 * a + 10 * b + c)).
Proof.
  intros (line & more & bits & filename & -> & _ & _ & Hout)%process_returns_inv.
  apply stat_outcome_data in Hout as [Hty Hd].
  destruct (mode_recorded bits ∅ None) as [v Hv].
  - by intros [? ?].
  - by rewrite Hty.
  - destruct (encode_range v) as (a & b & c & Hrange & Heq).
    exists a, b, c. split; [done|]. by rewrite Hd, Hv, Heq.
Qed.

Lemma mode_three_octal_digits_witness :
  ∃ a b c, (0 ≤ a ≤ 7 ∧ 0 ≤ b ≤ 7 ∧ 0 ≤ c ≤ 7)%Z
    ∧ Spec.record ["user=root"; "group=root"; "mode=-rwxrwxrwx"; "atime=1";
                   "mtime=2"; "ctime=3"; "size=4"] ∅ !! "mode"
      = Some (Int (100 * a + 10 * b + c)).
Proof.
  apply (mode_three_octal_digits File.type
           ["user=root group=root mode=-rwxrwxrwx atime=1 mtime=2 ctime=3 size=4 /a"]).
  vm_compute. reflexivity.
Defined.

(** C3, as stated, fails: an unrecognised type flag raises [KeyError] and a
    token without an equals sign raises [ValueError]. *)
Lemma unknown_flag_or_bare_token_raises :
  File.process File.type
    ["user=root group=root mode=?rwxr-xr-x atime=1 mtime=2 ctime=3 size=4 /a"]
  = Raise KeyError
  ∧ File.process File.type
      ["user=root group mode=-rwxr-xr-x atime=1 mtime=2 ctime=3 size=4 /a"]
    = Raise ValueError.
Proof. split; vm_compute; reflexivity. Qed.

(** C3, amended: the stat parser on a first line, whatever lines follow.
    If the line has a last word, the tokens before it are all well formed
    (key=value shape, a type flag of [FLAG_TO_TYPE] in every mode, integer
    timestamps a datetime can hold) and, for the link fact on tokens that
    resolve to a link, the last word splits in two at the arrow, then the
    parser does not raise: it returns [False] when the tokens do not resolve
    to the type of the fact, and otherwise a record that holds, under every
    key but [link_target], the field of the last token of that key, as
    [Spec.field] converts it: 0 for a permission group that is not
    canonical, the raw text for a size or a timestamp that is no integer.
    Otherwise it raises: [IndexError] on a line without a word; at the first
    token that is not well formed, [ValueError] when it does not split in
    two at the equals sign, [IndexError] for a mode without a value and
    [KeyError] for a mode whose flag is not in the table; [ValueError] for
    the link fact on well-formed tokens that resolve to a link when the last
    word does not split in two at the arrow. *)
Theorem stat_fields_degrade_locally ty line more :
  (∀ bits filename,
     Py.split_ws line 7 = bits ++ [filename] →
     forallb Spec.well_formed bits = true →
     (ty = "link" → Spec.resolved_type bits None = Some "link" →
      length (Py.split filename " -> ") = 2) →
     (Spec.resolved_type bits None ≠ Some ty →
      File.process ty (line :: more) = Ok PyFalse)
     ∧ (Spec.resolved_type bits None = Some ty →
        ∃ d, File.process ty (line :: more) = Ok (Data d)
             ∧ ∀ key, key ≠ "link_target" →
                      d !! key = Spec.record bits ∅ !! key))
  ∧ (Py.split_ws line 7 = [] →
     File.process ty (line :: more) = Raise IndexError)
  ∧ (∀ pre bit post filename,
       Py.split_ws line 7 = pre ++ bit :: post ++ [filename] →
       forallb Spec.well_formed pre = true →
       Spec.well_formed bit = false →
       ∃ e, File.process ty (line :: more) = Raise e
            ∧ (Spec.key_value bit = None → e = ValueError)
            ∧ (∀ v, Spec.key_value bit = Some ("mode", v) →
                    e = if bool_decide (v = "") then IndexError
                        else KeyError))
  ∧ (∀ bits filename,
       Py.split_ws line 7 = bits ++ [filename] →
       forallb Spec.well_formed bits = true →
       ty = "link" → Spec.resolved_type bits None = Some "link" →
       length (Py.split filename " -> ") ≠ 2 →
       File.process ty (line :: more) = Raise ValueError).
Proof.
  split; [|split; [|split]].
  - intros bits filename Hsplit Hwf Hlink.
    rewrite (process_well_formed ty line more bits filename) by done.
    unfold Spec.stat_outcome. split.
    + intros Hty. by rewrite bool_decide_eq_true_2.
    + intros Hty. rewrite bool_decide_eq_false_2 by (by intros []).
      rewrite Hty. case_bool_decide as Hl.
      * assert (ty = "link") as -> by congruence.
        specialize (Hlink eq_refl Hty).
        destruct (Py.split filename " -> ") as [|? [|target [|? ?]]];
          try discriminate.
        eexists. split; [done|]. intros key Hkey.
        by rewrite lookup_insert_ne.
      * by eexists.
  - intros Hsplit. unfold File.process.
    cbn [lookup list_lookup of_option mbind result_bind].
    by rewrite Hsplit.
  - intros pre bit post filename Hsplit Hpre Hbit.
    destruct (process_bits_bad pre bit post Hpre Hbit) as (e & Hraise & Hshape).
    exists e. split; [|done].
    apply (process_raises ty line more (pre ++ bit :: post) filename);
      [|done].
    by rewrite Hsplit, <- app_assoc.
  - intros bits filename Hsplit Hwf -> Hty Hlen.
    rewrite (process_well_formed _ line more bits filename) by done.
    unfold Spec.stat_outcome. rewrite Hty.
    rewrite bool_decide_eq_false_2 by (by intros []).
    rewrite bool_decide_eq_true_2 by done.
    by destruct (Py.split filename " -> ") as [|? [|? [|? ?]]].
Qed.

Lemma stat_fields_degrade_locally_witness :
  ∃ d, File.process "file"
         ["user=root group=root mode=-rwsr-xr-- atime=never mtime=2 ctime=3 size=big /a"]
       = Ok (Data d)
       ∧ ∀ key, key ≠ "link_target" →
           d !! key
           = Spec.record
               ["user=root"; "group=root"; "mode=-rwsr-xr--";
                "atime=never"; "mtime=2"; "ctime=3"; "size=big"] ∅ !! key.
Proof.
  apply (proj1 (stat_fields_degrade_locally "file"
                  "user=root group=root mode=-rwsr-xr-- atime=never mtime=2 ctime=3 size=big /a"
                  [])
           ["user=root"; "group=root"; "mode=-rwsr-xr--";
            "atime=never"; "mtime=2"; "ctime=3"; "size=big"] "/a");
    [vm_compute; reflexivity | vm_compute; reflexivity | discriminate
    | vm_compute; reflexivity].
Defined.

Example degraded_fields :
  ∃ d, File.process "file"
         ["user=root group=root mode=-rwsr-xr-- atime=never mtime=2 ctime=3 size=big /a"]
       = Ok (Data d)
       ∧ d !! "mode" = Some (Int 54)
       ∧ d !! "atime" = Some (Str "never")
       ∧ d !! "size" = Some (Str "big")
       ∧ d !! "mtime" = Some (Datetime 2).
Proof.
  exists (Spec.record ["user=root"; "group=root"; "mode=-rwsr-xr--";
                       "atime=never"; "mtime=2"; "ctime=3"; "size=big"] ∅).
  repeat split; vm_compute; reflexivity.
Qed.

(** C4, as stated, fails: the loop over the tokens comes before the test
    of the type, so the directory fact raises on a line whose flag stands
    for a file when a token of the line has no equals sign. *)
Lemma type_mismatch_with_bare_token_raises :
  FLAG_TO_TYPE !! "-" = Some "file"
  ∧ "file" ≠ Directory.type
  ∧ Directory.process
      ["user=root group=root mode=-rw-r--r-- atime mtime=2 ctime=3 size=4 /etc/hosts"]
    = Raise ValueError.
Proof. split; [|split]; [vm_compute; reflexivity | discriminate | vm_compute; reflexivity]. Qed.

(** C4, amended: on a line with a last word whose tokens resolve to a type
    other than the type of the fact that parses it, the parser never
    returns a record: it returns [False], the absent value, when the tokens
    are all well formed, and raises when one of them is not. *)
Theorem type_mismatch_is_absent ty line more bits filename t :
  Py.split_ws line 7 = bits ++ [filename] →
  Spec.resolved_type bits None = Some t →
  t ≠ ty →
  (forallb Spec.well_formed bits = true →
   File.process ty (line :: more) = Ok PyFalse)
  ∧ (forallb Spec.well_formed bits = false →
     ∃ e, File.process ty (line :: more) = Raise e)
  ∧ ∀ d, File.process ty (line :: more) ≠ Ok (Data d).
Proof.
  intros Hsplit Ht Hne. split; [|split].
  - intros Hwf.
    rewrite (process_well_formed ty line more bits filename) by done.
    unfold Spec.stat_outcome. rewrite bool_decide_eq_true_2; [done|].
    congruence.
  - intros (pre & bit & post & -> & Hpre & Hbit)%first_ill_formed.
    destruct (process_bits_bad pre bit post Hpre Hbit) as (e & Hraise & _).
    exists e. by apply (process_raises ty line more (pre ++ bit :: post) filename).
  - intros d Hrun.
    destruct (process_returns_inv _ _ _ Hrun)
      as (? & ? & bits' & filename' & [= <- <-] & Hsplit' & _ & Hout).
    rewrite Hsplit in Hsplit'. apply app_inj_tail in Hsplit' as [<- <-].
    apply stat_outcome_data in Hout as [Hty _]. congruence.
Qed.

Lemma type_mismatch_is_absent_witness :
  Directory.process
    ["user=root group=root mode=-rw-r--r-- atime=1 mtime=2 ctime=3 size=4 /etc/hosts"]
  = Ok PyFalse.
Proof.
  apply (proj1 (type_mismatch_is_absent Directory.type
                  "user=root group=root mode=-rw-r--r-- atime=1 mtime=2 ctime=3 size=4 /etc/hosts"
                  []
                  ["user=root"; "group=root"; "mode=-rw-r--r--";
                   "atime=1"; "mtime=2"; "ctime=3"; "size=4"] "/etc/hosts"
                  "file" eq_refl eq_refl ltac:(discriminate))).
  vm_compute. reflexivity.
Defined.

(** ** Stripping quotes *)

Lemma ltrim_length test s : String.length (Py.ltrim test s) ≤ String.length s.
Proof.
  induction s as [|c s IH]; cbn [Py.ltrim String.length]; [lia|].
  destruct (test c); cbn [String.length]; lia.
Qed.

Lemma rtrim_length test s : String.length (Py.rtrim test s) ≤ String.length s.
Proof.
  induction s as [|c s IH]; cbn [Py.rtrim String.length]; [lia|].
  destruct (Py.rtrim test s); [destruct (test c)|];
    cbn [String.length] in *; lia.
Qed.

Lemma rtrim_snoc test s c :
  test c = true →
  Py.rtrim test (s +:+ String c EmptyString) = Py.rtrim test s.
Proof.
  intros Hc. induction s as [|a s IH].
  - cbv [String.append]. cbn [Py.rtrim]. by rewrite Hc.
  - change (String a s +:+ String c "") with (String a (s +:+ String c "")).
    cbn [Py.rtrim]. by rewrite IH.
Qed.

(** A string that [strip] leaves alone loses exactly the quote put after it. *)
Lemma strip_trailing_quote t :
  Py.strip t "'" = t → Py.strip (t +:+ "'") "'" = t.
Proof.
  unfold Py.strip. set (q := λ c, Py.mem_char c "'"). intros Ht.
  assert (Hl : Py.ltrim q t = t).
  { pose proof (rtrim_length q (Py.ltrim q t)) as H1. rewrite Ht in H1.
    destruct t as [|c t]; [done|]. cbn [Py.ltrim] in *.
    destruct (q c); [|done].
    pose proof (ltrim_length q t). cbn [String.length] in H1. lia. }
  rewrite Hl in Ht.
  destruct t as [|c t].
  - reflexivity.
  - change (String c t +:+ "'") with (String c (t +:+ "'")).
    cbn [Py.ltrim] in *. destruct (q c) eqn:Hq.
    + pose proof (ltrim_length q t). rewrite Hl in H.
      cbn [String.length] in H. lia.
    + change (String c (t +:+ "'")) with (String c t +:+ "'").
      by rewrite rtrim_snoc.
Qed.

(** What the trimming takes off at the left, and at the right. *)
Lemma ltrim_spec test s :
  ∃ l, s = l +:+ Py.ltrim test s
       ∧ Spec.all_chars test l = true
       ∧ ∀ c, head_char (Py.ltrim test s) = Some c → test c = false.
Proof.
  induction s as [|a s (l & Hs & Hl & Hhead)].
  - by exists "".
  - cbn [Py.ltrim]. destruct (test a) eqn:Ha.
    + exists (String a l).
      change (String a l +:+ Py.ltrim test s)
        with (String a (l +:+ Py.ltrim test s)).
      rewrite <- Hs. cbn [Spec.all_chars]. by rewrite Ha, Hl.
    + exists "". split_and!; [done..|]. by intros c [= <-].
Qed.

Lemma rtrim_spec test s :
  ∃ r, s = Py.rtrim test s +:+ r
       ∧ Spec.all_chars test r = true
       ∧ ∀ c, last_char (Py.rtrim test s) = Some c → test c = false.
Proof.
  induction s as [|a s (r & Hs & Hr & Hlast)].
  - by exists "".
  - cbn [Py.rtrim]. destruct (Py.rtrim test s) as [|b u] eqn:Htrim.
    + change ("" +:+ r) with r in Hs. subst r. destruct (test a) eqn:Ha.
      * exists (String a s). cbn [Spec.all_chars]. by rewrite Ha, Hr.
      * exists s. split_and!; [done..|]. by intros c [= <-].
    + exists r.
      change (String a (String b u) +:+ r)
        with (String a (String b u +:+ r)).
      rewrite <- Hs. split_and!; [done..|]. intros c Hc. by apply Hlast.
Qed.

Lemma rtrim_head test s c :
  head_char (Py.rtrim test s) = Some c → head_char s = Some c.
Proof.
  destruct (rtrim_spec test s) as (r & Hs & _).
  destruct (Py.rtrim test s) as [|a u]; [done|].
  intros [= ->]. by rewrite Hs.
Qed.

(** [strip] takes the quotes off the two ends, all of them and nothing
    else. *)
Lemma strip_spec target :
  ∃ l r, target = l +:+ Py.strip target "'" +:+ r
         ∧ quotes l ∧ quotes r ∧ unquoted (Py.strip target "'").
Proof.
  unfold Py.strip, quotes, unquoted.
  set (q := λ c, Py.mem_char c "'").
  assert (Hq : ∀ c, q c = bool_decide (c = "'"%char)).
  { intros c. unfold q. cbn [Py.mem_char]. by rewrite orb_false_r. }
  assert (Hall : ∀ s, Spec.all_chars q s = true →
                      Spec.all_chars (λ c, bool_decide (c = "'"%char)) s = true).
  { induction s as [|a s IH]; [done|]. cbn [Spec.all_chars].
    intros [Ha Hs]%andb_true_iff. by rewrite <- Hq, Ha, IH. }
  destruct (ltrim_spec q target) as (l & Hl & Hall_l & Hhead).
  destruct (rtrim_spec q (Py.ltrim q target)) as (r & Hr & Hall_r & Hlast).
  exists l, r. split_and!.
  - by rewrite <- Hr.
  - by apply Hall.
  - by apply Hall.
  - intros Hc%rtrim_head%Hhead. by rewrite Hq in Hc.
  - intros Hc%Hlast. by rewrite Hq in Hc.
Qed.

(** C8, as stated, fails twice.  The quotes are stripped at both ends of
    the target, not only a trailing one: the line that GNU stat prints for
    a link to [/b] gives the target [/b], without its leading quote.  And a
    record of a type other than link holds a link target when a token of
    the line has that key. *)
Lemma leading_quote_stripped_and_key_collision :
  (∃ d, Link.process
          ["user=root group=root mode=lrwxrwxrwx atime=1 mtime=2 ctime=3 size=4 '/a' -> '/b'"]
        = Ok (Data d)
        ∧ d !! "link_target" = Some (Str "/b")
        ∧ "/b" ≠ "'/b")
  ∧ (∃ d, File.process File.type ["link_target=x mode=-rw-r--r-- /a"]
          = Ok (Data d)
          ∧ d !! "link_target" = Some (Str "x")
          ∧ File.type ≠ "link").
Proof.
  split.
  - exists (<["link_target" := Str "/b"]>
              (Spec.record ["user=root"; "group=root"; "mode=lrwxrwxrwx";
                            "atime=1"; "mtime=2"; "ctime=3"; "size=4"] ∅)).
    split; [vm_compute; reflexivity|]. split; [|discriminate].
    by rewrite lookup_insert_eq.
  - exists (Spec.record ["link_target=x"; "mode=-rw-r--r--"] ∅).
    split; [vm_compute; reflexivity|].
    split; [vm_compute; reflexivity | discriminate].
Qed.

(** C8, amended: a line with a last word, whose tokens are well formed and
    resolve to a link and whose last word splits at the arrow into a name
    and a target, parsed by the link fact, yields a record whose link target
    is the target with [strip] applied: the target without the single
    quotes at its two ends, all of them (the target is the link target with
    quotes only before and after it, and the link target neither starts nor
    ends with a quote); the name is not recorded and the other keys hold the
    fields of the tokens.  And a record returned by any of the stat facts has
    a link target exactly when the fact is the link fact or a token of the
    line has the key [link_target]. *)
Theorem link_target_iff_link :
  (∀ line more bits filename name target,
     Py.split_ws line 7 = bits ++ [filename] →
     forallb Spec.well_formed bits = true →
     Spec.resolved_type bits None = Some "link" →
     Py.split filename " -> " = [name; target] →
     ∃ d, Link.process (line :: more) = Ok (Data d)
          ∧ d !! "link_target" = Some (Str (Py.strip target "'"))
          ∧ (∃ l r, target = l +:+ Py.strip target "'" +:+ r
                    ∧ quotes l ∧ quotes r ∧ unquoted (Py.strip target "'"))
          ∧ ∀ key, key ≠ "link_target" → d !! key = Spec.record bits ∅ !! key)
  ∧ (∀ ty line more bits filename d,
       Py.split_ws line 7 = bits ++ [filename] →
       File.process ty (line :: more) = Ok (Data d) →
       is_Some (d !! "link_target")
       ↔ ty = "link" ∨ "link_target" ∈ Spec.keys bits).
Proof.
  split.
  - intros line more bits filename name target Hsplit Hwf Hty Htarget.
    unfold Link.process.
    rewrite (process_well_formed _ line more bits filename) by done.
    unfold Spec.stat_outcome, Link.type. rewrite Hty, Htarget.
    rewrite bool_decide_eq_false_2 by (by intros []).
    rewrite bool_decide_eq_true_2 by done.
    eexists. split; [done|]. split; [|split].
    + by rewrite lookup_insert_eq.
    + apply strip_spec.
    + intros key Hkey. by rewrite lookup_insert_ne.
  - intros ty line more bits filename d Hsplit Hrun.
    apply process_returns_inv in Hrun
      as (line' & more' & bits' & filename' & [= <- <-] & Hsplit' & _ & Hout).
    rewrite Hsplit in Hsplit'. apply app_inj_tail in Hsplit' as [<- <-].
    unfold Spec.stat_outcome in Hout.
    case_bool_decide as Hty; [discriminate|].
    case_bool_decide as Hlink.
    + destruct (Py.split filename " -> ") as [|? [|target [|? ?]]];
        simplify_eq. rewrite lookup_insert_eq. split; [|by eexists].
      intros _. left. congruence.
    + simplify_eq. rewrite record_dom, lookup_empty, is_Some_alt.
      split; [intros [?|[]]; by right|].
      intros [->|?]; [congruence|by left].
Qed.

Lemma link_target_iff_link_witness :
  ∃ d, Link.process
         ["user=root group=root mode=lrwxrwxrwx atime=1 mtime=2 ctime=3 size=4 /a -> /b'"]
       = Ok (Data d)
       ∧ d !! "link_target" = Some (Str "/b")
       ∧ (∃ l r, "/b'" = l +:+ "/b" +:+ r
                 ∧ quotes l ∧ quotes r ∧ unquoted "/b")
       ∧ ∀ key, key ≠ "link_target" →
           d !! key
           = Spec.record ["user=root"; "group=root"; "mode=lrwxrwxrwx";
                          "atime=1"; "mtime=2"; "ctime=3"; "size=4"] ∅ !! key.
Proof.
  apply (proj1 link_target_iff_link
           "user=root group=root mode=lrwxrwxrwx atime=1 mtime=2 ctime=3 size=4 /a -> /b'"
           []
           ["user=root"; "group=root"; "mode=lrwxrwxrwx";
            "atime=1"; "mtime=2"; "ctime=3"; "size=4"]
           "/a -> /b'" "/a" "/b'");
    vm_compute; reflexivity.
Defined.

(** ** Regular expressions built from a literal path *)

Lemma list_bind_assoc {A B C} (f : A → list B) (g : B → list C) (l : list A) :
  (l ≫= f) ≫= g = l ≫= (λ x, f x ≫= g).
Proof.
  induction l as [|x l IH]; [done|].
  by rewrite !bind_cons, bind_app, IH.
Qed.

Lemma list_bind_ret {A} (l : list A) : l ≫= (λ x, [x]) = l.
Proof. induction l as [|x l IH]; [done|]. by rewrite bind_cons, IH. Qed.

Lemma string_app_cons c s t : String c s +:+ t = String c (s +:+ t).
Proof. reflexivity. Qed.

Lemma string_app_empty n : n +:+ "" = n.
Proof. induction n as [|c n IH]; [done|]. by rewrite string_app_cons, IH. Qed.

Lemma string_length_app n rest :
  String.length (n +:+ rest) = String.length n + String.length rest.
Proof.
  induction n as [|c n IH]; [done|].
  rewrite string_app_cons. cbn [String.length]. by rewrite IH.
Qed.

Lemma literal_cons c s :
  Spec.literal (String c s) ↔ Spec.literal_char c = true ∧ Spec.literal s.
Proof. unfold Spec.literal; cbn [Spec.all_chars]. apply andb_true_iff. Qed.

Lemma literal_app n r : Spec.literal (n +:+ r) → Spec.literal r.
Proof.
  induction n as [|c n IH]; [done|].
  rewrite string_app_cons. intros [_ ?]%literal_cons. auto.
Qed.

Lemma literal_char_not_space c :
  Spec.literal_char c = true → Py.is_space c = false.
Proof.
  unfold Spec.literal_char. intros [_ H]%andb_true_iff.
  by apply negb_true_iff.
Qed.

Lemma literal_no_space_start q :
  Spec.literal q →
  match q with String a _ => Py.is_space a = false | EmptyString => True end.
Proof.
  destruct q as [|a q]; [done|].
  intros [Ha _]%literal_cons. by apply literal_char_not_space.
Qed.

(** A literal character is a token of its own. *)
Lemma lex_literal_char c s :
  Spec.literal_char c = true →
  Re.lex 0 (String c s) = Re.TLit c :: Re.lex 0 s.
Proof.
  unfold Spec.literal_char. intros [H _]%andb_true_iff.
  apply negb_true_iff in H. cbn [Py.mem_char] in H.
  repeat (apply orb_false_iff in H as [? H]).
  cbn [Re.lex]. change Re.backslash with "\"%char. unfold Re.special.
  repeat match goal with
         | Hc : bool_decide (c = ?x) = false |- _ => rewrite Hc; clear Hc
         end.
  reflexivity.
Qed.

Lemma lex_literal n rest :
  Spec.literal n →
  Re.lex 0 (n +:+ rest)
  = (Re.TLit <$> list_ascii_of_string n) ++ Re.lex 0 rest.
Proof.
  induction n as [|c n IH]; [done|].
  intros [Hc Hn]%literal_cons.
  rewrite string_app_cons, lex_literal_char by done.
  cbn [list_ascii_of_string fmap list_fmap app]. by rewrite <- IH.
Qed.

Lemma parse_app ts1 ts2 st :
  Re.parse (ts1 ++ ts2) st = Re.parse ts1 st ≫= Re.parse ts2.
Proof.
  revert st. induction ts1 as [|t ts1 IH]; intros st; [done|].
  cbn [app Re.parse]. destruct (Re.step t st); cbn [mbind result_bind]; auto.
Qed.

Lemma parse_literal l st :
  Re.parse (Re.TLit <$> l) st
  = Ok (Re.PState (rev (Re.Lit <$> l) ++ Re.items st) (Re.alts st)
          (Re.stack st) (Re.next_group st)).
Proof.
  revert st. induction l as [|c l IH]; intros st.
  - by destruct st.
  - cbn [fmap list_fmap Re.parse Re.step mbind result_bind].
    rewrite IH. unfold Re.push. cbn [Re.items Re.alts Re.stack Re.next_group rev].
    by rewrite <- app_assoc.
Qed.

(** A pattern made of a fixed text, a literal path and a fixed text, where
    the path stands outside every group: its items are those of the two
    texts with the characters of the path in between. *)
Lemma compile_around_literal pre post n its1 its2 g1 g2 :
  (∀ rest, Re.lex 0 (pre +:+ rest) = Re.lex 0 pre ++ Re.lex 0 rest) →
  Re.parse (Re.lex 0 pre) (Re.PState [] [] [] 1)
  = Ok (Re.PState (rev its1) [] [] g1) →
  (∀ its, Re.parse (Re.lex 0 post) (Re.PState its [] [] g1)
          = Ok (Re.PState (rev its2 ++ its) [] [] g2)) →
  Spec.literal n →
  Re.compile (pre +:+ n +:+ post)
  = Ok (Re.seq_of (rev (its1 ++ lits n ++ its2)), g2 - 1).
Proof.
  intros Hlex Hpre Hpost Hn. unfold Re.compile.
  rewrite Hlex, lex_literal, !parse_app, Hpre by done.
  cbn [mbind result_bind]. rewrite parse_app, parse_literal.
  cbn [mbind result_bind Re.items Re.alts Re.stack Re.next_group].
  rewrite Hpost. cbn [mbind result_bind Re.stack Re.items Re.alts Re.next_group
                      Re.alt_of foldl].
  unfold lits. by rewrite !rev_app_distr, <- !app_assoc.
Qed.

(** The patterns of the three checksum facts, for a literal path. *)

Lemma compile_sha1_gnu n :
  Spec.literal n →
  Re.compile ("^([a-zA-Z0-9]{40})\s+" +:+ n +:+ "$")
  = Ok (Re.seq_of (rev (gnu_items 40 n)), 1).
Proof.
  apply (compile_around_literal _ _ n [Re.Bol; digest_group 40; spaces]
           [Re.Eol] 2 2);
    [intros; reflexivity | vm_compute; reflexivity | intros; reflexivity].
Qed.

Lemma compile_sha256_gnu n :
  Spec.literal n →
  Re.compile ("^([a-zA-Z0-9]{64})\s+" +:+ n +:+ "$")
  = Ok (Re.seq_of (rev (gnu_items 64 n)), 1).
Proof.
  apply (compile_around_literal _ _ n [Re.Bol; digest_group 64; spaces]
           [Re.Eol] 2 2);
    [intros; reflexivity | vm_compute; reflexivity | intros; reflexivity].
Qed.

Lemma compile_md5_gnu n :
  Spec.literal n →
  Re.compile ("^([a-zA-Z0-9]{32})\s+" +:+ n +:+ "$")
  = Ok (Re.seq_of (rev (gnu_items 32 n)), 1).
Proof.
  apply (compile_around_literal _ _ n [Re.Bol; digest_group 32; spaces]
           [Re.Eol] 2 2);
    [intros; reflexivity | vm_compute; reflexivity | intros; reflexivity].
Qed.

Lemma compile_sha1_bsd n :
  Spec.literal n →
  Re.compile ("^SHA1\s+\(" +:+ n +:+ "\)\s+=\s+([a-zA-Z0-9]{40})$")
  = Ok (Re.seq_of (rev (bsd_items "SHA1" 40 n)), 1).
Proof.
  apply (compile_around_literal _ _ n
           ((Re.Bol :: lits "SHA1") ++ [spaces; Re.Lit "("])
           [Re.Lit ")"; spaces; Re.Lit "="; spaces; digest_group 40; Re.Eol]
           1 2);
    [intros; reflexivity | vm_compute; reflexivity | intros; reflexivity].
Qed.

Lemma compile_sha256_bsd n :
  Spec.literal n →
  Re.compile ("^SHA256\s+\(" +:+ n +:+ "\)\s+=\s+([a-zA-Z0-9]{64})$")
  = Ok (Re.seq_of (rev (bsd_items "SHA256" 64 n)), 1).
Proof.
  apply (compile_around_literal _ _ n
           ((Re.Bol :: lits "SHA256") ++ [spaces; Re.Lit "("])
           [Re.Lit ")"; spaces; Re.Lit "="; spaces; digest_group 64; Re.Eol]
           1 2);
    [intros; reflexivity | vm_compute; reflexivity | intros; reflexivity].
Qed.

Lemma compile_md5_bsd n :
  Spec.literal n →
  Re.compile ("^SHA256\s+\(" +:+ n +:+ "\)\s+=\s+([a-zA-Z0-9]{32})$")
  = Ok (Re.seq_of (rev (bsd_items "SHA256" 32 n)), 1).
Proof.
  apply (compile_around_literal _ _ n
           ((Re.Bol :: lits "SHA256") ++ [spaces; Re.Lit "("])
           [Re.Lit ")"; spaces; Re.Lit "="; spaces; digest_group 32; Re.Eol]
           1 2);
    [intros; reflexivity | vm_compute; reflexivity | intros; reflexivity].
Qed.

(** ** Matching *)

Lemma matches_all_app rs1 rs2 st :
  Re.matches_all (rs1 ++ rs2) st
  = Re.matches_all rs1 st ≫= Re.matches_all rs2.
Proof.
  revert st. induction rs1 as [|r rs1 IH]; intros st.
  - cbn [app Re.matches_all]. by rewrite bind_singleton.
  - cbn [app Re.matches_all]. rewrite list_bind_assoc.
    by apply list_bind_ext.
Qed.

Lemma matches_all_singleton r st : Re.matches_all [r] st = Re.matches r st.
Proof. cbn [Re.matches_all]. apply list_bind_ret. Qed.

(** A compiled sequence matches its items one after the other. *)
Lemma matches_seq_of items st :
  Re.matches (Re.seq_of items) st = Re.matches_all (rev items) st.
Proof.
  unfold Re.seq_of.
  enough (∀ acc, Re.matches (foldl (λ acc r, Re.Seq r acc) acc items) st
                 = Re.matches_all (rev items) st ≫= Re.matches acc) as ->.
  { apply list_bind_ret. }
  induction items as [|r items IH]; intros acc.
  - cbn [foldl rev Re.matches_all]. by rewrite bind_singleton.
  - cbn [foldl rev]. rewrite IH, matches_all_app, list_bind_assoc.
    apply list_bind_ext; [|done]. intros x.
    by rewrite matches_all_singleton.
Qed.

Lemma has_prefix_split n s :
  Py.has_prefix n s = true → s = n +:+ Py.str_drop (String.length n) s.
Proof.
  revert s. induction n as [|c n IH]; intros s; [done|].
  destruct s as [|d s]; [done|]. cbn [Py.has_prefix].
  intros [->%bool_decide_eq_true Hn]%andb_true_iff.
  cbn [String.length Py.str_drop]. rewrite string_app_cons. f_equal. auto.
Qed.

Lemma has_prefix_refl n rest : Py.has_prefix n (n +:+ rest) = true.
Proof.
  induction n as [|c n IH]; [done|].
  rewrite string_app_cons. cbn [Py.has_prefix].
  by rewrite bool_decide_eq_true_2, IH.
Qed.

Lemma str_drop_app n rest : Py.str_drop (String.length n) (n +:+ rest) = rest.
Proof. induction n as [|c n IH]; [done|]. by rewrite string_app_cons. Qed.

Lemma str_take_app n rest : Py.str_take (String.length n) (n +:+ rest) = n.
Proof.
  induction n as [|c n IH]; [by destruct rest|].
  rewrite string_app_cons. cbn [String.length Py.str_take]. by rewrite IH.
Qed.

Lemma has_prefix_self n : Py.has_prefix n n = true.
Proof.
  pose proof (has_prefix_refl n "") as H. by rewrite string_app_empty in H.
Qed.

Lemma str_drop_self n : Py.str_drop (String.length n) n = "".
Proof.
  pose proof (str_drop_app n "") as H. by rewrite string_app_empty in H.
Qed.

(** A run of literals matches exactly when the text starts with them. *)
Lemma matches_all_literals n p s c :
  Re.matches_all (lits n) (Re.MState p s c)
  = if Py.has_prefix n s
    then [Re.MState (p + String.length n) (Py.str_drop (String.length n) s) c]
    else [].
Proof.
  unfold lits. revert p s. induction n as [|a n IH]; intros p s.
  - cbn. by rewrite Nat.add_0_r.
  - cbn [list_ascii_of_string fmap list_fmap Re.matches_all Re.matches].
    unfold Re.one; cbn [Re.rest Re.pos Re.caps].
    destruct s as [|d s]; [done|]. cbn [Py.has_prefix].
    destruct (decide (a = d)) as [->|Hne].
    + rewrite !bool_decide_eq_true_2 by done.
      rewrite bind_singleton, IH. cbn [andb String.length Py.str_drop].
      by rewrite Nat.add_succ_r.
    + rewrite !bool_decide_eq_false_2 by congruence. done.
Qed.

Lemma one_cons test p a s c :
  Re.one test (Re.MState p (String a s) c)
  = if test a then [Re.MState (S p) s c] else [].
Proof. reflexivity. Qed.

(** A repetition of exactly [k] characters of a class consumes a run of
    them, or fails. *)
Lemma iterate_run test k fuel count p s c :
  count ≤ k →
  String.length s < fuel →
  Re.iterate (Re.one test) k (Some k) fuel count (Re.MState p s c)
  = match run_of test (k - count) s with
    | Some r => [Re.MState (p + (k - count)) r c]
    | None => []
    end.
Proof.
  revert count p s. induction fuel as [|fuel IH]; intros count p s Hk Hfuel;
    [lia|].
  cbn [Re.iterate Re.below].
  destruct (decide (count = k)) as [->|Hne].
  - rewrite Nat.ltb_irrefl, Nat.leb_refl, Nat.sub_diag. cbn [run_of app].
    by rewrite Nat.add_0_r.
  - replace (count <? k) with true by (symmetry; apply Nat.ltb_lt; lia).
    replace (k <=? count) with false by (symmetry; apply Nat.leb_gt; lia).
    replace (k - count) with (S (k - S count)) by lia.
    rewrite app_nil_r. cbn [run_of].
    destruct s as [|a s]; [done|]. rewrite one_cons.
    destruct (test a); [|done].
    rewrite bind_singleton, IH by (cbn [String.length] in Hfuel; lia).
    destruct (run_of test (k - S count) s); [|done].
    by rewrite Nat.add_succ_r.
Qed.

Lemma run_of_app test d rest :
  Spec.all_chars test d = true →
  run_of test (String.length d) (d +:+ rest) = Some rest.
Proof.
  induction d as [|a d IH]; [done|]. cbn [Spec.all_chars].
  intros [Ha Hd]%andb_true_iff. rewrite string_app_cons.
  cbn [String.length run_of]. rewrite Ha. auto.
Qed.

Lemma all_chars_ext f g s :
  (∀ c, f c = g c) → Spec.all_chars f s = Spec.all_chars g s.
Proof.
  intros Hfg. induction s as [|c s IH]; [done|].
  cbn [Spec.all_chars]. by rewrite Hfg, IH.
Qed.

Lemma in_alnum c : Re.in_set false alnum c = Py.is_alpha c || Py.is_digit c.
Proof. destruct c as [[] [] [] [] [] [] [] []]; reflexivity. Qed.

Lemma alnum_not_space c :
  Py.is_alpha c || Py.is_digit c = true → Py.is_space c = false.
Proof. destruct c as [[] [] [] [] [] [] [] []]; vm_compute; congruence. Qed.

(** The digest group consumes [k] letters or digits and captures them. *)
Lemma matches_digest_group k p s c :
  Re.matches (digest_group k) (Re.MState p s c)
  = match run_of (Re.in_set false alnum) k s with
    | Some r => [Re.MState (p + k) r (<[1 := Py.str_take k s]> c)]
    | None => []
    end.
Proof.
  unfold digest_group.
  cbn [Re.matches]. rewrite matches_seq_of. cbn [rev app].
  rewrite matches_all_singleton. cbn [Re.matches Re.rest].
  change (Re.matches (Re.CharSet false alnum))
    with (Re.one (Re.in_set false alnum)).
  rewrite iterate_run by lia. rewrite Nat.sub_0_r.
  destruct (run_of _ k s); [|done].
  cbn [fmap list_fmap]. unfold Re.capture. cbn [Re.pos Re.rest Re.caps].
  by replace (p + k - p) with k by lia.
Qed.

Lemma matches_digest_group_digest k d rest c :
  Spec.digest k d →
  Re.matches (digest_group k) (Re.MState 0 (d +:+ rest) c)
  = [Re.MState k rest (<[1 := d]> c)].
Proof.
  intros [Hlen Hd]. rewrite matches_digest_group. subst k.
  rewrite run_of_app, str_take_app; [done|].
  by rewrite (all_chars_ext _ _ _ in_alnum).
Qed.

(** [\s+] fails on a text that does not start with whitespace. *)
Lemma matches_spaces_none p a s c :
  Py.is_space a = false →
  Re.matches spaces (Re.MState p (String a s) c) = [].
Proof.
  intros Ha. unfold spaces.
  cbn [Re.matches Re.rest String.length Re.iterate Re.below Nat.leb].
  rewrite one_cons. cbn [Re.in_category]. by rewrite Ha.
Qed.

(** Two spaces before a text that does not start with whitespace: the
    repetition takes both, or else one. *)
Lemma matches_two_spaces p q c :
  match q with String a _ => Py.is_space a = false | EmptyString => True end →
  Re.matches spaces (Re.MState p (String " " (String " " q)) c)
  = [Re.MState (S (S p)) q c; Re.MState (S p) (String " " q) c].
Proof.
  intros Hq. unfold spaces.
  cbn [Re.matches Re.rest String.length Re.iterate Re.below].
  rewrite one_cons. cbn [Re.in_category].
  change (Py.is_space " ") with true. cbv iota.
  rewrite bind_singleton, one_cons. cbn [Re.in_category].
  change (Py.is_space " ") with true. cbv iota.
  rewrite bind_singleton. cbn [Nat.leb].
  destruct q as [|a q]; [done|]. rewrite one_cons. cbn [Re.in_category].
  by rewrite Hq.
Qed.

Lemma literals_then_eol n p s c :
  Re.matches_all (lits n ++ [Re.Eol]) (Re.MState p s c)
  = if Py.has_prefix n s && Re.at_end (Py.str_drop (String.length n) s)
    then [Re.MState (p + String.length n) (Py.str_drop (String.length n) s) c]
    else [].
Proof.
  rewrite matches_all_app, matches_all_literals.
  destruct (Py.has_prefix n s); [|done].
  rewrite bind_singleton, matches_all_singleton. cbn [Re.matches Re.rest andb].
  reflexivity.
Qed.

(** On a literal text, a literal path followed by the end of the line
    matches only that very path. *)
Lemma literal_exact n q :
  Spec.literal q →
  Py.has_prefix n q && Re.at_end (Py.str_drop (String.length n) q)
  = bool_decide (q = n).
Proof.
  intros Hq. case_bool_decide as Heq.
  - subst q. by rewrite has_prefix_self, str_drop_self.
  - destruct (Py.has_prefix n q) eqn:Hpre; [|done]. cbn [andb].
    apply has_prefix_split in Hpre.
    destruct (Py.str_drop (String.length n) q) as [|a [|b r]] eqn:Hdrop.
    + rewrite string_app_empty in Hpre. done.
    + cbn [Re.at_end]. apply bool_decide_eq_false. intros ->.
      rewrite Hpre in Hq. apply literal_app in Hq. by vm_compute in Hq.
    + done.
Qed.

Lemma literal_after_space n q :
  Spec.literal n →
  Py.has_prefix n (String " " q)
  && Re.at_end (Py.str_drop (String.length n) (String " " q)) = false.
Proof.
  destruct n as [|a n].
  - intros _. cbn. by destruct q.
  - intros [Ha%literal_char_not_space _]%literal_cons. cbn [Py.has_prefix].
    rewrite bool_decide_eq_false_2; [done|]. intros ->. by vm_compute in Ha.
Qed.

(** The first pattern on a line that reports a digest against a literal
    path: it matches, capturing the digest, exactly when the path is the
    one in the pattern. *)
Lemma gnu_matches k n q d :
  Spec.literal n → Spec.literal q → Spec.digest k d →
  Re.matches_all (gnu_items k n) (Re.MState 0 (d +:+ "  " +:+ q) ∅)
  = if bool_decide (q = n)
    then [Re.MState (S (S k) + String.length n) "" {[1 := d]}]
    else [].
Proof.
  intros Hn Hq Hd. unfold gnu_items.
  cbn [app Re.matches_all].
  change (Re.matches Re.Bol (Re.MState 0 (d +:+ "  " +:+ q) ∅))
    with [Re.MState 0 (d +:+ "  " +:+ q) ∅].
  rewrite bind_singleton, matches_digest_group_digest, bind_singleton by done.
  change ("  " +:+ q) with (String " " (String " " q)).
  rewrite matches_two_spaces by (by apply literal_no_space_start).
  rewrite bind_cons, bind_singleton, !literals_then_eol.
  rewrite literal_exact, literal_after_space, app_nil_r by done.
  case_bool_decide as Heq; [|done]. subst q. by rewrite str_drop_self.
Qed.

(** In a text that starts with a digest, the first characters are letters
    or digits. *)
Lemma digest_char k d rest j :
  Spec.digest k d → j < k →
  ∃ a s, Py.str_drop j (d +:+ rest) = String a s ∧ Py.is_space a = false.
Proof.
  intros [Hlen Hd]. revert k d Hlen Hd.
  induction j as [|j IH]; intros k d Hlen Hd Hj.
  - destruct d as [|a d]; [cbn in Hlen; lia|].
    cbn [Spec.all_chars] in Hd. apply andb_true_iff in Hd as [Ha _].
    exists a, (d +:+ rest). split; [done|]. by apply alnum_not_space.
  - destruct d as [|a d]; [cbn in Hlen; lia|].
    cbn [Spec.all_chars] in Hd. apply andb_true_iff in Hd as [_ Hd].
    rewrite string_app_cons. cbn [Py.str_drop].
    cbn [String.length] in Hlen. apply (IH (String.length d)); [done|done|lia].
Qed.

(** The second pattern never matches a line that starts with a digest
    longer than the name it spells: whitespace would have to follow the
    name. *)
Lemma bsd_rejects_digest algo k n d rest :
  Spec.digest k d → String.length algo < k →
  Re.matches_all (bsd_items algo k n) (Re.MState 0 (d +:+ rest) ∅) = [].
Proof.
  intros Hd Hk. unfold bsd_items.
  rewrite matches_all_app. cbn [Re.matches_all].
  change (Re.matches Re.Bol (Re.MState 0 (d +:+ rest) ∅))
    with [Re.MState 0 (d +:+ rest) ∅].
  rewrite bind_singleton, matches_all_literals.
  destruct (Py.has_prefix algo (d +:+ rest)); [|done].
  rewrite bind_singleton.
  destruct (digest_char k d rest (String.length algo) Hd Hk)
    as (a & s & -> & Ha).
  cbn [app Re.matches_all]. by rewrite matches_spaces_none.
Qed.

(** ** The fuel of a repetition *)

Lemma one_shrinks test st st' : st' ∈ Re.one test st → len st' < len st.
Proof.
  unfold Re.one, len. destruct (Re.rest st) as [|a s]; [by intros ?%elem_of_nil|].
  destruct (test a); [|by intros ?%elem_of_nil].
  intros ->%list_elem_of_singleton. cbn. lia.
Qed.

Lemma iterate_shrinks body lo hi fuel count st st' :
  (∀ x y, y ∈ body x → len y ≤ len x) →
  st' ∈ Re.iterate body lo hi fuel count st → len st' ≤ len st.
Proof.
  intros Hbody. revert count st. induction fuel as [|fuel IH]; intros count st.
  - by intros ?%elem_of_nil.
  - cbn [Re.iterate]. intros [Hmore|Hstop]%elem_of_app.
    + destruct (Re.below count hi); [|by apply elem_of_nil in Hmore].
      apply list_elem_of_bind in Hmore as (y & Hst' & Hy).
      apply IH in Hst'. apply Hbody in Hy. lia.
    + destruct (lo <=? count); [|by apply elem_of_nil in Hstop].
      apply list_elem_of_singleton in Hstop as ->. lia.
Qed.

(** A match never gives back text, and a pattern that cannot match the
    empty string consumes some. *)
Lemma matches_shrinks r st st' :
  st' ∈ Re.matches r st →
  len st' ≤ len st ∧ (Re.nullable r = false → len st' < len st).
Proof.
  revert st st'.
  induction r as [|c| |k|neg its| | |r1 IH1 r2 IH2|r1 IH1 r2 IH2|lo hi r1 IH1
                 |n r1 IH1]; intros st st'; cbn [Re.matches Re.nullable].
  - intros ->%list_elem_of_singleton. split; [lia|done].
  - intros ?%one_shrinks. split; [lia|done].
  - intros ?%one_shrinks. split; [lia|done].
  - intros ?%one_shrinks. split; [lia|done].
  - intros ?%one_shrinks. split; [lia|done].
  - destruct (Re.pos st =? 0); [|by intros ?%elem_of_nil].
    intros ->%list_elem_of_singleton. split; [lia|done].
  - destruct (Re.at_end (Re.rest st)); [|by intros ?%elem_of_nil].
    intros ->%list_elem_of_singleton. split; [lia|done].
  - intros (y & [H2 H2']%IH2 & [H1 H1']%IH1)%list_elem_of_bind.
    split; [lia|]. intros [Hn|Hn]%andb_false_iff; [apply H1' in Hn|apply H2' in Hn]; lia.
  - intros [[H1 H1']%IH1|[H2 H2']%IH2]%elem_of_app;
      (split; [lia|]); intros [? ?]%orb_false_iff; auto.
  - intros Hin. split.
    + eapply iterate_shrinks; [|exact Hin]. intros x y Hy. by apply IH1 in Hy as [? _].
    + intros [Hlo Hnull]%orb_false_iff. apply Nat.eqb_neq in Hlo.
      cbn [Re.iterate] in Hin. apply elem_of_app in Hin as [Hmore|Hstop].
      * destruct (Re.below 0 hi); [|by apply elem_of_nil in Hmore].
        apply list_elem_of_bind in Hmore as (y & Hst' & Hy).
        apply IH1 in Hy as [_ Hy]. specialize (Hy Hnull).
        apply iterate_shrinks in Hst'; [lia|].
        intros x z Hz. by apply IH1 in Hz as [? _].
      * destruct lo; [done|]. by apply elem_of_nil in Hstop.
  - intros (y & -> & [H1 H1']%IH1)%list_elem_of_fmap. unfold Re.capture, len in *.
    cbn [Re.rest]. split; [lia|done].
Qed.

(** When every iteration consumes a character, any fuel above the length
    of the text gives the same matches. *)
Lemma iterate_fuel body lo hi fuel1 fuel2 count st :
  (∀ x y, y ∈ body x → len y < len x) →
  len st < fuel1 → len st < fuel2 →
  Re.iterate body lo hi fuel1 count st = Re.iterate body lo hi fuel2 count st.
Proof.
  intros Hbody. revert fuel2 count st.
  induction fuel1 as [|fuel1 IH]; intros fuel2 count st H1 H2; [lia|].
  destruct fuel2 as [|fuel2]; [lia|]. cbn [Re.iterate]. f_equal.
  destruct (Re.below count hi); [|done].
  apply Forall_bind_ext, Forall_forall. intros y Hy.
  apply Hbody in Hy. apply IH; lia.
Qed.

(** The fuel that [Re.matches] gives a repetition is never used up: more
    fuel finds the same matches. *)
Lemma repeat_fuel_suffices lo hi r st fuel :
  Re.nullable r = false →
  len st < fuel →
  Re.iterate (Re.matches r) lo hi fuel 0 st = Re.matches (Re.Repeat lo hi r) st.
Proof.
  intros Hnull Hfuel. cbn [Re.matches]. apply iterate_fuel; [|done|unfold len; lia].
  intros x y Hy. apply matches_shrinks in Hy as [_ Hy]. auto.
Qed.

(** Every repetition the parser builds has a body that cannot match the
    empty string. *)
Lemma seq_of_guarded items :
  Forall (λ r, guarded r = true) items → guarded (Re.seq_of items) = true.
Proof.
  unfold Re.seq_of.
  enough (∀ acc, guarded acc = true →
                 Forall (λ r, guarded r = true) items →
                 guarded (foldl (λ acc r, Re.Seq r acc) acc items) = true)
    by auto.
  induction items as [|r items IH]; intros acc Hacc Hits; [done|].
  apply Forall_cons in Hits as [Hr Hits]. cbn [foldl]. apply IH; [|done].
  cbn [guarded]. by rewrite Hr, Hacc.
Qed.

Lemma alt_of_guarded last alts :
  guarded last = true →
  Forall (λ r, guarded r = true) alts →
  guarded (Re.alt_of last alts) = true.
Proof.
  unfold Re.alt_of. revert last.
  induction alts as [|r alts IH]; intros last Hlast Halts; [done|].
  apply Forall_cons in Halts as [Hr Halts]. cbn [foldl]. apply IH; [|done].
  cbn [guarded]. by rewrite Hr, Hlast.
Qed.

Lemma quantify_guarded lo hi lazy st st' :
  guarded_state st → Re.quantify lo hi lazy st = Ok st' → guarded_state st'.
Proof.
  intros (Hits & Halts & Hstack). unfold Re.quantify.
  destruct (Re.items st) as [|r rest] eqn:Hr; [done|].
  apply Forall_cons in Hits as [Hg Hrest].
  assert (Hgen :
    (if match hi with Some h => h <? lo | None => false end
     then Raise ReError
     else if Re.nullable r then Unmodelled
          else Ok (Re.PState (Re.Repeat lo hi r :: rest) (Re.alts st)
                     (Re.stack st) (Re.next_group st))) = Ok st' →
    guarded_state st').
  { destruct (match hi with Some h => h <? lo | None => false end); [done|].
    destruct (Re.nullable r) eqn:Hnull; [done|]. intros [= <-].
    split; [|done]. cbn [Re.items]. apply Forall_cons. split; [|done].
    cbn [guarded]. by rewrite Hnull, Hg. }
  destruct r; try exact Hgen; try done.
  destruct lazy; [done|]. destruct hi; [done|]. by destruct (lo =? 1).
Qed.

Lemma step_guarded t st st' :
  guarded_state st → Re.step t st = Ok st' → guarded_state st'.
Proof.
  intros Hst. pose proof Hst as (Hits & Halts & Hstack).
  destruct t; cbn [Re.step]; try (by eapply quantify_guarded);
    try (intros [= <-]; unfold Re.push; split; [|done]; cbn [Re.items];
         by apply Forall_cons).
  - intros [= <-]. repeat split; cbn [Re.items Re.alts Re.stack]; try done.
    by apply Forall_cons.
  - destruct (Re.stack st) as [|[[g alts0] items0] stack'] eqn:Hs; [done|].
    intros [= <-]. apply Forall_cons in Hstack as [[Ha Hi] Hstack].
    repeat split; cbn [Re.items Re.alts Re.stack]; try done.
    apply Forall_cons. split; [|done]. cbn [guarded].
    apply alt_of_guarded; [by apply seq_of_guarded|done].
  - intros [= <-]. repeat split; cbn [Re.items Re.alts Re.stack]; try done.
    apply Forall_cons. split; [|done]. by apply seq_of_guarded.
  - by destruct e.
Qed.

Lemma parse_guarded ts st st' :
  guarded_state st → Re.parse ts st = Ok st' → guarded_state st'.
Proof.
  revert st. induction ts as [|t ts IH]; intros st Hst; cbn [Re.parse].
  - by intros [= <-].
  - destruct (Re.step t st) as [st1| |] eqn:Hstep; try done.
    cbn [mbind result_bind]. apply IH. by eapply step_guarded.
Qed.

Lemma compile_guarded pattern r groups :
  Re.compile pattern = Ok (r, groups) → guarded r = true.
Proof.
  unfold Re.compile.
  destruct (Re.parse _ _) as [st| |] eqn:Hparse; try done.
  cbn [mbind result_bind]. destruct (Re.stack st); [|done]. intros [= <- _].
  apply parse_guarded in Hparse as (Hits & Halts & _).
  - apply alt_of_guarded; [by apply seq_of_guarded|done].
  - by repeat split.
Qed.

(** One turn of the loop over the patterns. *)
Lemma checksum_process_cons regex regexes n line more pat r groups :
  Py.percent regex n = Ok pat →
  Re.compile pat = Ok (r, groups) →
  Checksum.process (regex :: regexes) (Self (Some n)) (line :: more)
  = match head (Re.matches r (Re.MState 0 line ∅)) with
    | Some st => Re.group (Re.caps st, groups) 1
    | None => Checksum.process regexes (Self (Some n)) (line :: more)
    end.
Proof.
  intros Hpat Hre.
  cbn [Checksum.process name of_option mbind result_bind].
  rewrite Hpat. cbn [mbind result_bind lookup list_lookup of_option].
  unfold Re.match_. rewrite Hre. cbn [mbind result_bind].
  by destruct (head _).
Qed.

(** The loop on a line that reports a digest against a literal path, for
    two patterns that compile to the items above. *)
Lemma checksum_gnu_line gnu bsd pg pb algo k n q d more :
  Py.percent gnu n = Ok pg →
  Re.compile pg = Ok (Re.seq_of (rev (gnu_items k n)), 1) →
  Py.percent bsd n = Ok pb →
  Re.compile pb = Ok (Re.seq_of (rev (bsd_items algo k n)), 1) →
  String.length algo < k →
  Spec.literal n → Spec.literal q → Spec.digest k d →
  Checksum.process [gnu; bsd] (Self (Some n)) ((d +:+ "  " +:+ q) :: more)
  = Ok (if bool_decide (q = n) then Some d else None).
Proof.
  intros Hpg Hcg Hpb Hcb Hk Hn Hq Hd.
  rewrite (checksum_process_cons _ _ _ _ _ _ _ _ Hpg Hcg).
  rewrite matches_seq_of, rev_involutive, gnu_matches by done.
  case_bool_decide as Heq.
  - cbn [head Re.caps]. unfold Re.group. cbn [fst snd Nat.leb].
    by rewrite lookup_singleton_eq.
  - cbn [head]. rewrite (checksum_process_cons _ _ _ _ _ _ _ _ Hpb Hcb).
    by rewrite matches_seq_of, rev_involutive, bsd_rejects_digest.
Qed.

Lemma sha1_gnu_line n q d more :
  Spec.literal n → Spec.literal q → Spec.digest 40 d →
  Sha1File.process (Self (Some n)) ((d +:+ "  " +:+ q) :: more)
  = Ok (if bool_decide (q = n) then Some d else None).
Proof.
  intros Hn.
  apply (checksum_gnu_line _ _ ("^([a-zA-Z0-9]{40})\s+" +:+ n +:+ "$")
           ("^SHA1\s+\(" +:+ n +:+ "\)\s+=\s+([a-zA-Z0-9]{40})$") "SHA1");
    [reflexivity | by apply compile_sha1_gnu | reflexivity
    | by apply compile_sha1_bsd | cbn; lia | done].
Qed.

Lemma sha256_gnu_line n q d more :
  Spec.literal n → Spec.literal q → Spec.digest 64 d →
  Sha256File.process (Self (Some n)) ((d +:+ "  " +:+ q) :: more)
  = Ok (if bool_decide (q = n) then Some d else None).
Proof.
  intros Hn.
  apply (checksum_gnu_line _ _ ("^([a-zA-Z0-9]{64})\s+" +:+ n +:+ "$")
           ("^SHA256\s+\(" +:+ n +:+ "\)\s+=\s+([a-zA-Z0-9]{64})$") "SHA256");
    [reflexivity | by apply compile_sha256_gnu | reflexivity
    | by apply compile_sha256_bsd | cbn; lia | done].
Qed.

Lemma md5_gnu_line n q d more :
  Spec.literal n → Spec.literal q → Spec.digest 32 d →
  Md5File.process (Self (Some n)) ((d +:+ "  " +:+ q) :: more)
  = Ok (if bool_decide (q = n) then Some d else None).
Proof.
  intros Hn.
  apply (checksum_gnu_line _ _ ("^([a-zA-Z0-9]{32})\s+" +:+ n +:+ "$")
           ("^SHA256\s+\(" +:+ n +:+ "\)\s+=\s+([a-zA-Z0-9]{32})$") "SHA256");
    [reflexivity | by apply compile_md5_gnu | reflexivity
    | by apply compile_md5_bsd | cbn; lia | done].
Qed.

Lemma binds_digest_intro k process n :
  (∀ q d, Spec.literal q → Spec.digest k d →
          process [d +:+ "  " +:+ q]
          = Ok (if bool_decide (q = n) then Some d else None)) →
  Spec.literal n →
  Spec.binds_digest k process n.
Proof.
  intros Hline Hn d Hd. split.
  - rewrite Hline by done. by rewrite bool_decide_eq_true_2.
  - intros q Hq Hne. rewrite Hline by done. by rewrite bool_decide_eq_false_2.
Qed.

(** ** The checksum facts *)

(** No line of the form [MD5 (<path>) = <anything>] is accepted by
    [Md5File] for a literal path: the first pattern wants 32 letters or
    digits where the line has a space, the second wants [SHA256]. *)
Lemma md5_bsd_line_never_matches n d more :
  Spec.literal n →
  Md5File.process (Self (Some n)) (("MD5 (" +:+ n +:+ ") = " +:+ d) :: more)
  = Ok None.
Proof.
  intros Hn. unfold Md5File.process, Md5File._regexes.
  rewrite (checksum_process_cons "^([a-zA-Z0-9]{32})\s+%s$" _ n _ _
             ("^([a-zA-Z0-9]{32})\s+" +:+ n +:+ "$") _ _
             eq_refl (compile_md5_gnu n Hn)).
  rewrite matches_seq_of, rev_involutive. unfold gnu_items.
  cbn [app Re.matches_all].
  change (Re.matches Re.Bol (Re.MState 0 ?s ∅)) with [Re.MState 0 s ∅].
  rewrite bind_singleton, matches_digest_group.
  change (run_of _ 32 ("MD5 (" +:+ n +:+ ") = " +:+ d)) with (@None string).
  cbn [mbind list_bind head].
  rewrite (checksum_process_cons "^SHA256\s+\(%s\)\s+=\s+([a-zA-Z0-9]{32})$"
             _ n _ _
             ("^SHA256\s+\(" +:+ n +:+ "\)\s+=\s+([a-zA-Z0-9]{32})$") _ _
             eq_refl (compile_md5_bsd n Hn)).
  rewrite matches_seq_of, rev_involutive.
  change (Re.matches_all _ _) with (@nil Re.mstate). reflexivity.
Qed.

(** C5: at the line [MD5 (/tmp/x) = <digest>], parsed after the command for
    [/tmp/x], [Md5File.process] returns [None]: its second pattern spells
    [SHA256] where the line says [MD5], and the same digest is accepted once
    the line says [SHA256]. *)
Lemma md5_bsd_line_is_rejected :
  let self := (Md5File.command (H := escape_spaces) (Self None) "/tmp/x").1 in
  Md5File.process self ["MD5 (/tmp/x) = d41d8cd98f00b204e9800998ecf8427e"]
  = Ok None
  ∧ Md5File.process self ["SHA256 (/tmp/x) = d41d8cd98f00b204e9800998ecf8427e"]
    = Ok (Some "d41d8cd98f00b204e9800998ecf8427e").
Proof. split; vm_compute; reflexivity. Qed.

(** C7, as stated, fails: the path is spliced into the pattern unescaped, so
    after the command for [/tmp/.], whose dot matches any character, the
    digest reported against [/tmp/x] is accepted. *)
Lemma sha1_accepts_digest_of_other_path :
  "/tmp/." ≠ "/tmp/x"
  ∧ Sha1File.process
      (Sha1File.command (H := escape_spaces) (Self None) "/tmp/.").1
      ["da39a3ee5e6b4b0d3255bfef95601890afd80709  /tmp/x"]
    = Ok (Some "da39a3ee5e6b4b0d3255bfef95601890afd80709").
Proof. split; [discriminate | vm_compute; reflexivity]. Qed.

(** C7, amended: when the escaped form of the requested path is written
    with literal characters only (no special character of regular
    expressions, no whitespace), each checksum fact accepts a digest only
    against that path: [Sha1File] returns the forty-character digest of a
    line that reports it against the path and [None] on a line that reports
    it against any other literal path, and so do [Sha256File] and [Md5File]
    with digests of 64 and 32 characters. *)
Theorem digest_bound_to_literal_path
    (H : Connectors) (self : instance) (p : string) :
  Spec.literal (escape_unix_path p) →
  Spec.binds_digest 40 (Sha1File.process (Sha1File.command self p).1)
    (escape_unix_path p)
  ∧ Spec.binds_digest 64 (Sha256File.process (Sha256File.command self p).1)
      (escape_unix_path p)
  ∧ Spec.binds_digest 32 (Md5File.process (Md5File.command self p).1)
      (escape_unix_path p).
Proof.
  intros Hp.
  split; [|split]; apply binds_digest_intro; try done; intros q d Hq Hd.
  - by apply sha1_gnu_line.
  - by apply sha256_gnu_line.
  - by apply md5_gnu_line.
Qed.

Lemma digest_bound_to_literal_path_witness :
  Sha1File.process
    (Sha1File.command (H := escape_spaces) (Self None) "/tmp/x").1
    ["da39a3ee5e6b4b0d3255bfef95601890afd80709  /tmp/x"]
  = Ok (Some "da39a3ee5e6b4b0d3255bfef95601890afd80709")
  ∧ Sha1File.process
      (Sha1File.command (H := escape_spaces) (Self None) "/tmp/y").1
      ["da39a3ee5e6b4b0d3255bfef95601890afd80709  /tmp/x"]
    = Ok None.
Proof.
  assert (Hd : Spec.digest 40 "da39a3ee5e6b4b0d3255bfef95601890afd80709")
    by (split; vm_compute; reflexivity).
  assert (Hx : Spec.literal (escape_spaces "/tmp/x"))
    by (vm_compute; reflexivity).
  assert (Hy : Spec.literal (escape_spaces "/tmp/y"))
    by (vm_compute; reflexivity).
  split.
  - exact (proj1 (proj1 (digest_bound_to_literal_path escape_spaces
                           (Self None) "/tmp/x" Hx) _ Hd)).
  - refine (proj2 (proj1 (digest_bound_to_literal_path escape_spaces
                            (Self None) "/tmp/y" Hy) _ Hd) "/tmp/x" _ _).
    + vm_compute; reflexivity.
    + discriminate.
Defined.

(** ** Lines in the BSD style *)

Lemma run_of_stops test k algo a rest :
  String.length algo < k → test a = false →
  run_of test k (algo +:+ String a rest) = None.
Proof.
  revert k. induction algo as [|x algo IH]; intros k Hk Ha.
  - destruct k; [cbn in Hk; lia|].
    change ("" +:+ String a rest) with (String a rest).
    cbn [run_of]. by rewrite Ha.
  - destruct k; [cbn in Hk; lia|]. rewrite string_app_cons. cbn [run_of].
    destruct (test x); [|done]. apply IH; [cbn in Hk; lia|done].
Qed.

Lemma run_of_self test d :
  Spec.all_chars test d = true → run_of test (String.length d) d = Some "".
Proof.
  intros Hd. pose proof (run_of_app test d "" Hd) as H.
  by rewrite string_app_empty in H.
Qed.

Lemma str_take_self d : Py.str_take (String.length d) d = d.
Proof.
  pose proof (str_take_app d "") as H. by rewrite string_app_empty in H.
Qed.

(** One space before a text that does not start with whitespace. *)
Lemma matches_one_space p q c :
  match q with String a _ => Py.is_space a = false | EmptyString => False end →
  Re.matches spaces (Re.MState p (String " " q) c) = [Re.MState (S p) q c].
Proof.
  destruct q as [|a s]; [done|]. intros Ha. unfold spaces.
  cbn [Re.matches Re.rest String.length Re.iterate Re.below].
  rewrite one_cons. cbn [Re.in_category].
  change (Py.is_space " ") with true. cbv iota.
  rewrite bind_singleton, one_cons. cbn [Re.in_category Nat.leb].
  by rewrite Ha.
Qed.

Lemma matches_lit_cons a p s c :
  Re.matches (Re.Lit a) (Re.MState p (String a s) c) = [Re.MState (S p) s c].
Proof. cbn [Re.matches]. by rewrite one_cons, bool_decide_eq_true_2. Qed.

Lemma digest_nonempty k d :
  Spec.digest (S k) d →
  match d with String a _ => Py.is_space a = false | EmptyString => False end.
Proof.
  intros [Hlen Hd]. destruct d as [|a s]; [done|].
  cbn [Spec.all_chars] in Hd. apply andb_true_iff in Hd as [Ha _].
  by apply alnum_not_space.
Qed.

(** The second pattern on the line it is written for. *)
Lemma bsd_matches algo k n d :
  Spec.literal n → Spec.digest (S k) d →
  ∃ p, Re.matches_all (bsd_items algo (S k) n)
         (Re.MState 0 (algo +:+ " (" +:+ n +:+ ") = " +:+ d) ∅)
       = [Re.MState p "" {[1 := d]}].
Proof.
  intros Hn Hd. unfold bsd_items.
  rewrite matches_all_app. cbn [Re.matches_all].
  change (Re.matches Re.Bol (Re.MState 0 ?s ∅)) with [Re.MState 0 s ∅].
  rewrite bind_singleton, matches_all_literals, has_prefix_refl, str_drop_app.
  rewrite bind_singleton, matches_all_app.
  change (" (" +:+ ?s) with (String " " (String "(" s)).
  cbn [Re.matches_all].
  rewrite matches_one_space by reflexivity.
  rewrite bind_singleton, matches_lit_cons, !bind_singleton.
  rewrite matches_all_app, matches_all_literals, has_prefix_refl, str_drop_app.
  rewrite bind_singleton.
  pose proof (digest_nonempty _ _ Hd) as Hstart.
  destruct Hd as [Hlen Hall].
  change (") = " +:+ d) with (String ")" (String " " (String "=" (String " " d)))).
  cbn [Re.matches_all].
  rewrite matches_lit_cons, bind_singleton.
  rewrite matches_one_space by reflexivity.
  rewrite bind_singleton, matches_lit_cons, bind_singleton.
  rewrite matches_one_space by done.
  rewrite bind_singleton, matches_digest_group.
  rewrite <- Hlen.
  rewrite run_of_self, str_take_self
    by (by rewrite (all_chars_ext _ _ _ in_alnum)).
  rewrite bind_singleton. cbn [Re.matches Re.rest Re.at_end mbind list_bind app].
  by eexists.
Qed.

(** The first pattern does not match such a line: after the name of the
    algorithm comes a space, where the digest would go on. *)
Lemma gnu_rejects_bsd_line algo k n rest :
  String.length algo < k →
  Re.matches_all (gnu_items k n) (Re.MState 0 (algo +:+ " (" +:+ rest) ∅) = [].
Proof.
  intros Hk. unfold gnu_items. cbn [app Re.matches_all].
  change (Re.matches Re.Bol (Re.MState 0 ?s ∅)) with [Re.MState 0 s ∅].
  rewrite bind_singleton, matches_digest_group.
  change (" (" +:+ rest) with (String " " (String "(" rest)).
  by rewrite run_of_stops.
Qed.

Lemma checksum_bsd_line gnu bsd pg pb algo k n d more :
  Py.percent gnu n = Ok pg →
  Re.compile pg = Ok (Re.seq_of (rev (gnu_items (S k) n)), 1) →
  Py.percent bsd n = Ok pb →
  Re.compile pb = Ok (Re.seq_of (rev (bsd_items algo (S k) n)), 1) →
  String.length algo < S k →
  Spec.literal n → Spec.digest (S k) d →
  Checksum.process [gnu; bsd] (Self (Some n))
    ((algo +:+ " (" +:+ n +:+ ") = " +:+ d) :: more)
  = Ok (Some d).
Proof.
  intros Hpg Hcg Hpb Hcb Hk Hn Hd.
  rewrite (checksum_process_cons _ _ _ _ _ _ _ _ Hpg Hcg).
  rewrite matches_seq_of, rev_involutive, gnu_rejects_bsd_line by done.
  cbn [head]. rewrite (checksum_process_cons _ _ _ _ _ _ _ _ Hpb Hcb).
  rewrite matches_seq_of, rev_involutive.
  destruct (bsd_matches algo k n d Hn Hd) as [p ->].
  cbn [head Re.caps]. unfold Re.group. cbn [fst snd Nat.leb].
  by rewrite lookup_singleton_eq.
Qed.

(** [Sha1File] and [Sha256File] return the digest of the line that the BSD
    tools print for a literal path: their second patterns spell the name of
    their own algorithm. *)
Theorem bsd_line_accepted (H : Connectors) (self : instance) (p : string) :
  Spec.literal (escape_unix_path p) →
  (∀ d, Spec.digest 40 d →
        Sha1File.process (Sha1File.command self p).1
          ["SHA1 (" +:+ escape_unix_path p +:+ ") = " +:+ d] = Ok (Some d))
  ∧ (∀ d, Spec.digest 64 d →
          Sha256File.process (Sha256File.command self p).1
            ["SHA256 (" +:+ escape_unix_path p +:+ ") = " +:+ d] = Ok (Some d)).
Proof.
  intros Hp. cbn [Sha1File.command Sha256File.command fst]. split; intros d Hd.
  - apply (checksum_bsd_line _ _
             ("^([a-zA-Z0-9]{40})\s+" +:+ escape_unix_path p +:+ "$")
             ("^SHA1\s+\(" +:+ escape_unix_path p
              +:+ "\)\s+=\s+([a-zA-Z0-9]{40})$") "SHA1" 39);
      [reflexivity | by apply compile_sha1_gnu | reflexivity
      | by apply compile_sha1_bsd | cbn; lia | done | done].
  - apply (checksum_bsd_line _ _
             ("^([a-zA-Z0-9]{64})\s+" +:+ escape_unix_path p +:+ "$")
             ("^SHA256\s+\(" +:+ escape_unix_path p
              +:+ "\)\s+=\s+([a-zA-Z0-9]{64})$") "SHA256" 63);
      [reflexivity | by apply compile_sha256_gnu | reflexivity
      | by apply compile_sha256_bsd | cbn; lia | done | done].
Qed.

Lemma bsd_line_accepted_witness :
  Sha1File.process
    (Sha1File.command (H := escape_spaces) (Self None) "/tmp/x").1
    ["SHA1 (/tmp/x) = da39a3ee5e6b4b0d3255bfef95601890afd80709"]
  = Ok (Some "da39a3ee5e6b4b0d3255bfef95601890afd80709").
Proof.
  assert (Hd : Spec.digest 40 "da39a3ee5e6b4b0d3255bfef95601890afd80709")
    by (split; vm_compute; reflexivity).
  assert (Hx : Spec.literal (escape_spaces "/tmp/x"))
    by (vm_compute; reflexivity).
  exact (proj1 (bsd_line_accepted escape_spaces (Self None) "/tmp/x" Hx) _ Hd).
Defined.

(** ** Stat lines built from their fields *)

Lemma string_app_assoc a b c : (a +:+ b) +:+ c = a +:+ b +:+ c.
Proof. induction a as [|x a IH]; [done|]. by rewrite !string_app_cons, IH. Qed.

Lemma split_ws_in_word n acc w rest :
  Spec.all_chars (λ c, negb (Py.is_space c)) w = true →
  Py.split_ws_from n (Some acc) (w +:+ String " " rest)
  = (acc +:+ w) :: Py.split_ws_from n None rest.
Proof.
  revert acc. induction w as [|a w IH]; intros acc Hw.
  - cbn [String.append Py.split_ws_from]. change (Py.is_space " ") with true.
    by rewrite string_app_empty.
  - cbn [Spec.all_chars] in Hw. apply andb_true_iff in Hw as [Ha Hw].
    apply negb_true_iff in Ha. rewrite string_app_cons.
    cbn [Py.split_ws_from]. rewrite Ha, IH by done.
    by rewrite string_app_assoc.
Qed.

Lemma split_ws_word n w rest :
  word w →
  Py.split_ws_from (S n) None (w +:+ String " " rest)
  = w :: Py.split_ws_from n None rest.
Proof.
  intros [Hne Hw]. destruct w as [|a w]; [done|].
  cbn [Spec.all_chars] in Hw. apply andb_true_iff in Hw as [Ha Hw].
  apply negb_true_iff in Ha. rewrite string_app_cons.
  cbn [Py.split_ws_from]. rewrite Ha. by rewrite split_ws_in_word.
Qed.

(** Splitting at most as many times as there are words before the last
    gives back the words and leaves the last text whole. *)
Lemma split_ws_unwords bits filename :
  Forall word bits → starts_a_word filename →
  Py.split_ws (unwords (bits ++ [filename])) (length bits)
  = bits ++ [filename].
Proof.
  unfold Py.split_ws. intros Hbits Hname.
  induction Hbits as [|w bits Hw Hbits IH].
  - destruct filename as [|a s]; [done|]. cbn in *. by rewrite Hname.
  - cbn [app unwords length].
    destruct (bits ++ [filename]) as [|b l] eqn:Hl; [by destruct bits|].
    change (w +:+ " " +:+ unwords (b :: l))
      with (w +:+ String " " (unwords (b :: l))).
    by rewrite split_ws_word, IH.
Qed.

Lemma split_eq_in_value acc v :
  no_equals v → Py.split_from "=" 0 acc v = [acc +:+ v].
Proof.
  revert acc. induction v as [|a v IH]; intros acc Hv.
  - by rewrite string_app_empty.
  - unfold no_equals in Hv. cbn [Spec.all_chars] in Hv.
    apply andb_true_iff in Hv as [Ha Hv]. apply negb_true_iff in Ha.
    cbn [Py.split_from Py.has_prefix]. rewrite bool_decide_eq_false_2.
    + cbn [andb]. rewrite IH by done. by rewrite string_app_assoc.
    + apply bool_decide_eq_false in Ha. congruence.
Qed.

Lemma split_eq_key_value acc key v :
  no_equals key → no_equals v →
  Py.split_from "=" 0 acc (key +:+ "=" +:+ v) = [acc +:+ key; v].
Proof.
  revert acc. induction key as [|a key IH]; intros acc Hk Hv.
  - change ("" +:+ "=" +:+ v) with (String "=" v).
    cbn [Py.split_from Py.has_prefix String.length Nat.sub].
    rewrite bool_decide_eq_true_2 by done. cbn [andb].
    rewrite string_app_empty. f_equal. by apply (split_eq_in_value "").
  - unfold no_equals in Hk. cbn [Spec.all_chars] in Hk.
    apply andb_true_iff in Hk as [Ha Hk]. apply negb_true_iff in Ha.
    rewrite string_app_cons. cbn [Py.split_from Py.has_prefix].
    rewrite bool_decide_eq_false_2.
    + cbn [andb]. rewrite IH by done. by rewrite string_app_assoc.
    + apply bool_decide_eq_false in Ha. congruence.
Qed.

Lemma key_value_token key v :
  no_equals key → no_equals v →
  Spec.key_value (key +:+ "=" +:+ v) = Some (key, v).
Proof.
  intros Hk Hv. unfold Spec.key_value, Py.split.
  by rewrite split_eq_key_value.
Qed.

Lemma all_chars_app test a b :
  Spec.all_chars test (a +:+ b)
  = Spec.all_chars test a && Spec.all_chars test b.
Proof.
  induction a as [|x a IH]; [done|].
  rewrite string_app_cons. cbn [Spec.all_chars]. by rewrite IH, andb_assoc.
Qed.

Lemma token_word key v :
  key ≠ EmptyString →
  Spec.all_chars (λ c, negb (Py.is_space c)) key = true →
  field_text v → word (key +:+ "=" +:+ v).
Proof.
  intros Hne Hkey [Hv _]. split.
  - by destruct key.
  - rewrite !all_chars_app, Hkey, Hv. reflexivity.
Qed.

Lemma record_token key v bits data :
  no_equals key → no_equals v →
  Spec.record ((key +:+ "=" +:+ v) :: bits) data
  = Spec.record bits (<[key := Spec.field key v]> data).
Proof.
  intros Hk Hv. unfold Spec.record. cbn [foldl].
  by rewrite key_value_token.
Qed.

Lemma stat_tokens_eq user group mode atime mtime ctime size :
  stat_tokens user group mode atime mtime ctime size
  = ["user" +:+ "=" +:+ user; "group" +:+ "=" +:+ group;
     "mode" +:+ "=" +:+ mode; "atime" +:+ "=" +:+ atime;
     "mtime" +:+ "=" +:+ mtime; "ctime" +:+ "=" +:+ ctime;
     "size" +:+ "=" +:+ size].
Proof. reflexivity. Qed.

(** The tokens of a stat line, as the parser reads them. *)
Lemma stat_tokens_read user group mode atime mtime ctime size :
  field_text user → field_text group → field_text mode →
  field_text atime → field_text mtime → field_text ctime → field_text size →
  Spec.record (stat_tokens user group mode atime mtime ctime size) ∅
  = <["size" := Spec.field "size" size]>
      (<["ctime" := Spec.field "ctime" ctime]>
         (<["mtime" := Spec.field "mtime" mtime]>
            (<["atime" := Spec.field "atime" atime]>
               (<["mode" := Int (Spec.encode (Py.slice_from mode 1))]>
                  (<["group" := Str group]> (<["user" := Str user]> ∅))))))
  ∧ Spec.resolved_type (stat_tokens user group mode atime mtime ctime size) None
    = Spec.flag_type mode
  ∧ (is_Some (Spec.flag_type mode) →
     timestamp_ok atime → timestamp_ok mtime → timestamp_ok ctime →
     forallb Spec.well_formed
       (stat_tokens user group mode atime mtime ctime size) = true).
Proof.
  intros [_ Hu] [_ Hg] [_ Hm] [_ Ha] [_ Hmt] [_ Hc] [_ Hs].
  rewrite stat_tokens_eq. split; [|split].
  - by rewrite !record_token by done.
  - unfold Spec.resolved_type. cbn [foldl].
    rewrite (key_value_token "user"), (key_value_token "group"),
      (key_value_token "mode"), (key_value_token "atime"),
      (key_value_token "mtime"), (key_value_token "ctime"),
      (key_value_token "size") by done.
    reflexivity.
  - intros Hflag Hat Hmt' Hct. cbn [forallb]. unfold Spec.well_formed.
    rewrite (key_value_token "user"), (key_value_token "group"),
      (key_value_token "mode"), (key_value_token "atime"),
      (key_value_token "mtime"), (key_value_token "ctime"),
      (key_value_token "size") by done.
    unfold timestamp_ok in *.
    rewrite (bool_decide_eq_true_2 _ Hflag).
    change (bool_decide ("user" = "mode")) with false.
    change (bool_decide ("group" = "mode")) with false.
    change (bool_decide ("mode" = "mode")) with true.
    change (bool_decide ("atime" = "mode")) with false.
    change (bool_decide ("mtime" = "mode")) with false.
    change (bool_decide ("ctime" = "mode")) with false.
    change (bool_decide ("size" = "mode")) with false.
    change (bool_decide ("user" ∈ Spec.times)) with false.
    change (bool_decide ("group" ∈ Spec.times)) with false.
    change (bool_decide ("atime" ∈ Spec.times)) with true.
    change (bool_decide ("mtime" ∈ Spec.times)) with true.
    change (bool_decide ("ctime" ∈ Spec.times)) with true.
    change (bool_decide ("size" ∈ Spec.times)) with false.
    cbv iota. cbn [andb].
    destruct (Py.int atime), (Py.int mtime), (Py.int ctime);
      rewrite ?Hat, ?Hmt', ?Hct; reflexivity.
Qed.

Lemma stat_tokens_words user group mode atime mtime ctime size :
  field_text user → field_text group → field_text mode →
  field_text atime → field_text mtime → field_text ctime → field_text size →
  Forall word (stat_tokens user group mode atime mtime ctime size).
Proof.
  intros. rewrite stat_tokens_eq.
  repeat constructor; (apply token_word; [done | reflexivity | done]).
Qed.

(** A stat line of seven fields and a file name, parsed by a fact of type
    [ty]: the fields are recorded when the flag of the mode stands for [ty],
    and the result is [False] otherwise.  (A link is left to the theorem on
    link targets.) *)
Theorem stat_line_parse ty user group mode atime mtime ctime size name t :
  field_text user → field_text group → field_text mode →
  field_text atime → field_text mtime → field_text ctime → field_text size →
  starts_a_word name →
  timestamp_ok atime → timestamp_ok mtime → timestamp_ok ctime →
  Spec.flag_type mode = Some t →
  t ≠ "link" →
  File.process ty [stat_line user group mode atime mtime ctime size name]
  = Ok (if bool_decide (t = ty)
        then Data
               (<["size" := Spec.field "size" size]>
                  (<["ctime" := Spec.field "ctime" ctime]>
                     (<["mtime" := Spec.field "mtime" mtime]>
                        (<["atime" := Spec.field "atime" atime]>
                           (<["mode" := Int (Spec.encode (Py.slice_from mode 1))]>
                              (<["group" := Str group]>
                                 (<["user" := Str user]> ∅)))))))
        else PyFalse).
Proof.
  intros Hu Hg Hm Ha Hmt Hc Hs Hname Hat Hmtt Hct Hflag Hlink.
  destruct (stat_tokens_read user group mode atime mtime ctime size)
    as (Hrec & Hty & Hwf); try done.
  rewrite (process_well_formed ty _ []
             (stat_tokens user group mode atime mtime ctime size) name).
  - unfold Spec.stat_outcome. rewrite Hty, Hflag, Hrec.
    destruct (decide (t = ty)) as [->|Hne].
    + rewrite bool_decide_eq_false_2 by (by intros []).
      rewrite bool_decide_eq_false_2 by (by intros [= ?]).
      by rewrite bool_decide_eq_true_2.
    + rewrite bool_decide_eq_true_2 by (by intros [= ?]).
      by rewrite bool_decide_eq_false_2.
  - unfold stat_line.
    apply (split_ws_unwords
             (stat_tokens user group mode atime mtime ctime size) name);
      [by apply stat_tokens_words | done].
  - apply Hwf; [by rewrite Hflag | done..].
Qed.

Lemma stat_line_parse_witness :
  File.process "file"
    ["user=root group=wheel mode=-rw-r--r-- atime=1500000000 mtime=1500000001 ctime=1500000002 size=1024 /etc/hosts"]
  = Ok (Data
          (<["size" := Int 1024]>
             (<["ctime" := Datetime 1500000002]>
                (<["mtime" := Datetime 1500000001]>
                   (<["atime" := Datetime 1500000000]>
                      (<["mode" := Int 644]>
                         (<["group" := Str "wheel"]>
                            (<["user" := Str "root"]> ∅)))))))).
Proof.
  apply (stat_line_parse "file" "root" "wheel" "-rw-r--r--" "1500000000"
           "1500000001" "1500000002" "1024" "/etc/hosts" "file");
    try (split; vm_compute; reflexivity);
    try (vm_compute; reflexivity); discriminate.
Defined.

(** ** Which lines the stat parser accepts *)

Lemma split_ws_blank n line :
  Spec.all_chars Py.is_space line = true → Py.split_ws_from n None line = [].
Proof.
  induction line as [|c line IH]; [done|].
  cbn [Spec.all_chars Py.split_ws_from].
  intros [Hc Hline]%andb_true_iff. rewrite Hc. by apply IH.
Qed.

Lemma process_bits_raise bits e bits' st :
  File.process_bits bits st = Raise e →
  File.process_bits (bits ++ bits') st = Raise e.
Proof. intros Hrun. by rewrite process_bits_app, Hrun. Qed.

Lemma record_app bits1 bits2 data :
  Spec.record (bits1 ++ bits2) data = Spec.record bits2 (Spec.record bits1 data).
Proof. unfold Spec.record. by rewrite foldl_app. Qed.

(** The stat parser returns, [False] or the data, exactly on a first line
    that has a word, whose tokens before the last word are all well formed
    and, where the fact is [Link] and the tokens resolve to a link, whose
    last word splits in two at the arrow. *)
Theorem stat_parse_returns_iff ty line more :
  (∃ r, File.process ty (line :: more) = Ok r)
  ↔ ∃ bits filename,
      Py.split_ws line 7 = bits ++ [filename]
      ∧ forallb Spec.well_formed bits = true
      ∧ (ty = "link" → Spec.resolved_type bits None = Some "link" →
         length (Py.split filename " -> ") = 2).
Proof.
  split.
  - intros [r Hrun].
    destruct (process_returns_inv _ _ _ Hrun)
      as (line' & more' & bits & filename & [= <- <-] & Hsplit & Hwf & Hout).
    exists bits, filename. repeat split; [done..|].
    intros -> Hty. unfold Spec.stat_outcome in Hout. rewrite Hty in Hout.
    rewrite bool_decide_eq_false_2 in Hout by (by intros []).
    rewrite bool_decide_eq_true_2 in Hout by done.
    by destruct (Py.split filename " -> ") as [|? [|? [|? ?]]].
  - intros (bits & filename & Hsplit & Hwf & Hlink).
    rewrite (process_well_formed ty line more bits filename) by done.
    unfold Spec.stat_outcome.
    case_bool_decide as Hty; [by eexists|].

    case_bool_decide as Hl; [|by eexists].
    assert (ty = "link") as -> by congruence.
    specialize (Hlink eq_refl Hl).
    destruct (Py.split filename " -> ") as [|? [|? [|? ?]]];
      try discriminate.
    by eexists.
Qed.

(** Without output, or with a first line of whitespace only, the stat
    parser raises [IndexError]: there is no first line, or no last word. *)
Theorem stat_blank_output_raises ty :
  File.process ty [] = Raise IndexError
  ∧ ∀ line more,
      Spec.all_chars Py.is_space line = true →
      File.process ty (line :: more) = Raise IndexError.
Proof.
  split; [done|]. intros line more Hblank. unfold File.process.
  cbn [lookup list_lookup of_option mbind result_bind].
  unfold Py.split_ws. by rewrite split_ws_blank.
Qed.

Lemma stat_blank_output_raises_witness :
  File.process "file" ["  "] = Raise IndexError.
Proof.
  apply (proj2 (stat_blank_output_raises "file") "  " []). reflexivity.
Defined.

(** The first token that is not well formed ends the parse with an
    exception, whatever the type of the fact and whatever follows the
    token: [ValueError] when the token does not split in two at the equals
    sign, [IndexError] for a mode without a value, [KeyError] for a mode
    whose flag is not in [FLAG_TO_TYPE]. *)
Theorem stat_first_bad_token_raises ty line more pre bit post filename :
  Py.split_ws line 7 = pre ++ bit :: post ++ [filename] →
  forallb Spec.well_formed pre = true →
  Spec.well_formed bit = false →
  ∃ e, File.process ty (line :: more) = Raise e
       ∧ (Spec.key_value bit = None → e = ValueError)
       ∧ (∀ v, Spec.key_value bit = Some ("mode", v) →
               e = if bool_decide (v = "") then IndexError else KeyError).
Proof.
  intros Hsplit Hpre Hbit.
  destruct (process_bit_bad (Spec.record pre ∅, Spec.resolved_type pre None)
              bit Hbit) as (e & Hraise & Hshape).
  exists e. split; [|done].
  unfold File.process.
  cbn [lookup list_lookup of_option mbind result_bind].
  rewrite Hsplit.
  replace (pre ++ bit :: post ++ [filename])
    with ((pre ++ bit :: post) ++ [filename]) by by rewrite <- app_assoc.
  rewrite last_snoc, removelast_last.
  cbn [of_option mbind result_bind].
  rewrite process_bits_app, process_bits_ok by done.
  cbn [mbind result_bind File.process_bits]. by rewrite Hraise.
Qed.

Lemma stat_first_bad_token_raises_witness :
  ∃ e, File.process "file"
         ["user=root group=root mode= atime=1 mtime=2 ctime=3 size=4 /a"]
       = Raise e
       ∧ (Spec.key_value "mode=" = None → e = ValueError)
       ∧ (∀ v, Spec.key_value "mode=" = Some ("mode", v) →
               e = if bool_decide (v = "") then IndexError else KeyError).
Proof.
  apply (stat_first_bad_token_raises "file"
           "user=root group=root mode= atime=1 mtime=2 ctime=3 size=4 /a" []
           ["user=root"; "group=root"] "mode="
           ["atime=1"; "mtime=2"; "ctime=3"; "size=4"] "/a");
    vm_compute; reflexivity.
Defined.

(** At most one type describes a line: two stat facts that both return
    data on it have the same type, and return the same data. *)
Theorem stat_types_exclusive t1 t2 line more1 more2 d1 d2 :
  File.process t1 (line :: more1) = Ok (Data d1) →
  File.process t2 (line :: more2) = Ok (Data d2) →
  t1 = t2 ∧ d1 = d2.
Proof.
  intros H1 H2.
  destruct (process_returns_inv _ _ _ H1)
    as (? & ? & bits & filename & [= <- <-] & Hsplit & Hwf & Hout1).
  destruct (process_returns_inv _ _ _ H2)
    as (? & ? & bits' & filename' & [= <- <-] & Hsplit' & _ & Hout2).
  rewrite Hsplit in Hsplit'. apply app_inj_tail in Hsplit' as [<- <-].
  destruct (stat_outcome_data _ _ _ _ Hout1) as [Hty1 _].
  destruct (stat_outcome_data _ _ _ _ Hout2) as [Hty2 _].
  assert (t1 = t2) as <- by congruence.
  split; [done|]. congruence.
Qed.

Lemma stat_types_exclusive_witness :
  "file" = "file"
  ∧ Spec.record ["mode=-rw-r--r--"] ∅ = Spec.record ["mode=-rw-r--r--"] ∅.
Proof.
  apply (stat_types_exclusive "file" "file" "mode=-rw-r--r-- /a" [] ["x"]);
    vm_compute; reflexivity.
Defined.

(** A token [key=v] is found in the data under [key], converted by the
    rule of its key, unless a later token has the same key (the last token
    of a key decides) or the key is [link_target] and the fact is the link
    fact, whose own link target comes last. *)
Theorem stat_field_lookup ty line more d pre bit post filename key v :
  File.process ty (line :: more) = Ok (Data d) →
  Py.split_ws line 7 = pre ++ bit :: post ++ [filename] →
  Spec.key_value bit = Some (key, v) →
  key ∉ Spec.keys post →
  (key = "link_target" → ty ≠ "link") →
  d !! key = Some (Spec.field key v).
Proof.
  intros Hrun Hsplit Hbit Hpost Hkey.
  destruct (process_returns_inv _ _ _ Hrun)
    as (? & ? & bits & filename' & [= <- <-] & Hsplit' & Hwf & Hout).
  rewrite Hsplit in Hsplit'.
  replace (pre ++ bit :: post ++ [filename])
    with ((pre ++ bit :: post) ++ [filename]) in Hsplit'
    by by rewrite <- app_assoc.
  apply app_inj_tail in Hsplit' as [<- <-].
  assert (Hrec : Spec.record (pre ++ bit :: post) ∅ !! key
                 = Some (Spec.field key v)).
  { rewrite record_app, record_cons, record_lookup_other by done.
    unfold Spec.record at 1. cbn [foldl]. rewrite Hbit.
    by rewrite lookup_insert_eq. }
  destruct (decide (key = "link_target")) as [->|Hne].
  - specialize (Hkey eq_refl). unfold Spec.stat_outcome in Hout.
    case_bool_decide as Hty; [discriminate|].
    rewrite Hty in Hout.
    rewrite bool_decide_eq_false_2 in Hout by congruence.
    by simplify_eq.
  - destruct (stat_outcome_data _ _ _ _ Hout) as [_ Hd].
    by rewrite Hd.
Qed.

Lemma stat_field_lookup_witness :
  Spec.record ["size=1"; "mode=-rw-r--r--"; "size=20"] ∅ !! "size"
  = Some (Int 20).
Proof.
  apply (stat_field_lookup "file" "size=1 mode=-rw-r--r-- size=20 /a" []
           (Spec.record ["size=1"; "mode=-rw-r--r--"; "size=20"] ∅)
           ["size=1"; "mode=-rw-r--r--"] "size=20" [] "/a" "size" "20");
    try (vm_compute; reflexivity).
  - vm_compute. by intros ?%elem_of_nil.
  - discriminate.
Defined.

(** The keys of the data are the keys of the tokens, and [link_target]
    for a link; nothing else is recorded. *)
Theorem stat_data_keys ty line more d bits filename :
  File.process ty (line :: more) = Ok (Data d) →
  Py.split_ws line 7 = bits ++ [filename] →
  ∀ key, is_Some (d !! key)
         ↔ key ∈ Spec.keys bits ∨ (key = "link_target" ∧ ty = "link").
Proof.
  intros Hrun Hsplit key.
  destruct (process_returns_inv _ _ _ Hrun)
    as (? & ? & bits' & filename' & [= <- <-] & Hsplit' & Hwf & Hout).
  rewrite Hsplit in Hsplit'. apply app_inj_tail in Hsplit' as [<- <-].
  unfold Spec.stat_outcome in Hout.
  case_bool_decide as Hty; [discriminate|].
  rewrite Hty in Hout.
  destruct (decide (ty = "link")) as [->|Hne].
  - rewrite bool_decide_eq_true_2 in Hout by done.
    destruct (Py.split filename " -> ") as [|? [|target [|? ?]]];
      simplify_eq.
    destruct (decide (key = "link_target")) as [->|Hk].
    + rewrite lookup_insert_eq. split; [by right|by eexists].
    + rewrite lookup_insert_ne, record_dom by done.
      rewrite lookup_empty, is_Some_alt. tauto.
  - rewrite bool_decide_eq_false_2 in Hout by congruence. simplify_eq.
    rewrite record_dom, lookup_empty, is_Some_alt. tauto.
Qed.

Lemma stat_data_keys_witness :
  is_Some (Spec.record ["user=root"; "mode=-rw-r--r--"] ∅ !! "mode")
  ↔ "mode" ∈ Spec.keys ["user=root"; "mode=-rw-r--r--"]
    ∨ ("mode" = "link_target" ∧ "file" = "link").
Proof.
  apply (stat_data_keys "file" "user=root mode=-rw-r--r-- /a" []
           (Spec.record ["user=root"; "mode=-rw-r--r--"] ∅)
           ["user=root"; "mode=-rw-r--r--"] "/a");
    vm_compute; reflexivity.
Defined.

(** ** Permission strings and their numbers *)

Lemma str_take_take k j s :
  Py.str_take k (Py.str_take j s) = Py.str_take (k `min` j) s.
Proof.
  revert j s. induction k as [|k IH]; intros [|j] [|c s]; try done.
  cbn. by rewrite IH.
Qed.

Lemma str_drop_take a n s :
  Py.str_drop a (Py.str_take n s) = Py.str_take (n - a) (Py.str_drop a s).
Proof.
  revert n s. induction a as [|a IH]; intros n s.
  - by rewrite Nat.sub_0_r.
  - destruct n as [|n], s as [|c s]; cbn; try done.
    by destruct (n - a).
Qed.

Lemma slice_of_prefix s n i j :
  j ≤ n → Py.slice (Py.slice s 0 n) i j = Py.slice s i j.
Proof.
  intros Hj. unfold Py.slice. cbn [Py.str_drop]. rewrite Nat.sub_0_r.
  rewrite str_drop_take, str_take_take. f_equal. lia.
Qed.

(** [_parse_mode] reads the first nine characters only: two strings that
    agree on them have the same number, whatever follows. *)
Theorem parse_mode_reads_nine mode1 mode2 :
  Py.slice mode1 0 9 = Py.slice mode2 0 9 →
  _parse_mode mode1 = _parse_mode mode2.
Proof.
  intros Heq. rewrite !parse_mode_encode. unfold Spec.encode.
  rewrite <- (slice_of_prefix mode1 9 0 3), <- (slice_of_prefix mode1 9 3 6),
    <- (slice_of_prefix mode1 9 6 9) by lia.
  rewrite Heq.
  by rewrite !slice_of_prefix by lia.
Qed.

Lemma parse_mode_reads_nine_witness :
  _parse_mode "rwxr-xr-x+" = _parse_mode "rwxr-xr-x".
Proof. apply parse_mode_reads_nine. reflexivity. Defined.

Lemma nine_characters mode :
  String.length mode = 9 →
  mode = Py.slice mode 0 3 +:+ Py.slice mode 3 6 +:+ Py.slice mode 6 9.
Proof.
  do 9 (destruct mode as [|? mode]; [discriminate|]).
  destruct mode; [reflexivity|discriminate].
Qed.

Lemma canonical_cases g :
  g ∈ Spec.canonical_groups →
  g = "rwx" ∨ g = "rw-" ∨ g = "r-x" ∨ g = "r--"
  ∨ g = "-wx" ∨ g = "-w-" ∨ g = "--x" ∨ g = "---".
Proof.
  unfold Spec.canonical_groups. rewrite !elem_of_cons, elem_of_nil. tauto.
Qed.

Lemma digit_cases a :
  (0 ≤ a ≤ 7)%Z →
  (a = 0 ∨ a = 1 ∨ a = 2 ∨ a = 3 ∨ a = 4 ∨ a = 5 ∨ a = 6 ∨ a = 7)%Z.
Proof. lia. Qed.

(** On permission strings of nine characters in three canonical groups,
    [_parse_mode] can be undone: every number of three digits up to 7 is the
    number of the string [symbolic] writes for it, every such string is what
    [symbolic] writes for its number, and so two such strings with the same
    number are the same string. *)
Theorem parse_mode_round_trip :
  (∀ a b c, (0 ≤ a ≤ 7)%Z → (0 ≤ b ≤ 7)%Z → (0 ≤ c ≤ 7)%Z →
            canonical_mode (symbolic (100 * a + 10 * b + c))
            ∧ _parse_mode (symbolic (100 * a + 10 * b + c))
              = Ok (100 * a + 10 * b + c)%Z)
  ∧ (∀ mode, canonical_mode mode →
             ∃ n, _parse_mode mode = Ok n ∧ symbolic n = mode)
  ∧ (∀ mode1 mode2, canonical_mode mode1 → canonical_mode mode2 →
                    _parse_mode mode1 = _parse_mode mode2 → mode1 = mode2).
Proof.
  assert (Hback : ∀ mode, canonical_mode mode →
                          ∃ n, _parse_mode mode = Ok n ∧ symbolic n = mode).
  { intros mode (Hlen & H1 & H2 & H3).
    exists (Spec.encode mode). split; [apply parse_mode_encode|].
    rewrite (nine_characters mode Hlen) at 2. unfold Spec.encode.
    apply canonical_cases in H1, H2, H3.
    destruct H1 as [->|[->|[->|[->|[->|[->|[->| ->]]]]]]];
      destruct H2 as [->|[->|[->|[->|[->|[->|[->| ->]]]]]]];
      destruct H3 as [->|[->|[->|[->|[->|[->|[->| ->]]]]]]];
      vm_compute; reflexivity. }
  split; [|split; [exact Hback|]].
  - intros a b c Ha%digit_cases Hb%digit_cases Hc%digit_cases.
    destruct Ha as [->|[->|[->|[->|[->|[->|[->| ->]]]]]]];
      destruct Hb as [->|[->|[->|[->|[->|[->|[->| ->]]]]]]];
      destruct Hc as [->|[->|[->|[->|[->|[->|[->| ->]]]]]]];
      (split;
       [split; [reflexivity|];
        repeat split; by apply (bool_decide_unpack _); vm_compute
       | vm_compute; reflexivity]).
  - intros mode1 mode2 (n1 & Hp1 & <-)%Hback (n2 & Hp2 & <-)%Hback Heq.
    congruence.
Qed.

Lemma parse_mode_round_trip_witness :
  ∃ n, _parse_mode "rwxr-xr--" = Ok n ∧ symbolic n = "rwxr-xr--".
Proof.
  apply (proj1 (proj2 parse_mode_round_trip) "rwxr-xr--").
  split; [reflexivity|]. repeat split; by apply (bool_decide_unpack _).
Defined.

(** ** Link lines built from their fields *)

Lemma arrow_prefix_has_gt s : no_gt s → Py.has_prefix " -> " s = false.
Proof.
  unfold no_gt.
  destruct s as [|a [|b [|c s]]]; cbn [Py.has_prefix]; intros Hs;
    try by rewrite ?andb_false_r.
  cbn [Spec.all_chars] in Hs.
  apply andb_true_iff in Hs as [_ [_ [Hc _]%andb_true_iff]%andb_true_iff].
  apply negb_true_iff, bool_decide_eq_false in Hc.
  rewrite (bool_decide_eq_false_2 (">"%char = c)) by congruence.
  by rewrite !andb_false_r.
Qed.

Lemma split_no_arrow cur s :
  no_gt s → Py.split_from " -> " 0 cur s = [cur +:+ s].
Proof.
  revert cur. induction s as [|c s IH]; intros cur Hs.
  - by rewrite string_app_empty.
  - cbn [Py.split_from]. rewrite arrow_prefix_has_gt by done.
    unfold no_gt in Hs. cbn [Spec.all_chars] in Hs.
    apply andb_true_iff in Hs as [_ Hs].
    rewrite IH by done. by rewrite string_app_assoc.
Qed.

Lemma arrow_not_before n rest c :
  no_gt (String c n) →
  Py.has_prefix " -> " (String c n +:+ " -> " +:+ rest) = false.
Proof.
  unfold no_gt. intros Hn.
  destruct n as [|b [|d n]]; cbv [String.append]; cbn [Py.has_prefix].
  - rewrite (bool_decide_eq_false_2 ("-"%char = " "%char)) by done.
    by rewrite andb_false_r.
  - rewrite (bool_decide_eq_false_2 (">"%char = " "%char)) by done.
    by rewrite !andb_false_r.
  - cbn [Spec.all_chars] in Hn.
    apply andb_true_iff in Hn as [_ [_ [Hc _]%andb_true_iff]%andb_true_iff].
    apply negb_true_iff, bool_decide_eq_false in Hc.
    rewrite (bool_decide_eq_false_2 (">"%char = d)) by congruence.
    by rewrite !andb_false_r.
Qed.

Lemma split_one_arrow cur n t :
  no_gt n → no_gt t →
  Py.split_from " -> " 0 cur (n +:+ " -> " +:+ t) = [cur +:+ n; t].
Proof.
  revert cur. induction n as [|c n IH]; intros cur Hn Ht.
  - rewrite string_app_empty.
    cbv [String.append].
    cbn [Py.split_from Py.has_prefix String.length Nat.sub].
    rewrite !bool_decide_eq_true_2 by done. cbn [andb].
    by rewrite split_no_arrow.
  - rewrite string_app_cons. cbn [Py.split_from].
    rewrite <- string_app_cons, arrow_not_before by done.
    unfold no_gt in Hn. cbn [Spec.all_chars] in Hn.
    apply andb_true_iff in Hn as [_ Hn].
    rewrite IH by done. by rewrite string_app_assoc.
Qed.

(** A stat line of seven fields for a link, followed by a name, the arrow
    and a target (neither holding a [>]), parsed by [Link]: the fields are
    recorded and [link_target] is the target with the quotes at its two ends
    stripped, be it the quoted form GNU stat prints or the bare form BSD
    stat prints. *)
Theorem link_line_parse user group mode atime mtime ctime size name target :
  field_text user → field_text group → field_text mode →
  field_text atime → field_text mtime → field_text ctime → field_text size →
  timestamp_ok atime → timestamp_ok mtime → timestamp_ok ctime →
  Spec.flag_type mode = Some "link" →
  starts_a_word name → no_gt name → no_gt target →
  Link.process
    [stat_line user group mode atime mtime ctime size
       (name +:+ " -> " +:+ target)]
  = Ok (Data
          (<["link_target" := Str (Py.strip target "'")]>
             (<["size" := Spec.field "size" size]>
                (<["ctime" := Spec.field "ctime" ctime]>
                   (<["mtime" := Spec.field "mtime" mtime]>
                      (<["atime" := Spec.field "atime" atime]>
                         (<["mode" := Int (Spec.encode (Py.slice_from mode 1))]>
                            (<["group" := Str group]>
                               (<["user" := Str user]> ∅))))))))).
Proof.
  intros Hu Hg Hm Ha Hmt Hc Hs Hat Hmtt Hct Hflag Hname Hno Hnot.
  destruct (stat_tokens_read user group mode atime mtime ctime size)
    as (Hrec & Hty & Hwf); try done.
  unfold Link.process.
  rewrite (process_well_formed Link.type _ []
             (stat_tokens user group mode atime mtime ctime size)
             (name +:+ " -> " +:+ target)).
  - unfold Spec.stat_outcome. rewrite Hty, Hflag, Hrec.
    rewrite bool_decide_eq_false_2 by (by intros []).
    rewrite bool_decide_eq_true_2 by done.
    unfold Py.split. by rewrite split_one_arrow.
  - unfold stat_line.
    apply (split_ws_unwords
             (stat_tokens user group mode atime mtime ctime size));
      [by apply stat_tokens_words|].
    destruct name; [done|]. by rewrite string_app_cons.
  - apply Hwf; [by rewrite Hflag | done..].
Qed.

Lemma link_line_parse_witness :
  Link.process
    ["user=root group=root mode=lrwxrwxrwx atime=1500000000 mtime=1500000001 ctime=1500000002 size=9 '/etc/mtab' -> '/proc/mounts'"]
  = Ok (Data
          (<["link_target" := Str "/proc/mounts"]>
             (<["size" := Int 9]>
                (<["ctime" := Datetime 1500000002]>
                   (<["mtime" := Datetime 1500000001]>
                      (<["atime" := Datetime 1500000000]>
                         (<["mode" := Int 777]>
                            (<["group" := Str "root"]>
                               (<["user" := Str "root"]> ∅))))))))).
Proof.
  apply (link_line_parse "root" "root" "lrwxrwxrwx" "1500000000"
           "1500000001" "1500000002" "9" "'/etc/mtab'" "'/proc/mounts'");
    try (split; vm_compute; reflexivity);
    vm_compute; reflexivity.
Defined.

(** A link line whose last word does not split in exactly two at the
    arrow (no arrow, or a name or target that holds one) makes [Link]
    raise [ValueError]. *)
Theorem link_without_one_arrow_raises line more bits filename :
  Py.split_ws line 7 = bits ++ [filename] →
  forallb Spec.well_formed bits = true →
  Spec.resolved_type bits None = Some "link" →
  length (Py.split filename " -> ") ≠ 2 →
  Link.process (line :: more) = Raise ValueError.
Proof.
  intros Hsplit Hwf Hty Hlen. unfold Link.process.
  rewrite (process_well_formed _ _ _ _ _ Hsplit Hwf).
  unfold Spec.stat_outcome. rewrite Hty.
  rewrite bool_decide_eq_false_2 by (by intros []).
  rewrite bool_decide_eq_true_2 by done.
  by destruct (Py.split filename " -> ") as [|? [|? [|? ?]]].
Qed.

Lemma link_without_one_arrow_raises_witness :
  Link.process
    ["user=root group=root mode=lrwxrwxrwx atime=1 mtime=2 ctime=3 size=4 a -> b -> c"]
  = Raise ValueError.
Proof.
  apply (link_without_one_arrow_raises _ []
           ["user=root"; "group=root"; "mode=lrwxrwxrwx"; "atime=1";
            "mtime=2"; "ctime=3"; "size=4"] "a -> b -> c");
    try (vm_compute; reflexivity).
  vm_compute. intros [=].
Defined.

(** ** What the checksum facts return *)

Lemma head_bind_cons {A B} (f : A → list B) x xs y :
  head (f x) = Some y → head ((x :: xs) ≫= f) = Some y.
Proof.
  rewrite bind_cons. destruct (f x) as [|z zs]; [done|]. by intros [= ->].
Qed.

Lemma head_matches_all_cons r rs st st1 st2 :
  head (Re.matches r st) = Some st1 →
  head (Re.matches_all rs st1) = Some st2 →
  head (Re.matches_all (r :: rs) st) = Some st2.
Proof.
  cbn [Re.matches_all]. destruct (Re.matches r st) as [|x xs]; [done|].
  intros [= ->]. apply head_bind_cons.
Qed.

Lemma head_matches_all_app rs1 rs2 st st1 st2 :
  head (Re.matches_all rs1 st) = Some st1 →
  head (Re.matches_all rs2 st1) = Some st2 →
  head (Re.matches_all (rs1 ++ rs2) st) = Some st2.
Proof.
  rewrite matches_all_app. destruct (Re.matches_all rs1 st) as [|x xs]; [done|].
  intros [= ->]. apply head_bind_cons.
Qed.

(** *** Runs of whitespace *)

Lemma iterate_spaces_head ws r fuel count p c :
  Spec.all_chars Py.is_space ws = true →
  no_space_start r →
  String.length ws < fuel →
  1 ≤ count + String.length ws →
  head (Re.iterate (Re.one Py.is_space) 1 None fuel count
          (Re.MState p (ws +:+ r) c))
  = Some (Re.MState (p + String.length ws) r c).
Proof.
  revert fuel count p.
  induction ws as [|a ws IH]; intros fuel count p Hws Hr Hfuel Hcount.
  - destruct fuel as [|fuel]; [lia|].
    change ("" +:+ r) with r. cbn [Re.iterate Re.below String.length].
    rewrite Nat.add_0_r.
    replace (Re.one Py.is_space (Re.MState p r c)) with (@nil Re.mstate).
    + cbn [mbind list_bind app]. cbn [String.length] in Hcount.
      by replace (1 <=? count) with true by (symmetry; apply Nat.leb_le; lia).
    + destruct r as [|b r]; [done|]. rewrite one_cons.
      cbn [no_space_start] in Hr. by rewrite Hr.
  - destruct fuel as [|fuel]; [lia|].
    cbn [Spec.all_chars] in Hws. apply andb_true_iff in Hws as [Ha Hws].
    rewrite string_app_cons. cbn [Re.iterate Re.below].
    rewrite one_cons, Ha, bind_singleton.
    cbn [String.length] in *.
    assert (Hih := IH fuel (S count) (S p) Hws Hr ltac:(lia) ltac:(lia)).
    destruct (Re.iterate _ _ _ fuel (S count) _) as [|x xs]; [done|].
    cbn [app head] in *. rewrite Hih. f_equal. f_equal. lia.
Qed.

(** [\s+] first takes the whole run of whitespace. *)
Lemma matches_spaces_head ws r p c :
  blank ws → no_space_start r →
  head (Re.matches spaces (Re.MState p (ws +:+ r) c))
  = Some (Re.MState (p + String.length ws) r c).
Proof.
  intros [Hne Hws] Hr. unfold spaces. cbn [Re.matches Re.rest].
  change (Re.matches (Re.Cat Re.Space)) with (Re.one Py.is_space).
  apply iterate_spaces_head; [done..| |].
  - rewrite string_length_app. lia.
  - destruct ws; [done|]. cbn. lia.
Qed.

Lemma iterate_spaces_elem fuel count st st' :
  st' ∈ Re.iterate (Re.one Py.is_space) 1 None fuel count st →
  ∃ ws, Spec.all_chars Py.is_space ws = true
        ∧ Re.rest st = ws +:+ Re.rest st'
        ∧ Re.caps st' = Re.caps st
        ∧ 1 ≤ count + String.length ws.
Proof.
  revert count st. induction fuel as [|fuel IH]; intros count st.
  { cbn. by intros ?%elem_of_nil. }
  cbn [Re.iterate Re.below]. rewrite elem_of_app.
  intros [Hmore|Hstop].
  - apply list_elem_of_bind in Hmore as (st1 & Hrest & Hone).
    destruct st as [p s c]. destruct s as [|a s].
    { by apply elem_of_nil in Hone. }
    rewrite one_cons in Hone. destruct (Py.is_space a) eqn:Ha.
    2:{ by apply elem_of_nil in Hone. }
    apply list_elem_of_singleton in Hone as ->.
    apply IH in Hrest as (ws & Hws & Hsplit & Hcaps & Hlen).
    cbn [Re.rest Re.caps] in *.
    exists (String a ws). cbn [Spec.all_chars String.length].
    rewrite Ha, Hws, string_app_cons, <- Hsplit. repeat split; [done|lia].
  - destruct (1 <=? count) eqn:Hc.
    2:{ by apply elem_of_nil in Hstop. }
    apply list_elem_of_singleton in Hstop as ->.
    exists "". repeat split. apply Nat.leb_le in Hc. cbn. lia.
Qed.

Lemma matches_spaces_elem st st' :
  st' ∈ Re.matches spaces st →
  ∃ ws, blank ws ∧ Re.rest st = ws +:+ Re.rest st'
        ∧ Re.caps st' = Re.caps st.
Proof.
  unfold spaces. cbn [Re.matches].
  change (Re.matches (Re.Cat Re.Space)) with (Re.one Py.is_space).
  intros (ws & Hws & Hsplit & Hcaps & Hlen)%iterate_spaces_elem.
  exists ws. repeat split; try done.
  intros ->. cbn in Hlen. lia.
Qed.

(** *** The other items *)

Lemma matches_lit_elem a st st' :
  st' ∈ Re.matches (Re.Lit a) st →
  Re.rest st = String a (Re.rest st') ∧ Re.caps st' = Re.caps st.
Proof.
  destruct st as [p [|b s] c]; cbn [Re.matches].
  { by intros ?%elem_of_nil. }
  rewrite one_cons. case_bool_decide as Hb.
  - subst b. by intros ->%list_elem_of_singleton.
  - by intros ?%elem_of_nil.
Qed.

Lemma matches_literals_elem n st st' :
  st' ∈ Re.matches_all (lits n) st →
  Re.rest st = n +:+ Re.rest st' ∧ Re.caps st' = Re.caps st.
Proof.
  destruct st as [p s c]. rewrite matches_all_literals.
  destruct (Py.has_prefix n s) eqn:Hpre.
  - intros ->%list_elem_of_singleton. cbn [Re.rest Re.caps].
    split; [by apply has_prefix_split|done].
  - by intros ?%elem_of_nil.
Qed.

Lemma run_of_split test k s r :
  run_of test k s = Some r →
  s = Py.str_take k s +:+ r
  ∧ String.length (Py.str_take k s) = k
  ∧ Spec.all_chars test (Py.str_take k s) = true.
Proof.
  revert s. induction k as [|k IH]; intros s.
  - intros [= ->]. by destruct r.
  - destruct s as [|a s]; [done|]. cbn [run_of].
    destruct (test a) eqn:Ha; [|done].
    intros (Hs & Hlen & Hall)%IH.
    cbn [Py.str_take String.length Spec.all_chars].
    rewrite string_app_cons, <- Hs, Hlen, Ha, Hall. done.
Qed.

Lemma matches_digest_group_elem k st st' :
  st' ∈ Re.matches (digest_group k) st →
  ∃ d, Spec.digest k d
       ∧ Re.rest st = d +:+ Re.rest st'
       ∧ Re.caps st' = <[1 := d]> (Re.caps st).
Proof.
  destruct st as [p s c]. rewrite matches_digest_group.
  destruct (run_of _ k s) as [r|] eqn:Hrun.
  - intros ->%list_elem_of_singleton.
    apply run_of_split in Hrun as (Hs & Hlen & Hall).
    exists (Py.str_take k s). cbn [Re.rest Re.caps].
    repeat split; [done| |done..].
    by rewrite <- (all_chars_ext _ _ _ in_alnum).
  - by intros ?%elem_of_nil.
Qed.

Lemma matches_eol_elem st st' :
  st' ∈ Re.matches Re.Eol st → st' = st ∧ line_end (Re.rest st).
Proof.
  cbn [Re.matches]. destruct (Re.at_end (Re.rest st)) eqn:Hend.
  - intros ->%list_elem_of_singleton. split; [done|].
    unfold line_end. destruct (Re.rest st) as [|a [|b s]]; [by left| |done].
    cbn [Re.at_end] in Hend. apply bool_decide_eq_true in Hend as ->.
    by right.
  - by intros ?%elem_of_nil.
Qed.

Lemma matches_all_cons_elem r rs st st' :
  st' ∈ Re.matches_all (r :: rs) st →
  ∃ st1, st1 ∈ Re.matches r st ∧ st' ∈ Re.matches_all rs st1.
Proof.
  cbn [Re.matches_all]. intros (st1 & ? & ?)%list_elem_of_bind. by exists st1.
Qed.

Lemma matches_all_app_elem rs1 rs2 st st' :
  st' ∈ Re.matches_all (rs1 ++ rs2) st →
  ∃ st1, st1 ∈ Re.matches_all rs1 st ∧ st' ∈ Re.matches_all rs2 st1.
Proof.
  rewrite matches_all_app. intros (st1 & ? & ?)%list_elem_of_bind.
  by exists st1.
Qed.

Lemma line_end_at_end e : line_end e → Re.at_end e = true.
Proof. by intros [-> | ->]. Qed.

(** *** The two patterns, for any items in the place of the path *)

Lemma blank_snoc_newline ws :
  blank ws → blank (ws +:+ String Re.newline "").
Proof.
  intros [Hne Hws]. split.
  - destruct ws; [done|]. by rewrite string_app_cons.
  - by rewrite all_chars_app, Hws.
Qed.

(** The whitespace before a path and the end of the line, cut so that
    what follows it does not start with whitespace. *)
Lemma path_after_blank ws n e :
  blank ws → no_space_start n → line_end e →
  ∃ ws' e', blank ws' ∧ line_end e' ∧ no_space_start (n +:+ e')
            ∧ ws +:+ n +:+ e = ws' +:+ n +:+ e'.
Proof.
  intros Hws Hn He. destruct n as [|a n].
  - destruct He as [-> | ->].
    + exists ws, "". split_and!; [done|by left|done..].
    + exists (ws +:+ String Re.newline ""), "".
      split_and!; [by apply blank_snoc_newline|by left|done|].
      by rewrite string_app_assoc.
  - exists ws, e. split_and!; [done..| |done].
    by rewrite string_app_cons.
Qed.

Lemma space_not_alnum a :
  Py.is_space a = true → Re.in_set false alnum a = false.
Proof.
  intros Ha. rewrite in_alnum.
  destruct (Py.is_alpha a || Py.is_digit a) eqn:Hal; [|done].
  apply alnum_not_space in Hal. congruence.
Qed.

Section path_items.

(** The items that stand for the path in a pattern, and the texts they
    match: each of these texts in one way, none of them starting with
    whitespace, and no other text. *)
Variable path : list Re.regex.
Variable names : string → Prop.

Hypothesis path_sound :
  ∀ st st', st' ∈ Re.matches_all path st →
            ∃ q, names q ∧ Re.rest st = q +:+ Re.rest st'
                 ∧ Re.caps st' = Re.caps st.

Hypothesis path_complete :
  ∀ q p r c, names q →
             Re.matches_all path (Re.MState p (q +:+ r) c)
             = [Re.MState (p + String.length q) r c].

Hypothesis path_start : ∀ q, names q → no_space_start q.

(** Every match of the first pattern is on a line in the GNU style. *)
Lemma gnu_sound k line st :
  st ∈ Re.matches_all (gnu_pattern k path) (Re.MState 0 line ∅) →
  ∃ d q, Re.caps st = {[1 := d]} ∧ Spec.digest k d ∧ names q
         ∧ gnu_line q d line.
Proof.
  unfold gnu_pattern. cbn [app].
  intros (st0 & H0 & Hst)%matches_all_cons_elem.
  cbn [Re.matches Re.pos Nat.eqb] in H0.
  apply list_elem_of_singleton in H0 as ->.
  apply matches_all_cons_elem in Hst as (st1 & H1 & Hst).
  apply matches_digest_group_elem in H1 as (d & Hd & Hr1 & Hc1).
  apply matches_all_cons_elem in Hst as (st2 & H2 & Hst).
  apply matches_spaces_elem in H2 as (ws & Hws & Hr2 & Hc2).
  apply matches_all_app_elem in Hst as (st3 & H3 & Hst).
  apply path_sound in H3 as (q & Hq & Hr3 & Hc3).
  rewrite matches_all_singleton in Hst.
  apply matches_eol_elem in Hst as (-> & He).
  cbn [Re.rest Re.caps] in *.
  exists d, q. split_and!; [|done..|].
  - by rewrite Hc3, Hc2, Hc1.
  - exists ws, (Re.rest st3). split_and!; [done..|].
    by rewrite Hr1, Hr2, Hr3.
Qed.

(** The first pattern matches a line in the GNU style and captures its
    digest. *)
Lemma gnu_complete k q d line :
  names q → Spec.digest k d → gnu_line q d line →
  ∃ p e, head (Re.matches_all (gnu_pattern k path) (Re.MState 0 line ∅))
         = Some (Re.MState p e {[1 := d]}).
Proof.
  intros Hq Hd (ws & e & Hws & He & ->).
  destruct (path_after_blank ws q e Hws (path_start q Hq) He)
    as (ws' & e' & Hws' & He' & Hstart & ->).
  unfold gnu_pattern. cbn [app].
  eexists _, e'.
  eapply head_matches_all_cons; [reflexivity|].
  eapply head_matches_all_cons.
  { by rewrite matches_digest_group_digest. }
  eapply head_matches_all_cons.
  { by apply matches_spaces_head. }
  rewrite matches_all_app, path_complete, bind_singleton by done.
  rewrite matches_all_singleton. cbn [Re.matches Re.rest].
  by rewrite line_end_at_end.
Qed.

(** Every match of the second pattern is on a line in the BSD style. *)
Lemma bsd_sound algo k line st :
  st ∈ Re.matches_all (bsd_pattern algo k path) (Re.MState 0 line ∅) →
  ∃ d q, Re.caps st = {[1 := d]} ∧ Spec.digest k d ∧ names q
         ∧ bsd_line algo q d line.
Proof.
  unfold bsd_pattern. rewrite <- app_comm_cons.
  intros (st0 & H0 & Hst)%matches_all_cons_elem.
  cbn [Re.matches Re.pos Nat.eqb] in H0.
  apply list_elem_of_singleton in H0 as ->.
  apply matches_all_app_elem in Hst as (st1 & H1 & Hst).
  apply matches_literals_elem in H1 as (Hr1 & Hc1).
  cbn [app] in Hst.
  apply matches_all_cons_elem in Hst as (st2 & H2 & Hst).
  apply matches_spaces_elem in H2 as (ws1 & Hws1 & Hr2 & Hc2).
  apply matches_all_cons_elem in Hst as (st3 & H3 & Hst).
  apply matches_lit_elem in H3 as (Hr3 & Hc3).
  apply matches_all_app_elem in Hst as (st4 & H4 & Hst).
  apply path_sound in H4 as (q & Hq & Hr4 & Hc4).
  apply matches_all_cons_elem in Hst as (st5 & H5 & Hst).
  apply matches_lit_elem in H5 as (Hr5 & Hc5).
  apply matches_all_cons_elem in Hst as (st6 & H6 & Hst).
  apply matches_spaces_elem in H6 as (ws2 & Hws2 & Hr6 & Hc6).
  apply matches_all_cons_elem in Hst as (st7 & H7 & Hst).
  apply matches_lit_elem in H7 as (Hr7 & Hc7).
  apply matches_all_cons_elem in Hst as (st8 & H8 & Hst).
  apply matches_spaces_elem in H8 as (ws3 & Hws3 & Hr8 & Hc8).
  apply matches_all_cons_elem in Hst as (st9 & H9 & Hst).
  apply matches_digest_group_elem in H9 as (d & Hd & Hr9 & Hc9).
  rewrite matches_all_singleton in Hst.
  apply matches_eol_elem in Hst as (-> & He).
  cbn [Re.rest Re.caps] in *.
  exists d, q. split_and!; [|done..|].
  - by rewrite Hc9, Hc8, Hc7, Hc6, Hc5, Hc4, Hc3, Hc2, Hc1.
  - exists ws1, ws2, ws3, (Re.rest st9). split_and!; [done..|].
    rewrite Hr1, Hr2, Hr3, Hr4, Hr5, Hr6, Hr7, Hr8, Hr9.
    by rewrite !string_app_cons.
Qed.

(** The second pattern matches a line in the BSD style and captures its
    digest. *)
Lemma bsd_complete algo k q d line :
  names q → Spec.digest (S k) d → bsd_line algo q d line →
  ∃ p e, head (Re.matches_all (bsd_pattern algo (S k) path)
                 (Re.MState 0 line ∅))
         = Some (Re.MState p e {[1 := d]}).
Proof.
  intros Hq Hd (ws1 & ws2 & ws3 & e & Hws1 & Hws2 & Hws3 & He & ->).
  unfold bsd_pattern. rewrite <- app_comm_cons.
  eexists _, e.
  eapply head_matches_all_cons; [reflexivity|].
  eapply head_matches_all_app.
  { by rewrite matches_all_literals, has_prefix_refl, str_drop_app. }
  cbn [app].
  eapply head_matches_all_cons.
  { by apply matches_spaces_head. }
  change ("(" +:+ ?s) with (String "(" s).
  eapply head_matches_all_cons.
  { by rewrite matches_lit_cons. }
  eapply head_matches_all_app.
  { by rewrite path_complete. }
  change (")" +:+ ?s) with (String ")" s).
  eapply head_matches_all_cons.
  { by rewrite matches_lit_cons. }
  eapply head_matches_all_cons.
  { by apply matches_spaces_head. }
  change ("=" +:+ ?s) with (String "=" s).
  eapply head_matches_all_cons.
  { by rewrite matches_lit_cons. }
  eapply head_matches_all_cons.
  { apply matches_spaces_head; [done|].
    pose proof (digest_nonempty _ _ Hd) as Hstart.
    destruct d; [done|]. by rewrite string_app_cons. }
  eapply head_matches_all_cons.
  { rewrite matches_digest_group. destruct Hd as [<- Hall].
    rewrite run_of_app, str_take_app
      by (by rewrite (all_chars_ext _ _ _ in_alnum)).
    reflexivity. }
  rewrite matches_all_singleton. cbn [Re.matches Re.rest].
  by rewrite line_end_at_end.
Qed.

(** The first pattern does not match a line in the BSD style: whitespace
    comes where the digest would go on. *)
Lemma gnu_rejects_bsd algo k q d line :
  String.length algo < k → bsd_line algo q d line →
  Re.matches_all (gnu_pattern k path) (Re.MState 0 line ∅) = [].
Proof.
  intros Hk (ws1 & ws2 & ws3 & e & [Hne Hws1] & _ & _ & _ & ->).
  unfold gnu_pattern. cbn [app Re.matches_all].
  change (Re.matches Re.Bol (Re.MState 0 ?s ∅)) with [Re.MState 0 s ∅].
  rewrite bind_singleton, matches_digest_group.
  destruct ws1 as [|a ws1]; [done|].
  cbn [Spec.all_chars] in Hws1. apply andb_true_iff in Hws1 as [Ha _].
  rewrite string_app_cons, run_of_stops; [done..|].
  by apply space_not_alnum.
Qed.

(** The loop returns the digest the first line reports against one of the
    texts the items match, if it reports one; [name] is the path as the
    pattern holds it. *)
Lemma checksum_pattern_returns gnu bsd pg pb algo k name line more :
  Py.percent gnu name = Ok pg →
  Re.compile pg = Ok (Re.seq_of (rev (gnu_pattern (S k) path)), 1) →
  Py.percent bsd name = Ok pb →
  Re.compile pb = Ok (Re.seq_of (rev (bsd_pattern algo (S k) path)), 1) →
  String.length algo < S k →
  ∃ r, Checksum.process [gnu; bsd] (Self (Some name)) (line :: more) = Ok r
       ∧ ∀ d, r = Some d ↔ ∃ q, names q ∧ reports algo (S k) q line d.
Proof.
  intros Hpg Hcg Hpb Hcb Hk.
  rewrite (checksum_process_cons _ _ _ _ _ _ _ _ Hpg Hcg).
  rewrite matches_seq_of, rev_involutive.
  destruct (head (Re.matches_all (gnu_pattern (S k) path) _)) as [st|]
    eqn:Hgnu.
  - pose proof (head_Some_elem_of _ _ Hgnu) as Hin.
    apply gnu_sound in Hin as (d0 & q0 & Hcaps & Hd0 & Hq0 & Hline).
    exists (Some d0). unfold Re.group. cbn [fst snd Nat.leb].
    rewrite Hcaps, lookup_singleton_eq. split; [done|].
    intros d. split.
    + intros [= <-]. exists q0. split; [done|]. split; [done|by left].
    + intros (q & Hq & Hd & [Hg|Hb]).
      * destruct (gnu_complete _ _ _ _ Hq Hd Hg) as (p & e & Hhead).
        rewrite Hhead in Hgnu. injection Hgnu as <-.
        cbn [Re.caps] in Hcaps.
        apply (f_equal (lookup 1)) in Hcaps.
        rewrite !lookup_singleton_eq in Hcaps. congruence.
      * rewrite (gnu_rejects_bsd algo (S k) q d line) in Hgnu by done.
        discriminate.
  - rewrite (checksum_process_cons _ _ _ _ _ _ _ _ Hpb Hcb).
    rewrite matches_seq_of, rev_involutive.
    destruct (head (Re.matches_all (bsd_pattern algo (S k) path) _))
      as [st|] eqn:Hbsd.
    + pose proof (head_Some_elem_of _ _ Hbsd) as Hin.
      apply bsd_sound in Hin as (d0 & q0 & Hcaps & Hd0 & Hq0 & Hline).
      exists (Some d0). unfold Re.group. cbn [fst snd Nat.leb].
      rewrite Hcaps, lookup_singleton_eq. split; [done|].
      intros d. split.
      * intros [= <-]. exists q0. split; [done|]. split; [done|by right].
      * intros (q & Hq & Hd & [Hg|Hb]).
        -- destruct (gnu_complete _ _ _ _ Hq Hd Hg) as (p & e & Hhead).
           rewrite Hhead in Hgnu. discriminate.
        -- destruct (bsd_complete _ _ _ _ _ Hq Hd Hb) as (p & e & Hhead).
           rewrite Hhead in Hbsd. injection Hbsd as <-.
           cbn [Re.caps] in Hcaps.
           apply (f_equal (lookup 1)) in Hcaps.
           rewrite !lookup_singleton_eq in Hcaps. congruence.
    + exists None. split; [done|]. intros d. split; [done|].
      intros (q & Hq & Hd & [Hg|Hb]).
      * destruct (gnu_complete _ _ _ _ Hq Hd Hg) as (p & e & Hhead).
        rewrite Hhead in Hgnu. discriminate.
      * destruct (bsd_complete _ _ _ _ _ Hq Hd Hb) as (p & e & Hhead).
        rewrite Hhead in Hbsd. discriminate.
Qed.

End path_items.

(** *** The loop over the two patterns, for literal characters *)

(** The loop returns the digest the first line reports, if it reports
    one, for two patterns that compile to the items above; [name] is the
    path as the pattern holds it and [n] the path as the line holds it. *)
Lemma checksum_returns gnu bsd pg pb algo k name n line more :
  Py.percent gnu name = Ok pg →
  Re.compile pg = Ok (Re.seq_of (rev (gnu_items (S k) n)), 1) →
  Py.percent bsd name = Ok pb →
  Re.compile pb = Ok (Re.seq_of (rev (bsd_items algo (S k) n)), 1) →
  String.length algo < S k →
  no_space_start n →
  ∃ r, Checksum.process [gnu; bsd] (Self (Some name)) (line :: more) = Ok r
       ∧ ∀ d, r = Some d ↔ reports algo (S k) n line d.
Proof.
  intros Hpg Hcg Hpb Hcb Hk Hn.
  destruct (checksum_pattern_returns (lits n) (λ q, q = n)) with
    (gnu := gnu) (bsd := bsd) (pg := pg) (pb := pb) (algo := algo) (k := k)
    (name := name) (line := line) (more := more) as (r & Hr & Hiff);
    try done.
  - intros st st' Hst%matches_literals_elem. by exists n.
  - intros q p r c ->.
    by rewrite matches_all_literals, has_prefix_refl, str_drop_app.
  - by intros q ->.
  - exists r. split; [done|]. intros d. rewrite Hiff. split.
    + by intros (q & -> & Hrep).
    + intros Hrep. by exists n.
Qed.

(** For a path whose escaped form is literal, the checksum facts never
    raise on output that has a first line, and return a digest exactly when
    that line reports it against the path in the GNU style (digest,
    whitespace, path) or in the BSD style with the name the second pattern
    spells (SHA1 for [Sha1File], SHA256 for [Sha256File] and also for
    [Md5File]); the digest has the length of the fact, in letters and
    digits.  On any other first line they return [None]. *)
Theorem checksum_returns_iff (H : Connectors) (self : instance)
    (p line : string) (more : list string) :
  Spec.literal (escape_unix_path p) →
  (∃ r, Sha1File.process (Sha1File.command self p).1 (line :: more) = Ok r
        ∧ ∀ d, r = Some d ↔ reports "SHA1" 40 (escape_unix_path p) line d)
  ∧ (∃ r, Sha256File.process (Sha256File.command self p).1 (line :: more)
          = Ok r
          ∧ ∀ d, r = Some d
                 ↔ reports "SHA256" 64 (escape_unix_path p) line d)
  ∧ (∃ r, Md5File.process (Md5File.command self p).1 (line :: more) = Ok r
          ∧ ∀ d, r = Some d
                 ↔ reports "SHA256" 32 (escape_unix_path p) line d).
Proof.
  intros Hp. pose proof (literal_no_space_start _ Hp) as Hstart.
  cbn [Sha1File.command Sha256File.command Md5File.command fst].
  split; [|split].
  - apply (checksum_returns _ _
             ("^([a-zA-Z0-9]{40})\s+" +:+ escape_unix_path p +:+ "$")
             ("^SHA1\s+\(" +:+ escape_unix_path p
              +:+ "\)\s+=\s+([a-zA-Z0-9]{40})$") "SHA1" 39
             (escape_unix_path p) (escape_unix_path p));
      [reflexivity | by apply compile_sha1_gnu | reflexivity
      | by apply compile_sha1_bsd | cbn; lia | done].
  - apply (checksum_returns _ _
             ("^([a-zA-Z0-9]{64})\s+" +:+ escape_unix_path p +:+ "$")
             ("^SHA256\s+\(" +:+ escape_unix_path p
              +:+ "\)\s+=\s+([a-zA-Z0-9]{64})$") "SHA256" 63
             (escape_unix_path p) (escape_unix_path p));
      [reflexivity | by apply compile_sha256_gnu | reflexivity
      | by apply compile_sha256_bsd | cbn; lia | done].
  - apply (checksum_returns _ _
             ("^([a-zA-Z0-9]{32})\s+" +:+ escape_unix_path p +:+ "$")
             ("^SHA256\s+\(" +:+ escape_unix_path p
              +:+ "\)\s+=\s+([a-zA-Z0-9]{32})$") "SHA256" 31
             (escape_unix_path p) (escape_unix_path p));
      [reflexivity | by apply compile_md5_gnu | reflexivity
      | by apply compile_md5_bsd | cbn; lia | done].
Qed.

Lemma checksum_returns_iff_witness :
  ∃ r, Sha1File.process
         (Sha1File.command (H := escape_spaces) (Self None) "/tmp/x").1
         ["da39a3ee5e6b4b0d3255bfef95601890afd80709 /tmp/x"]
       = Ok r
       ∧ ∀ d, r = Some d
              ↔ reports "SHA1" 40 "/tmp/x"
                  "da39a3ee5e6b4b0d3255bfef95601890afd80709 /tmp/x" d.
Proof.
  assert (Hx : Spec.literal (escape_spaces "/tmp/x"))
    by (vm_compute; reflexivity).
  exact (proj1 (checksum_returns_iff escape_spaces (Self None) "/tmp/x"
                  "da39a3ee5e6b4b0d3255bfef95601890afd80709 /tmp/x" [] Hx)).
Defined.

(** On empty output the checksum facts raise [IndexError], whatever the
    path: the first line is read before the pattern is compiled, so that
    neither [None] nor an error of the pattern comes first. *)
Theorem checksum_empty_output_raises (H : Connectors) (self : instance)
    (p : string) :
  Sha1File.process (Sha1File.command self p).1 [] = Raise IndexError
  ∧ Sha256File.process (Sha256File.command self p).1 [] = Raise IndexError
  ∧ Md5File.process (Md5File.command self p).1 [] = Raise IndexError.
Proof. repeat split. Qed.

(** ** A path with parentheses *)

Lemma lex_open s :
  match s with String "?" _ => False | _ => True end →
  Re.lex 0 (String "(" s) = Re.TOpen :: Re.lex 0 s.
Proof.
  destruct s as [|a s]; [done|].
  destruct a as [[] [] [] [] [] [] [] []]; done.
Qed.

Lemma lex_close s : Re.lex 0 (String ")" s) = Re.TClose :: Re.lex 0 s.
Proof. reflexivity. Qed.

Lemma literal_then_not_question n c rest :
  Spec.literal n → c ≠ "?"%char →
  match n +:+ String c rest with String "?" _ => False | _ => True end.
Proof.
  destruct n as [|a n].
  - intros _ Hc. change ("" +:+ String c rest) with (String c rest).
    destruct c as [[] [] [] [] [] [] [] []]; done.
  - intros [Ha _]%literal_cons _. rewrite string_app_cons.
    destruct a as [[] [] [] [] [] [] [] []]; done.
Qed.

(** An opening parenthesis among literal characters, before the end of
    the pattern, opens a group that nothing closes; a closing one closes a
    group that nothing opened. *)
Lemma compile_unbalanced pre n1 n2 paren its1 g1 :
  (∀ rest, Re.lex 0 (pre +:+ rest) = Re.lex 0 pre ++ Re.lex 0 rest) →
  Re.parse (Re.lex 0 pre) (Re.PState [] [] [] 1)
  = Ok (Re.PState its1 [] [] g1) →
  paren = "("%char ∨ paren = ")"%char →
  Spec.literal n1 → Spec.literal n2 →
  Re.compile (pre +:+ (n1 +:+ String paren n2) +:+ "$") = Raise ReError.
Proof.
  intros Hlex Hpre Hparen Hn1 Hn2. unfold Re.compile.
  rewrite Hlex, !string_app_assoc, lex_literal by done.
  rewrite string_app_cons.
  rewrite parse_app, Hpre. cbn [mbind result_bind].
  rewrite parse_app, parse_literal. cbn [mbind result_bind].
  destruct Hparen as [-> | ->].
  - rewrite lex_open, lex_literal
      by (done || by apply literal_then_not_question).
    cbn [app Re.parse Re.step mbind result_bind].
    rewrite parse_app, parse_literal. reflexivity.
  - rewrite lex_close. reflexivity.
Qed.

(** An error of the first pattern ends the loop. *)
Lemma checksum_compile_error gnu regexes pg n line more e :
  Py.percent gnu n = Ok pg →
  Re.compile pg = Raise e →
  Checksum.process (gnu :: regexes) (Self (Some n)) (line :: more) = Raise e.
Proof.
  intros Hpg Hcg.
  cbn [Checksum.process name of_option mbind result_bind].
  rewrite Hpg. cbn [mbind result_bind lookup list_lookup of_option].
  unfold Re.match_. by rewrite Hcg.
Qed.

(** A path whose escaped form holds one parenthesis, opening or closing,
    among literal characters makes the three checksum facts raise the error
    of [re] on any output that has a first line: the path is spliced into
    the pattern as it is, and leaves a group unbalanced. *)
Theorem unbalanced_parenthesis_raises (H : Connectors) (self : instance)
    (p n1 n2 : string) (paren : ascii) (line : string) (more : list string) :
  paren = "("%char ∨ paren = ")"%char →
  escape_unix_path p = n1 +:+ String paren n2 →
  Spec.literal n1 → Spec.literal n2 →
  Sha1File.process (Sha1File.command self p).1 (line :: more) = Raise ReError
  ∧ Sha256File.process (Sha256File.command self p).1 (line :: more)
    = Raise ReError
  ∧ Md5File.process (Md5File.command self p).1 (line :: more) = Raise ReError.
Proof.
  intros Hparen Hp Hn1 Hn2.
  cbn [Sha1File.command Sha256File.command Md5File.command fst].
  rewrite Hp. split; [|split].
  - apply (checksum_compile_error _ _
             ("^([a-zA-Z0-9]{40})\s+" +:+ (n1 +:+ String paren n2) +:+ "$"));
      [reflexivity|].
    by apply (compile_unbalanced _ n1 n2 paren
                [spaces; digest_group 40; Re.Bol] 2);
      [intros; reflexivity | vm_compute; reflexivity |..].
  - apply (checksum_compile_error _ _
             ("^([a-zA-Z0-9]{64})\s+" +:+ (n1 +:+ String paren n2) +:+ "$"));
      [reflexivity|].
    by apply (compile_unbalanced _ n1 n2 paren
                [spaces; digest_group 64; Re.Bol] 2);
      [intros; reflexivity | vm_compute; reflexivity |..].
  - apply (checksum_compile_error _ _
             ("^([a-zA-Z0-9]{32})\s+" +:+ (n1 +:+ String paren n2) +:+ "$"));
      [reflexivity|].
    by apply (compile_unbalanced _ n1 n2 paren
                [spaces; digest_group 32; Re.Bol] 2);
      [intros; reflexivity | vm_compute; reflexivity |..].
Qed.

Lemma unbalanced_parenthesis_raises_witness :
  Sha1File.process
    (Sha1File.command (H := escape_spaces) (Self None) "/tmp/a(1").1
    ["da39a3ee5e6b4b0d3255bfef95601890afd80709  /tmp/a(1"]
  = Raise ReError.
Proof.
  apply (unbalanced_parenthesis_raises escape_spaces (Self None) "/tmp/a(1"
           "/tmp/a" "1" "("); try (vm_compute; reflexivity).
  by left.
Defined.

(** *** A pair of parentheses *)

(** [compile_around_literal], for a path with a pair of parentheses:
    they make the group that comes next. *)
Lemma compile_around_group pre post n1 n2 n3 its1 its2 g1 g2 :
  (∀ rest, Re.lex 0 (pre +:+ rest) = Re.lex 0 pre ++ Re.lex 0 rest) →
  Re.parse (Re.lex 0 pre) (Re.PState [] [] [] 1)
  = Ok (Re.PState (rev its1) [] [] g1) →
  (∀ its, Re.parse (Re.lex 0 post) (Re.PState its [] [] (S g1))
          = Ok (Re.PState (rev its2 ++ its) [] [] g2)) →
  Spec.literal n1 → Spec.literal n2 → Spec.literal n3 →
  Re.compile (pre +:+ (n1 +:+ "(" +:+ n2 +:+ ")" +:+ n3) +:+ post)
  = Ok (Re.seq_of
          (rev (its1 ++ lits n1 ++ [Re.Group g1 (Re.seq_of (rev (lits n2)))]
                ++ lits n3 ++ its2)),
        g2 - 1).
Proof.
  intros Hlex Hpre Hpost Hn1 Hn2 Hn3. unfold Re.compile.
  rewrite Hlex, !string_app_assoc, lex_literal by done.
  change ("(" +:+ n2 +:+ ")" +:+ n3 +:+ post)
    with (String "(" (n2 +:+ String ")" (n3 +:+ post))).
  rewrite lex_open by (by apply literal_then_not_question).
  rewrite lex_literal, lex_close, lex_literal by done.
  rewrite parse_app, Hpre. cbn [mbind result_bind].
  rewrite parse_app, parse_literal. cbn [mbind result_bind].
  cbn [app Re.parse Re.step mbind result_bind
       Re.items Re.alts Re.stack Re.next_group].
  rewrite parse_app, parse_literal. cbn [mbind result_bind].
  cbn [app Re.parse Re.step mbind result_bind
       Re.items Re.alts Re.stack Re.next_group Re.alt_of foldl].
  rewrite parse_app, parse_literal. cbn [mbind result_bind].
  cbn [Re.items Re.alts Re.stack Re.next_group].
  rewrite Hpost. cbn [mbind result_bind Re.stack Re.items Re.alts
                      Re.next_group Re.alt_of foldl].
  unfold lits. rewrite app_nil_r, !rev_app_distr. cbn [rev].
  by rewrite !rev_app_distr, <- !app_assoc.
Qed.

Lemma opening_app a b : opening (a +:+ b) = opening a + opening b.
Proof.
  induction a as [|c a IH]; [done|].
  rewrite string_app_cons. cbn [opening]. rewrite IH. lia.
Qed.

Lemma opening_none test s :
  test "("%char = false →
  Spec.all_chars test s = true → opening s = 0.
Proof.
  intros Htest. induction s as [|c s IH]; [done|].
  cbn [Spec.all_chars opening]. intros [Hc Hs]%andb_true_iff.
  rewrite IH by done. rewrite bool_decide_eq_false_2; [done|].
  intros ->. congruence.
Qed.

Lemma opening_literal n : Spec.literal n → opening n = 0.
Proof. by apply opening_none. Qed.

Lemma opening_blank ws : blank ws → opening ws = 0.
Proof. intros [_ Hws]. by apply (opening_none Py.is_space). Qed.

Lemma opening_digest k d : Spec.digest k d → opening d = 0.
Proof.
  intros [_ Hd]. by apply (opening_none (λ c, Py.is_alpha c || Py.is_digit c)).
Qed.

Lemma opening_line_end e : line_end e → opening e = 0.
Proof. by intros [-> | ->]. Qed.

Lemma matches_group_elem g r st st' :
  st' ∈ Re.matches (Re.Group g r) st →
  ∃ st1, st1 ∈ Re.matches r st ∧ st' = Re.capture g st st1.
Proof.
  cbn [Re.matches]. intros (st1 & -> & Hst1)%list_elem_of_fmap. by exists st1.
Qed.

(** What a group of literal characters consumes. *)
Lemma matches_group_literals_elem g n st st' :
  st' ∈ Re.matches (Re.Group g (Re.seq_of (rev (lits n)))) st →
  Re.rest st = n +:+ Re.rest st'.
Proof.
  intros (st1 & Hst1 & ->)%matches_group_elem.
  rewrite matches_seq_of, rev_involutive in Hst1.
  by apply matches_literals_elem in Hst1 as [-> _].
Qed.

(** What a group of [k] letters or digits consumes, whatever its number. *)
Lemma matches_group_digest_elem g k st st' :
  st' ∈ Re.matches
          (Re.Group g
             (Re.seq_of [Re.Repeat k (Some k) (Re.CharSet false alnum)])) st →
  ∃ d, Spec.digest k d ∧ Re.rest st = d +:+ Re.rest st'.
Proof.
  intros (st1 & Hst1 & ->)%matches_group_elem.
  assert (Re.capture 1 st st1 ∈ Re.matches (digest_group k) st) as Hin.
  { unfold digest_group. cbn [Re.matches].
    apply list_elem_of_fmap. by exists st1. }
  apply matches_digest_group_elem in Hin as (d & Hd & Hrest & _).
  by exists d.
Qed.

(** A line the first pattern matches holds no opening parenthesis. *)
Lemma gnu_group_sound k n1 n2 n3 line st :
  Spec.literal n1 → Spec.literal n2 → Spec.literal n3 →
  st ∈ Re.matches_all (gnu_items_group k n1 n2 n3) (Re.MState 0 line ∅) →
  opening line = 0.
Proof.
  intros Hn1 Hn2 Hn3. unfold gnu_items_group. cbn [app].
  intros (st0 & H0 & Hst)%matches_all_cons_elem.
  cbn [Re.matches Re.pos Nat.eqb] in H0.
  apply list_elem_of_singleton in H0 as ->.
  apply matches_all_cons_elem in Hst as (st1 & H1 & Hst).
  apply matches_digest_group_elem in H1 as (d & Hd & Hr1 & _).
  apply matches_all_cons_elem in Hst as (st2 & H2 & Hst).
  apply matches_spaces_elem in H2 as (ws & Hws & Hr2 & _).
  apply matches_all_app_elem in Hst as (st3 & H3 & Hst).
  apply matches_literals_elem in H3 as (Hr3 & _).
  cbn [app] in Hst.
  apply matches_all_cons_elem in Hst as (st4 & H4 & Hst).
  apply matches_group_literals_elem in H4 as Hr4.
  apply matches_all_app_elem in Hst as (st5 & H5 & Hst).
  apply matches_literals_elem in H5 as (Hr5 & _).
  rewrite matches_all_singleton in Hst.
  apply matches_eol_elem in Hst as (-> & He).
  cbn [Re.rest] in Hr1. rewrite Hr1, Hr2, Hr3, Hr4, Hr5, !opening_app.
  by rewrite (opening_digest _ _ Hd), (opening_blank _ Hws),
    (opening_literal n1), (opening_literal n2), (opening_literal n3),
    (opening_line_end _ He).
Qed.

(** A line the second pattern matches holds one opening parenthesis after
    the name of the algorithm. *)
Lemma bsd_group_sound algo k n1 n2 n3 line st :
  Spec.literal n1 → Spec.literal n2 → Spec.literal n3 →
  st ∈ Re.matches_all (bsd_items_group algo k n1 n2 n3) (Re.MState 0 line ∅) →
  opening line = opening algo + 1.
Proof.
  intros Hn1 Hn2 Hn3. unfold bsd_items_group. rewrite <- app_comm_cons.
  intros (st0 & H0 & Hst)%matches_all_cons_elem.
  cbn [Re.matches Re.pos Nat.eqb] in H0.
  apply list_elem_of_singleton in H0 as ->.
  apply matches_all_app_elem in Hst as (st1 & H1 & Hst).
  apply matches_literals_elem in H1 as (Hr1 & _).
  cbn [app] in Hst.
  apply matches_all_cons_elem in Hst as (st2 & H2 & Hst).
  apply matches_spaces_elem in H2 as (ws1 & Hws1 & Hr2 & _).
  apply matches_all_cons_elem in Hst as (st3 & H3 & Hst).
  apply matches_lit_elem in H3 as (Hr3 & _).
  apply matches_all_app_elem in Hst as (st4 & H4 & Hst).
  apply matches_literals_elem in H4 as (Hr4 & _).
  cbn [app] in Hst.
  apply matches_all_cons_elem in Hst as (st5 & H5 & Hst).
  apply matches_group_literals_elem in H5 as Hr5.
  apply matches_all_app_elem in Hst as (st6 & H6 & Hst).
  apply matches_literals_elem in H6 as (Hr6 & _).
  apply matches_all_cons_elem in Hst as (st7 & H7 & Hst).
  apply matches_lit_elem in H7 as (Hr7 & _).
  apply matches_all_cons_elem in Hst as (st8 & H8 & Hst).
  apply matches_spaces_elem in H8 as (ws2 & Hws2 & Hr8 & _).
  apply matches_all_cons_elem in Hst as (st9 & H9 & Hst).
  apply matches_lit_elem in H9 as (Hr9 & _).
  apply matches_all_cons_elem in Hst as (st10 & H10 & Hst).
  apply matches_spaces_elem in H10 as (ws3 & Hws3 & Hr10 & _).
  apply matches_all_cons_elem in Hst as (st11 & H11 & Hst).
  apply matches_group_digest_elem in H11 as (d & Hd & Hr11).
  rewrite matches_all_singleton in Hst.
  apply matches_eol_elem in Hst as (-> & He).
  cbn [Re.rest] in Hr1.
  rewrite Hr1, Hr2, Hr3, Hr4, Hr5, Hr6, Hr7, Hr8, Hr9, Hr10, Hr11.
  rewrite !opening_app. cbn [opening].
  rewrite !opening_app. cbn [opening].
  rewrite !opening_app. cbn [opening].
  rewrite !opening_app.
  rewrite (opening_digest _ _ Hd), (opening_blank _ Hws1),
    (opening_blank _ Hws2), (opening_blank _ Hws3), (opening_literal n1),
    (opening_literal n2), (opening_literal n3), (opening_line_end _ He)
    by done.
  rewrite bool_decide_eq_true_2 by done.
  rewrite !bool_decide_eq_false_2 by done. lia.
Qed.

(** The second pattern does not match a line that starts with a digest
    longer than the name it spells. *)
Lemma bsd_group_rejects_digest algo k n1 n2 n3 d rest :
  Spec.digest k d → String.length algo < k →
  Re.matches_all (bsd_items_group algo k n1 n2 n3)
    (Re.MState 0 (d +:+ rest) ∅) = [].
Proof.
  intros Hd Hk. unfold bsd_items_group.
  rewrite matches_all_app. cbn [Re.matches_all].
  change (Re.matches Re.Bol (Re.MState 0 (d +:+ rest) ∅))
    with [Re.MState 0 (d +:+ rest) ∅].
  rewrite bind_singleton, matches_all_literals.
  destruct (Py.has_prefix algo (d +:+ rest)); [|done].
  rewrite bind_singleton.
  destruct (digest_char k d rest (String.length algo) Hd Hk)
    as (a & s & -> & Ha).
  cbn [app Re.matches_all]. by rewrite matches_spaces_none.
Qed.

Lemma no_match {A} (l : list A) : (∀ x, x ∈ l → False) → l = [].
Proof. destruct l as [|x l]; [done|]. intros Hl. destruct (Hl x). by left. Qed.

(** The loop on a line that reports a digest against the path with its
    parentheses: neither pattern matches. *)
Lemma checksum_group_unrecognised gnu bsd pg pb algo k name n1 n2 n3 line d more :
  Py.percent gnu name = Ok pg →
  Re.compile pg = Ok (Re.seq_of (rev (gnu_items_group k n1 n2 n3)), 2) →
  Py.percent bsd name = Ok pb →
  Re.compile pb = Ok (Re.seq_of (rev (bsd_items_group algo k n1 n2 n3)), 2) →
  String.length algo < k → opening algo = 0 →
  Spec.literal n1 → Spec.literal n2 → Spec.literal n3 →
  reports algo k (n1 +:+ "(" +:+ n2 +:+ ")" +:+ n3) line d →
  Checksum.process [gnu; bsd] (Self (Some name)) (line :: more) = Ok None.
Proof.
  intros Hpg Hcg Hpb Hcb Hk Halgo Hn1 Hn2 Hn3 [Hd Hline].
  rewrite (checksum_process_cons _ _ _ _ _ _ _ _ Hpg Hcg).
  rewrite matches_seq_of, rev_involutive.
  rewrite (checksum_process_cons _ _ _ _ _ _ _ _ Hpb Hcb).
  rewrite matches_seq_of, rev_involutive.
  destruct Hline as [(ws & e & Hws & He & ->)
                    |(ws1 & ws2 & ws3 & e & Hws1 & Hws2 & Hws3 & He & ->)].
  - rewrite (no_match (Re.matches_all (gnu_items_group _ _ _ _) _)).
    2:{ intros st Hst%gnu_group_sound; [|done..].
        rewrite !opening_app in Hst.
        change (opening "(") with 1 in Hst. lia. }
    cbn [head]. by rewrite bsd_group_rejects_digest.
  - rewrite (no_match (Re.matches_all (gnu_items_group _ _ _ _) _)).
    2:{ intros st Hst%gnu_group_sound; [|done..].
        rewrite !opening_app in Hst.
        change (opening "(") with 1 in Hst. lia. }
    cbn [head].
    rewrite (no_match (Re.matches_all (bsd_items_group _ _ _ _ _) _)); [done|].
    intros st Hst%bsd_group_sound; [|done..].
    rewrite !opening_app in Hst.
    rewrite (opening_blank _ Hws1), (opening_blank _ Hws2),
      (opening_blank _ Hws3), (opening_literal n1), (opening_literal n2),
      (opening_literal n3), (opening_digest _ _ Hd), (opening_line_end _ He)
      in Hst by done.
    change (opening "(") with 1 in Hst. lia.
Qed.

(** A path whose escaped form holds a pair of parentheses among literal
    characters is never recognised: on a line that reports a digest against
    that very path, in either style, the three checksum facts return
    [None].  The parentheses make a group of the pattern, which matches
    the path without them. *)
Theorem parenthesised_path_unrecognised (H : Connectors) (self : instance)
    (p n1 n2 n3 line d : string) (more : list string) :
  escape_unix_path p = n1 +:+ "(" +:+ n2 +:+ ")" +:+ n3 →
  Spec.literal n1 → Spec.literal n2 → Spec.literal n3 →
  (reports "SHA1" 40 (escape_unix_path p) line d →
   Sha1File.process (Sha1File.command self p).1 (line :: more) = Ok None)
  ∧ (reports "SHA256" 64 (escape_unix_path p) line d →
     Sha256File.process (Sha256File.command self p).1 (line :: more)
     = Ok None)
  ∧ (reports "SHA256" 32 (escape_unix_path p) line d →
     Md5File.process (Md5File.command self p).1 (line :: more) = Ok None).
Proof.
  intros Hp Hn1 Hn2 Hn3.
  cbn [Sha1File.command Sha256File.command Md5File.command fst].
  rewrite Hp. split; [|split]; intros Hline.
  - apply (checksum_group_unrecognised _ _
             ("^([a-zA-Z0-9]{40})\s+"
              +:+ (n1 +:+ "(" +:+ n2 +:+ ")" +:+ n3) +:+ "$")
             ("^SHA1\s+\(" +:+ (n1 +:+ "(" +:+ n2 +:+ ")" +:+ n3)
              +:+ "\)\s+=\s+([a-zA-Z0-9]{40})$")
             "SHA1" 40 _ n1 n2 n3 line d);
      [reflexivity | | reflexivity | | cbn; lia | reflexivity | done..].
    + by apply (compile_around_group _ _ n1 n2 n3
                  [Re.Bol; digest_group 40; spaces] [Re.Eol] 2 3);
        [intros; reflexivity | vm_compute; reflexivity | intros; reflexivity
        |..].
    + by apply (compile_around_group _ _ n1 n2 n3
                  ((Re.Bol :: lits "SHA1") ++ [spaces; Re.Lit "("])
                  [Re.Lit ")"; spaces; Re.Lit "="; spaces;
                   Re.Group 2
                     (Re.seq_of
                        [Re.Repeat 40 (Some 40) (Re.CharSet false alnum)]);
                   Re.Eol] 1 3);
        [intros; reflexivity | vm_compute; reflexivity | intros; reflexivity
        |..].
  - apply (checksum_group_unrecognised _ _
             ("^([a-zA-Z0-9]{64})\s+"
              +:+ (n1 +:+ "(" +:+ n2 +:+ ")" +:+ n3) +:+ "$")
             ("^SHA256\s+\(" +:+ (n1 +:+ "(" +:+ n2 +:+ ")" +:+ n3)
              +:+ "\)\s+=\s+([a-zA-Z0-9]{64})$")
             "SHA256" 64 _ n1 n2 n3 line d);
      [reflexivity | | reflexivity | | cbn; lia | reflexivity | done..].
    + by apply (compile_around_group _ _ n1 n2 n3
                  [Re.Bol; digest_group 64; spaces] [Re.Eol] 2 3);
        [intros; reflexivity | vm_compute; reflexivity | intros; reflexivity
        |..].
    + by apply (compile_around_group _ _ n1 n2 n3
                  ((Re.Bol :: lits "SHA256") ++ [spaces; Re.Lit "("])
                  [Re.Lit ")"; spaces; Re.Lit "="; spaces;
                   Re.Group 2
                     (Re.seq_of
                        [Re.Repeat 64 (Some 64) (Re.CharSet false alnum)]);
                   Re.Eol] 1 3);
        [intros; reflexivity | vm_compute; reflexivity | intros; reflexivity
        |..].
  - apply (checksum_group_unrecognised _ _
             ("^([a-zA-Z0-9]{32})\s+"
              +:+ (n1 +:+ "(" +:+ n2 +:+ ")" +:+ n3) +:+ "$")
             ("^SHA256\s+\(" +:+ (n1 +:+ "(" +:+ n2 +:+ ")" +:+ n3)
              +:+ "\)\s+=\s+([a-zA-Z0-9]{32})$")
             "SHA256" 32 _ n1 n2 n3 line d);
      [reflexivity | | reflexivity | | cbn; lia | reflexivity | done..].
    + by apply (compile_around_group _ _ n1 n2 n3
                  [Re.Bol; digest_group 32; spaces] [Re.Eol] 2 3);
        [intros; reflexivity | vm_compute; reflexivity | intros; reflexivity
        |..].
    + by apply (compile_around_group _ _ n1 n2 n3
                  ((Re.Bol :: lits "SHA256") ++ [spaces; Re.Lit "("])
                  [Re.Lit ")"; spaces; Re.Lit "="; spaces;
                   Re.Group 2
                     (Re.seq_of
                        [Re.Repeat 32 (Some 32) (Re.CharSet false alnum)]);
                   Re.Eol] 1 3);
        [intros; reflexivity | vm_compute; reflexivity | intros; reflexivity
        |..].
Qed.

Lemma parenthesised_path_unrecognised_witness :
  Sha1File.process
    (Sha1File.command (H := escape_spaces) (Self None) "/tmp/a(1)").1
    ["da39a3ee5e6b4b0d3255bfef95601890afd80709  /tmp/a(1)"]
  = Ok None.
Proof.
  apply (proj1 (parenthesised_path_unrecognised escape_spaces (Self None)
                  "/tmp/a(1)" "/tmp/a" "1" ""
                  "da39a3ee5e6b4b0d3255bfef95601890afd80709  /tmp/a(1)"
                  "da39a3ee5e6b4b0d3255bfef95601890afd80709" []
                  eq_refl eq_refl eq_refl eq_refl)).
  split; [split; vm_compute; reflexivity|]. left.
  exists "  ", "". split; [by split|]. split; [by left|reflexivity].
Defined.

(** *** The line of the path without its parentheses *)

Lemma matches_group_literals g n p r c :
  Re.matches (Re.Group g (Re.seq_of (rev (lits n)))) (Re.MState p (n +:+ r) c)
  = [Re.MState (p + String.length n) r (<[g := n]> c)].
Proof.
  cbn [Re.matches]. rewrite matches_seq_of, rev_involutive.
  rewrite matches_all_literals, has_prefix_refl, str_drop_app.
  cbn [fmap list_fmap]. unfold Re.capture. cbn [Re.pos Re.rest Re.caps].
  replace (p + String.length n - p) with (String.length n) by lia.
  by rewrite str_take_app.
Qed.

Lemma matches_group_digest g k d r p c :
  Spec.digest k d →
  Re.matches
    (Re.Group g (Re.seq_of [Re.Repeat k (Some k) (Re.CharSet false alnum)]))
    (Re.MState p (d +:+ r) c)
  = [Re.MState (p + k) r (<[g := d]> c)].
Proof.
  intros [Hlen Hd]. cbn [Re.matches]. rewrite matches_seq_of. cbn [rev app].
  rewrite matches_all_singleton. cbn [Re.matches Re.rest].
  change (Re.matches (Re.CharSet false alnum))
    with (Re.one (Re.in_set false alnum)).
  rewrite iterate_run by (rewrite ?string_length_app; lia).
  rewrite Nat.sub_0_r. subst k.
  rewrite run_of_app by (by rewrite (all_chars_ext _ _ _ in_alnum)).
  cbn [fmap list_fmap]. unfold Re.capture. cbn [Re.pos Re.rest Re.caps].
  replace (p + String.length d - p) with (String.length d) by lia.
  by rewrite str_take_app.
Qed.

Lemma matches_group_digest_self g k d p c :
  Spec.digest k d →
  Re.matches
    (Re.Group g (Re.seq_of [Re.Repeat k (Some k) (Re.CharSet false alnum)]))
    (Re.MState p d c)
  = [Re.MState (p + k) "" (<[g := d]> c)].
Proof.
  intros Hd. pose proof (matches_group_digest g k d "" p c Hd) as Hm.
  by rewrite string_app_empty in Hm.
Qed.

(** The first pattern does not match a line that starts with the name of
    an algorithm and a space. *)
Lemma gnu_group_rejects_bsd_line algo k n1 n2 n3 rest :
  String.length algo < k →
  Re.matches_all (gnu_items_group k n1 n2 n3)
    (Re.MState 0 (algo +:+ " (" +:+ rest) ∅) = [].
Proof.
  intros Hk. unfold gnu_items_group. cbn [app Re.matches_all].
  change (Re.matches Re.Bol (Re.MState 0 ?s ∅)) with [Re.MState 0 s ∅].
  rewrite bind_singleton, matches_digest_group.
  change (" (" +:+ rest) with (String " " (String "(" rest)).
  by rewrite run_of_stops.
Qed.

(** The second pattern on the line of the path without its parentheses:
    the first group is the text between them. *)
Lemma bsd_group_matches algo k n1 n2 n3 d :
  Spec.digest (S k) d →
  ∃ p, Re.matches_all (bsd_items_group algo (S k) n1 n2 n3)
         (Re.MState 0 (algo +:+ " (" +:+ n1 +:+ n2 +:+ n3 +:+ ") = " +:+ d) ∅)
       = [Re.MState p "" (<[2 := d]> {[1 := n2]})].
Proof.
  intros Hd. unfold bsd_items_group.
  rewrite matches_all_app. cbn [Re.matches_all].
  change (Re.matches Re.Bol (Re.MState 0 ?s ∅)) with [Re.MState 0 s ∅].
  rewrite bind_singleton, matches_all_literals, has_prefix_refl, str_drop_app.
  rewrite bind_singleton, matches_all_app.
  change (" (" +:+ ?s) with (String " " (String "(" s)).
  cbn [Re.matches_all].
  rewrite matches_one_space by reflexivity.
  rewrite bind_singleton, matches_lit_cons, !bind_singleton.
  rewrite matches_all_app, matches_all_literals, has_prefix_refl, str_drop_app.
  rewrite bind_singleton. cbn [app Re.matches_all].
  rewrite matches_group_literals, bind_singleton.
  rewrite matches_all_app, matches_all_literals, has_prefix_refl, str_drop_app.
  rewrite bind_singleton.
  pose proof (digest_nonempty _ _ Hd) as Hstart.
  change (") = " +:+ d) with (String ")" (String " " (String "=" (String " " d)))).
  cbn [Re.matches_all].
  rewrite matches_lit_cons, bind_singleton.
  rewrite matches_one_space by reflexivity.
  rewrite bind_singleton, matches_lit_cons, bind_singleton.
  rewrite matches_one_space by done.
  rewrite bind_singleton.
  rewrite matches_group_digest_self by done.
  rewrite bind_singleton. cbn [Re.matches Re.rest Re.at_end mbind list_bind app].
  by eexists.
Qed.

(** The loop on the line of the path without its parentheses. *)
Lemma checksum_group_bsd_line gnu bsd pg pb algo k name n1 n2 n3 d more :
  Py.percent gnu name = Ok pg →
  Re.compile pg = Ok (Re.seq_of (rev (gnu_items_group (S k) n1 n2 n3)), 2) →
  Py.percent bsd name = Ok pb →
  Re.compile pb
  = Ok (Re.seq_of (rev (bsd_items_group algo (S k) n1 n2 n3)), 2) →
  String.length algo < S k →
  Spec.digest (S k) d →
  Checksum.process [gnu; bsd] (Self (Some name))
    ((algo +:+ " (" +:+ n1 +:+ n2 +:+ n3 +:+ ") = " +:+ d) :: more)
  = Ok (Some n2).
Proof.
  intros Hpg Hcg Hpb Hcb Hk Hd.
  rewrite (checksum_process_cons _ _ _ _ _ _ _ _ Hpg Hcg).
  rewrite matches_seq_of, rev_involutive, gnu_group_rejects_bsd_line by done.
  cbn [head]. rewrite (checksum_process_cons _ _ _ _ _ _ _ _ Hpb Hcb).
  rewrite matches_seq_of, rev_involutive.
  destruct (bsd_group_matches algo k n1 n2 n3 d Hd) as [p ->].
  cbn [head Re.caps]. unfold Re.group. cbn [fst snd Nat.leb].
  by rewrite lookup_insert_ne, lookup_singleton_eq.
Qed.

(** With a pair of parentheses in the escaped path, the checksum facts can
    return a text that is no digest: on the line the BSD tools print for
    the path without its parentheses, [Sha1File] and [Sha256File] return
    what stands between the parentheses, the first group of the pattern. *)
Theorem parenthesised_path_returns_its_group (H : Connectors)
    (self : instance) (p n1 n2 n3 : string) (more : list string) :
  escape_unix_path p = n1 +:+ "(" +:+ n2 +:+ ")" +:+ n3 →
  Spec.literal n1 → Spec.literal n2 → Spec.literal n3 →
  (∀ d, Spec.digest 40 d →
        Sha1File.process (Sha1File.command self p).1
          (("SHA1 (" +:+ n1 +:+ n2 +:+ n3 +:+ ") = " +:+ d) :: more)
        = Ok (Some n2))
  ∧ (∀ d, Spec.digest 64 d →
          Sha256File.process (Sha256File.command self p).1
            (("SHA256 (" +:+ n1 +:+ n2 +:+ n3 +:+ ") = " +:+ d) :: more)
          = Ok (Some n2)).
Proof.
  intros Hp Hn1 Hn2 Hn3.
  cbn [Sha1File.command Sha256File.command fst].
  rewrite Hp. split; intros d Hd.
  - apply (checksum_group_bsd_line _ _
             ("^([a-zA-Z0-9]{40})\s+"
              +:+ (n1 +:+ "(" +:+ n2 +:+ ")" +:+ n3) +:+ "$")
             ("^SHA1\s+\(" +:+ (n1 +:+ "(" +:+ n2 +:+ ")" +:+ n3)
              +:+ "\)\s+=\s+([a-zA-Z0-9]{40})$")
             "SHA1" 39 _ n1 n2 n3 d);
      [reflexivity | | reflexivity | | cbn; lia | done].
    + by apply (compile_around_group _ _ n1 n2 n3
                  [Re.Bol; digest_group 40; spaces] [Re.Eol] 2 3);
        [intros; reflexivity | vm_compute; reflexivity | intros; reflexivity
        |..].
    + by apply (compile_around_group _ _ n1 n2 n3
                  ((Re.Bol :: lits "SHA1") ++ [spaces; Re.Lit "("])
                  [Re.Lit ")"; spaces; Re.Lit "="; spaces;
                   Re.Group 2
                     (Re.seq_of
                        [Re.Repeat 40 (Some 40) (Re.CharSet false alnum)]);
                   Re.Eol] 1 3);
        [intros; reflexivity | vm_compute; reflexivity | intros; reflexivity
        |..].
  - apply (checksum_group_bsd_line _ _
             ("^([a-zA-Z0-9]{64})\s+"
              +:+ (n1 +:+ "(" +:+ n2 +:+ ")" +:+ n3) +:+ "$")
             ("^SHA256\s+\(" +:+ (n1 +:+ "(" +:+ n2 +:+ ")" +:+ n3)
              +:+ "\)\s+=\s+([a-zA-Z0-9]{64})$")
             "SHA256" 63 _ n1 n2 n3 d);
      [reflexivity | | reflexivity | | cbn; lia | done].
    + by apply (compile_around_group _ _ n1 n2 n3
                  [Re.Bol; digest_group 64; spaces] [Re.Eol] 2 3);
        [intros; reflexivity | vm_compute; reflexivity | intros; reflexivity
        |..].
    + by apply (compile_around_group _ _ n1 n2 n3
                  ((Re.Bol :: lits "SHA256") ++ [spaces; Re.Lit "("])
                  [Re.Lit ")"; spaces; Re.Lit "="; spaces;
                   Re.Group 2
                     (Re.seq_of
                        [Re.Repeat 64 (Some 64) (Re.CharSet false alnum)]);
                   Re.Eol] 1 3);
        [intros; reflexivity | vm_compute; reflexivity | intros; reflexivity
        |..].
Qed.

Lemma parenthesised_path_returns_its_group_witness :
  Sha1File.process
    (Sha1File.command (H := escape_spaces) (Self None) "/tmp/a(1)").1
    ["SHA1 (/tmp/a1) = da39a3ee5e6b4b0d3255bfef95601890afd80709"]
  = Ok (Some "1").
Proof.
  assert (Hd : Spec.digest 40 "da39a3ee5e6b4b0d3255bfef95601890afd80709")
    by (split; vm_compute; reflexivity).
  exact (proj1 (parenthesised_path_returns_its_group escape_spaces (Self None)
                  "/tmp/a(1)" "/tmp/a" "1" "" []
                  eq_refl eq_refl eq_refl eq_refl) _ Hd).
Defined.

(** ** Paths with spaces *)

(** A backslash and a space are the token of a space. *)
Lemma lex_backslashed q rest :
  Spec.all_chars (λ c, Spec.literal_char c || bool_decide (c = " "%char)) q
  = true →
  Re.lex 0 (backslashed q +:+ rest)
  = (Re.TLit <$> list_ascii_of_string q) ++ Re.lex 0 rest.
Proof.
  induction q as [|c q IH]; [done|]. cbn [Spec.all_chars].
  intros [Hc Hq]%andb_true_iff. cbv beta in Hc. cbn [backslashed].
  cbn [list_ascii_of_string fmap list_fmap app]. rewrite <- IH by done.
  case_bool_decide as Hsp.
  - subst c. by rewrite !string_app_cons.
  - rewrite string_app_cons. apply lex_literal_char.
    rewrite ?(bool_decide_eq_false_2 _ Hsp) in Hc.
    by rewrite orb_false_r in Hc.
Qed.

(** [compile_around_literal], for a path with escaped spaces. *)
Lemma compile_around_backslashed pre post q its1 its2 g1 g2 :
  (∀ rest, Re.lex 0 (pre +:+ rest) = Re.lex 0 pre ++ Re.lex 0 rest) →
  Re.parse (Re.lex 0 pre) (Re.PState [] [] [] 1)
  = Ok (Re.PState (rev its1) [] [] g1) →
  (∀ its, Re.parse (Re.lex 0 post) (Re.PState its [] [] g1)
          = Ok (Re.PState (rev its2 ++ its) [] [] g2)) →
  Spec.all_chars (λ c, Spec.literal_char c || bool_decide (c = " "%char)) q
  = true →
  Re.compile (pre +:+ backslashed q +:+ post)
  = Ok (Re.seq_of (rev (its1 ++ lits q ++ its2)), g2 - 1).
Proof.
  intros Hlex Hpre Hpost Hq. unfold Re.compile.
  rewrite Hlex, lex_backslashed, !parse_app, Hpre by done.
  cbn [mbind result_bind]. rewrite parse_app, parse_literal.
  cbn [mbind result_bind Re.items Re.alts Re.stack Re.next_group].
  rewrite Hpost. cbn [mbind result_bind Re.stack Re.items Re.alts Re.next_group
                      Re.alt_of foldl].
  unfold lits. by rewrite !rev_app_distr, <- !app_assoc.
Qed.

(** For a path of literal characters and spaces whose escaped form has a
    backslash before each space, the checksum facts read the lines that
    name the path as it is, without the backslashes: in the pattern a
    backslash and a space stand for a space.  They never raise on output
    that has a first line, and return a digest exactly when that line
    reports it against the path, in the GNU style or in the BSD style with
    the name the second pattern spells. *)
Theorem checksum_path_with_spaces (H : Connectors) (self : instance)
    (p q line : string) (more : list string) :
  escape_unix_path p = backslashed q →
  spaced_path q →
  (∃ r, Sha1File.process (Sha1File.command self p).1 (line :: more) = Ok r
        ∧ ∀ d, r = Some d ↔ reports "SHA1" 40 q line d)
  ∧ (∃ r, Sha256File.process (Sha256File.command self p).1 (line :: more)
          = Ok r
          ∧ ∀ d, r = Some d ↔ reports "SHA256" 64 q line d)
  ∧ (∃ r, Md5File.process (Md5File.command self p).1 (line :: more) = Ok r
          ∧ ∀ d, r = Some d ↔ reports "SHA256" 32 q line d).
Proof.
  intros Hp [Hq Hstart].
  cbn [Sha1File.command Sha256File.command Md5File.command fst].
  rewrite Hp. split; [|split].
  - apply (checksum_returns _ _
             ("^([a-zA-Z0-9]{40})\s+" +:+ backslashed q +:+ "$")
             ("^SHA1\s+\(" +:+ backslashed q
              +:+ "\)\s+=\s+([a-zA-Z0-9]{40})$") "SHA1" 39
             (backslashed q) q);
      [reflexivity | | reflexivity | | cbn; lia | done].
    + by apply (compile_around_backslashed _ _ q
                  [Re.Bol; digest_group 40; spaces] [Re.Eol] 2 2);
        [intros; reflexivity | vm_compute; reflexivity | intros; reflexivity|].
    + by apply (compile_around_backslashed _ _ q
                  ((Re.Bol :: lits "SHA1") ++ [spaces; Re.Lit "("])
                  [Re.Lit ")"; spaces; Re.Lit "="; spaces; digest_group 40;
                   Re.Eol] 1 2);
        [intros; reflexivity | vm_compute; reflexivity | intros; reflexivity|].
  - apply (checksum_returns _ _
             ("^([a-zA-Z0-9]{64})\s+" +:+ backslashed q +:+ "$")
             ("^SHA256\s+\(" +:+ backslashed q
              +:+ "\)\s+=\s+([a-zA-Z0-9]{64})$") "SHA256" 63
             (backslashed q) q);
      [reflexivity | | reflexivity | | cbn; lia | done].
    + by apply (compile_around_backslashed _ _ q
                  [Re.Bol; digest_group 64; spaces] [Re.Eol] 2 2);
        [intros; reflexivity | vm_compute; reflexivity | intros; reflexivity|].
    + by apply (compile_around_backslashed _ _ q
                  ((Re.Bol :: lits "SHA256") ++ [spaces; Re.Lit "("])
                  [Re.Lit ")"; spaces; Re.Lit "="; spaces; digest_group 64;
                   Re.Eol] 1 2);
        [intros; reflexivity | vm_compute; reflexivity | intros; reflexivity|].
  - apply (checksum_returns _ _
             ("^([a-zA-Z0-9]{32})\s+" +:+ backslashed q +:+ "$")
             ("^SHA256\s+\(" +:+ backslashed q
              +:+ "\)\s+=\s+([a-zA-Z0-9]{32})$") "SHA256" 31
             (backslashed q) q);
      [reflexivity | | reflexivity | | cbn; lia | done].
    + by apply (compile_around_backslashed _ _ q
                  [Re.Bol; digest_group 32; spaces] [Re.Eol] 2 2);
        [intros; reflexivity | vm_compute; reflexivity | intros; reflexivity|].
    + by apply (compile_around_backslashed _ _ q
                  ((Re.Bol :: lits "SHA256") ++ [spaces; Re.Lit "("])
                  [Re.Lit ")"; spaces; Re.Lit "="; spaces; digest_group 32;
                   Re.Eol] 1 2);
        [intros; reflexivity | vm_compute; reflexivity | intros; reflexivity|].
Qed.

Lemma checksum_path_with_spaces_witness :
  ∃ r, Sha1File.process
         (Sha1File.command (H := escape_spaces) (Self None) "/tmp/a b").1
         ["da39a3ee5e6b4b0d3255bfef95601890afd80709  /tmp/a b"]
       = Ok r
       ∧ ∀ d, r = Some d
              ↔ reports "SHA1" 40 "/tmp/a b"
                  "da39a3ee5e6b4b0d3255bfef95601890afd80709  /tmp/a b" d.
Proof.
  assert (Hq : spaced_path "/tmp/a b") by (split; vm_compute; reflexivity).
  exact (proj1 (checksum_path_with_spaces escape_spaces (Self None)
                  "/tmp/a b" "/tmp/a b"
                  "da39a3ee5e6b4b0d3255bfef95601890afd80709  /tmp/a b" []
                  eq_refl Hq)).
Defined.

(** ** Paths with dots *)

(** A dot is the token of the dot. *)
Lemma lex_dotted n rest :
  Spec.all_chars (λ c, Spec.literal_char c || bool_decide (c = "."%char)) n
  = true →
  Re.lex 0 (n +:+ rest)
  = (dotted_token <$> list_ascii_of_string n) ++ Re.lex 0 rest.
Proof.
  induction n as [|c n IH]; [done|]. cbn [Spec.all_chars].
  intros [Hc Hn]%andb_true_iff. cbv beta in Hc.
  cbn [list_ascii_of_string fmap list_fmap app]. rewrite <- IH by done.
  rewrite string_app_cons. unfold dotted_token.
  case_bool_decide as Hdot.
  - by subst c.
  - apply lex_literal_char. by rewrite orb_false_r in Hc.
Qed.

Lemma parse_dotted l st :
  Re.parse (dotted_token <$> l) st
  = Ok (Re.PState (rev (dotted_item <$> l) ++ Re.items st) (Re.alts st)
          (Re.stack st) (Re.next_group st)).
Proof.
  revert st. induction l as [|c l IH]; intros st.
  - by destruct st.
  - cbn [fmap list_fmap Re.parse rev].
    assert (Re.step (dotted_token c) st = Ok (Re.push (dotted_item c) st))
      as -> by (unfold dotted_token, dotted_item; by case_bool_decide).
    cbn [mbind result_bind]. rewrite IH. unfold Re.push.
    cbn [Re.items Re.alts Re.stack Re.next_group].
    by rewrite <- app_assoc.
Qed.

(** [compile_around_literal], for a path with dots. *)
Lemma compile_around_dotted pre post n its1 its2 g1 g2 :
  (∀ rest, Re.lex 0 (pre +:+ rest) = Re.lex 0 pre ++ Re.lex 0 rest) →
  Re.parse (Re.lex 0 pre) (Re.PState [] [] [] 1)
  = Ok (Re.PState (rev its1) [] [] g1) →
  (∀ its, Re.parse (Re.lex 0 post) (Re.PState its [] [] g1)
          = Ok (Re.PState (rev its2 ++ its) [] [] g2)) →
  Spec.all_chars (λ c, Spec.literal_char c || bool_decide (c = "."%char)) n
  = true →
  Re.compile (pre +:+ n +:+ post)
  = Ok (Re.seq_of (rev (its1 ++ dotted_items n ++ its2)), g2 - 1).
Proof.
  intros Hlex Hpre Hpost Hn. unfold Re.compile.
  rewrite Hlex, lex_dotted, !parse_app, Hpre by done.
  cbn [mbind result_bind]. rewrite parse_app, parse_dotted.
  cbn [mbind result_bind Re.items Re.alts Re.stack Re.next_group].
  rewrite Hpost. cbn [mbind result_bind Re.stack Re.items Re.alts Re.next_group
                      Re.alt_of foldl].
  unfold dotted_items. by rewrite !rev_app_distr, <- !app_assoc.
Qed.

Lemma matches_dotted_item a b p s c :
  Re.matches (dotted_item a) (Re.MState p (String b s) c)
  = if (if bool_decide (a = "."%char)
        then negb (bool_decide (b = Re.newline))
        else bool_decide (b = a))
    then [Re.MState (S p) s c] else [].
Proof. unfold dotted_item. by case_bool_decide. Qed.

(** The items of a path with dots match the texts that read like it, and
    each of them in one way. *)
Lemma dotted_items_sound n st st' :
  st' ∈ Re.matches_all (dotted_items n) st →
  ∃ q, alike n q = true ∧ Re.rest st = q +:+ Re.rest st'
       ∧ Re.caps st' = Re.caps st.
Proof.
  unfold dotted_items. revert st.
  induction n as [|a n IH]; intros st.
  - cbn. intros ->%list_elem_of_singleton. by exists "".
  - cbn [list_ascii_of_string fmap list_fmap].
    intros (st1 & H1 & Hst)%matches_all_cons_elem.
    apply IH in Hst as (q & Hq & Hrest & Hcaps).
    destruct st as [p [|b s] c].
    { unfold dotted_item in H1. case_bool_decide; by apply elem_of_nil in H1. }
    rewrite matches_dotted_item in H1.
    exists (String b q). cbn [alike Re.rest Re.caps].
    destruct (if bool_decide (a = "."%char) then _ else _);
      [|by apply elem_of_nil in H1].
    apply list_elem_of_singleton in H1 as ->. cbn [Re.rest Re.caps] in *.
    by rewrite Hq, Hrest, Hcaps, string_app_cons.
Qed.

Lemma dotted_items_complete n q p r c :
  alike n q = true →
  Re.matches_all (dotted_items n) (Re.MState p (q +:+ r) c)
  = [Re.MState (p + String.length q) r c].
Proof.
  unfold dotted_items. revert q p.
  induction n as [|a n IH]; intros [|b q] p; try done.
  - intros _. cbn. by rewrite Nat.add_0_r.
  - cbn [alike]. intros [Hb Hq]%andb_true_iff.
    cbn [list_ascii_of_string fmap list_fmap Re.matches_all].
    rewrite string_app_cons, matches_dotted_item, Hb, bind_singleton, IH
      by done.
    cbn [String.length]. by rewrite Nat.add_succ_r.
Qed.

Lemma alike_start n q :
  dotted_path n → alike n q = true → no_space_start q.
Proof.
  intros [Hall Hfirst]. destruct n as [|a n], q as [|b q]; try done.
  cbn [alike Spec.all_chars] in *. rewrite bool_decide_eq_false_2 by done.
  intros [->%bool_decide_eq_true _]%andb_true_iff.
  apply andb_true_iff in Hall as [Ha _].
  rewrite (bool_decide_eq_false_2 (a = "."%char)) in Ha by done.
  rewrite orb_false_r in Ha. by apply literal_char_not_space.
Qed.

Lemma alike_refl n :
  Spec.all_chars (λ c, Spec.literal_char c || bool_decide (c = "."%char)) n
  = true →
  alike n n = true.
Proof.
  induction n as [|a n IH]; [done|]. cbn [Spec.all_chars alike].
  intros [Ha Hn]%andb_true_iff. rewrite IH by done.
  case_bool_decide as Hdot; [by subst a|]. by rewrite bool_decide_eq_true_2.
Qed.

(** The loop for a path with dots. *)
Lemma checksum_dotted_returns gnu bsd pg pb algo k n line more :
  Py.percent gnu n = Ok pg →
  Re.compile pg = Ok (Re.seq_of (rev (gnu_pattern (S k) (dotted_items n))), 1) →
  Py.percent bsd n = Ok pb →
  Re.compile pb
  = Ok (Re.seq_of (rev (bsd_pattern algo (S k) (dotted_items n))), 1) →
  String.length algo < S k →
  dotted_path n →
  ∃ r, Checksum.process [gnu; bsd] (Self (Some n)) (line :: more) = Ok r
       ∧ ∀ d, r = Some d
              ↔ ∃ q, alike n q = true ∧ reports algo (S k) q line d.
Proof.
  intros Hpg Hcg Hpb Hcb Hk Hn.
  apply (checksum_pattern_returns (dotted_items n) (λ q, alike n q = true))
    with (pg := pg) (pb := pb); try done.
  - apply dotted_items_sound.
  - intros q p r c Hq. by apply dotted_items_complete.
  - intros q Hq. by apply (alike_start n).
Qed.

(** For a path of literal characters and dots (not starting with one), the
    checksum facts never raise on output that has a first line, and return
    a digest exactly when that line reports it, in one of the two styles,
    against a text that reads like the path where each dot of the path
    stands for any character but the newline.  The path reads like itself,
    so the facts recognise its own lines; they also take the lines of
    other paths that read like it for its own. *)
Theorem checksum_path_with_dots (H : Connectors) (self : instance)
    (p line : string) (more : list string) :
  dotted_path (escape_unix_path p) →
  alike (escape_unix_path p) (escape_unix_path p) = true
  ∧ (∃ r, Sha1File.process (Sha1File.command self p).1 (line :: more) = Ok r
          ∧ ∀ d, r = Some d
                 ↔ ∃ q, alike (escape_unix_path p) q = true
                        ∧ reports "SHA1" 40 q line d)
  ∧ (∃ r, Sha256File.process (Sha256File.command self p).1 (line :: more)
          = Ok r
          ∧ ∀ d, r = Some d
                 ↔ ∃ q, alike (escape_unix_path p) q = true
                        ∧ reports "SHA256" 64 q line d)
  ∧ (∃ r, Md5File.process (Md5File.command self p).1 (line :: more) = Ok r
          ∧ ∀ d, r = Some d
                 ↔ ∃ q, alike (escape_unix_path p) q = true
                        ∧ reports "SHA256" 32 q line d).
Proof.
  intros Hp. pose proof Hp as [Hall _].
  cbn [Sha1File.command Sha256File.command Md5File.command fst].
  split; [by apply alike_refl|]. split; [|split].
  - apply (checksum_dotted_returns _ _
             ("^([a-zA-Z0-9]{40})\s+" +:+ escape_unix_path p +:+ "$")
             ("^SHA1\s+\(" +:+ escape_unix_path p
              +:+ "\)\s+=\s+([a-zA-Z0-9]{40})$") "SHA1" 39);
      [reflexivity | | reflexivity | | cbn; lia | done].
    + by apply (compile_around_dotted _ _ _
                  [Re.Bol; digest_group 40; spaces] [Re.Eol] 2 2);
        [intros; reflexivity | vm_compute; reflexivity | intros; reflexivity|].
    + by apply (compile_around_dotted _ _ _
                  ((Re.Bol :: lits "SHA1") ++ [spaces; Re.Lit "("])
                  [Re.Lit ")"; spaces; Re.Lit "="; spaces; digest_group 40;
                   Re.Eol] 1 2);
        [intros; reflexivity | vm_compute; reflexivity | intros; reflexivity|].
  - apply (checksum_dotted_returns _ _
             ("^([a-zA-Z0-9]{64})\s+" +:+ escape_unix_path p +:+ "$")
             ("^SHA256\s+\(" +:+ escape_unix_path p
              +:+ "\)\s+=\s+([a-zA-Z0-9]{64})$") "SHA256" 63);
      [reflexivity | | reflexivity | | cbn; lia | done].
    + by apply (compile_around_dotted _ _ _
                  [Re.Bol; digest_group 64; spaces] [Re.Eol] 2 2);
        [intros; reflexivity | vm_compute; reflexivity | intros; reflexivity|].
    + by apply (compile_around_dotted _ _ _
                  ((Re.Bol :: lits "SHA256") ++ [spaces; Re.Lit "("])
                  [Re.Lit ")"; spaces; Re.Lit "="; spaces; digest_group 64;
                   Re.Eol] 1 2);
        [intros; reflexivity | vm_compute; reflexivity | intros; reflexivity|].
  - apply (checksum_dotted_returns _ _
             ("^([a-zA-Z0-9]{32})\s+" +:+ escape_unix_path p +:+ "$")
             ("^SHA256\s+\(" +:+ escape_unix_path p
              +:+ "\)\s+=\s+([a-zA-Z0-9]{32})$") "SHA256" 31);
      [reflexivity | | reflexivity | | cbn; lia | done].
    + by apply (compile_around_dotted _ _ _
                  [Re.Bol; digest_group 32; spaces] [Re.Eol] 2 2);
        [intros; reflexivity | vm_compute; reflexivity | intros; reflexivity|].
    + by apply (compile_around_dotted _ _ _
                  ((Re.Bol :: lits "SHA256") ++ [spaces; Re.Lit "("])
                  [Re.Lit ")"; spaces; Re.Lit "="; spaces; digest_group 32;
                   Re.Eol] 1 2);
        [intros; reflexivity | vm_compute; reflexivity | intros; reflexivity|].
Qed.

Lemma checksum_path_with_dots_witness :
  ∃ r, Sha1File.process
         (Sha1File.command (H := escape_spaces) (Self None) "/etc/hosts.conf").1
         ["da39a3ee5e6b4b0d3255bfef95601890afd80709  /etc/hosts.conf"]
       = Ok r
       ∧ ∀ d, r = Some d
              ↔ ∃ q, alike "/etc/hosts.conf" q = true
                     ∧ reports "SHA1" 40 q
                         "da39a3ee5e6b4b0d3255bfef95601890afd80709  /etc/hosts.conf"
                         d.
Proof.
  assert (Hp : dotted_path (escape_spaces "/etc/hosts.conf")).
  { split; [vm_compute; reflexivity|]. vm_compute. discriminate. }
  exact (proj1 (proj2 (checksum_path_with_dots escape_spaces (Self None)
                         "/etc/hosts.conf"
                         "da39a3ee5e6b4b0d3255bfef95601890afd80709  /etc/hosts.conf"
                         [] Hp))).
Defined.

(** ** The search fact *)

Lemma find_in_file_process_eq (H : Connectors) self p pat output :
  FindInFile.process (FindInFile.command self p pat).1 output
  = Ok (Some match output with
             | first :: _ =>
                 if bool_decide (first = FindInFile.sentinel (escape_unix_path p))
                 then [] else output
             | [] => []
             end).
Proof.
  destruct output as [|first more]; [done|].
  cbn [FindInFile.command fst FindInFile.process name of_option mbind
       result_bind].
  by case_bool_decide.
Qed.

(** C6, as stated, fails: on empty output the parser returns the empty list,
    the value it returns for the sentinel, not [None]; and output of several
    lines is not returned verbatim when its first line is the sentinel. *)
Lemma find_in_file_empty_output_is_a_list :
  let self :=
    (FindInFile.command (H := escape_spaces) (Self None) "/etc/hosts" "x").1 in
  FindInFile.process self [] = Ok (Some [])
  ∧ FindInFile.process self [] ≠ Ok None
  ∧ FindInFile.process self ["__pyinfra_exists_/etc/hosts"; "localhost"]
    = Ok (Some []).
Proof.
  intros self. split; [vm_compute; reflexivity|].
  split; [discriminate | vm_compute; reflexivity].
Qed.

(** C6, amended: the parser never returns [None].  It returns the empty list
    when the output is the one sentinel line of the path, the output lines
    as they are when the first of them is not the sentinel, and the empty
    list on empty output. *)
Theorem find_in_file_process_cases
    (H : Connectors) (self : instance) (p pat : string) :
  let self' := (FindInFile.command self p pat).1 in
  FindInFile.process self' ["__pyinfra_exists_" +:+ escape_unix_path p]
  = Ok (Some [])
  ∧ (∀ first more,
       first ≠ "__pyinfra_exists_" +:+ escape_unix_path p →
       FindInFile.process self' (first :: more) = Ok (Some (first :: more)))
  ∧ FindInFile.process self' [] = Ok (Some [])
  ∧ ∀ output, FindInFile.process self' output ≠ Ok None.
Proof.
  intros self'. unfold self'. repeat split.
  - rewrite find_in_file_process_eq. by rewrite bool_decide_eq_true_2.
  - intros first more Hne. rewrite find_in_file_process_eq.
    by rewrite bool_decide_eq_false_2.
  - intros output. by rewrite find_in_file_process_eq.
Qed.

Lemma find_in_file_process_cases_witness :
  let self' :=
    (FindInFile.command (H := escape_spaces) (Self None) "/etc/hosts" "x").1 in
  FindInFile.process self' ["__pyinfra_exists_/etc/hosts"] = Ok (Some [])
  ∧ FindInFile.process self' ["127.0.0.1 localhost"; "::1 localhost"]
    = Ok (Some ["127.0.0.1 localhost"; "::1 localhost"])
  ∧ FindInFile.process self' [] = Ok (Some []).
Proof.
  pose proof (find_in_file_process_cases escape_spaces (Self None)
                "/etc/hosts" "x") as (Hs & Hv & He & _).
  split; [exact Hs|]. split; [|exact He].
  apply Hv. discriminate.
Defined.

(** C10: after the command for a path, any output whose first line is the
    sentinel of the escaped path parses to the empty list, whatever lines
    follow it; so lines that grep matched are dropped when the first of them
    reads like the sentinel. *)
Theorem sentinel_first_line_decides
    (H : Connectors) (self : instance) (p pat : string) (more : list string) :
  FindInFile.process (FindInFile.command self p pat).1
    (("__pyinfra_exists_" +:+ escape_unix_path p) :: more)
  = Ok (Some []).
Proof.
  rewrite find_in_file_process_eq. by rewrite bool_decide_eq_true_2.
Qed.

Example sentinel_line_in_file :
  FindInFile.process
    (FindInFile.command (H := escape_spaces) (Self None) "/etc/motd" "pyinfra").1
    ["__pyinfra_exists_/etc/motd"; "managed by pyinfra"]
  = Ok (Some []).
Proof. vm_compute. reflexivity. Qed.

(** A last character that is kept stops the trimming from the right. *)
Lemma rtrim_keeps test s c :
  test c = false →
  Py.rtrim test (s +:+ String c EmptyString) = s +:+ String c EmptyString.
Proof.
  intros Hc. induction s as [|a s IH].
  - change ("" +:+ String c "") with (String c ""). cbn [Py.rtrim].
    by rewrite Hc.
  - rewrite string_app_cons. cbn [Py.rtrim]. rewrite IH.
    destruct s; [done|]. by rewrite string_app_cons.
Qed.

(** The text of the search command: [strip] removes nothing from it,
    whatever the path and the pattern, and what it echoes when grep finds
    nothing in an existing file is the sentinel of the escaped path, the
    line [FindInFile.process] compares the first line with. *)
Theorem find_in_file_command_text (H : Connectors) (self : instance)
    (p pat : string) :
  FindInFile.command self p pat
  = (Self (Some (escape_unix_path p)),
     "grep -e " +:+ shlex_quote pat +:+ " " +:+ escape_unix_path p
     +:+ " 2> /dev/null || (find " +:+ escape_unix_path p
     +:+ " -type f > /dev/null && echo " +:+ dquote
     +:+ FindInFile.sentinel (escape_unix_path p) +:+ dquote +:+ ")").
Proof.
  unfold FindInFile.command, FindInFile.sentinel. f_equal.
  rewrite (string_app_cons "g"). cbn [Py.ltrim].
  change (Py.is_space "g") with false. cbv iota.
  rewrite <- (string_app_cons "g").
  rewrite <- !string_app_assoc.
  rewrite rtrim_keeps by reflexivity. rewrite !string_app_assoc. reflexivity.
Qed.

(** ** The parse context *)

(** C9, as stated, fails: the context is the attribute [name] of the
    instance, and a second command overwrites it.  After the commands for
    [/a] and then [/b], the sentinel of [/a] is returned as a matched line,
    where after the command for [/a] alone it parses to the empty list. *)
Lemma second_command_changes_the_parse :
  let one := (FindInFile.command (H := escape_spaces) (Self None) "/a" "x").1 in
  let two := (FindInFile.command (H := escape_spaces) one "/b" "x").1 in
  "/a" ≠ "/b"
  ∧ FindInFile.process one ["__pyinfra_exists_/a"] = Ok (Some [])
  ∧ FindInFile.process two ["__pyinfra_exists_/a"]
    = Ok (Some ["__pyinfra_exists_/a"]).
Proof.
  intros one two. split; [discriminate|].
  split; vm_compute; reflexivity.
Qed.

(** C9, amended: the parse context is held by the instance and set by the
    last command: for the checksum facts and the search fact, parsing after
    the commands for [p1] and then [p2] gives what parsing after the command
    for [p2] alone gives. *)
Theorem last_command_decides
    (H : Connectors) (self : instance) (p1 p2 pat1 pat2 : string)
    (lines : list string) :
  Sha1File.process (Sha1File.command (Sha1File.command self p1).1 p2).1 lines
  = Sha1File.process (Sha1File.command self p2).1 lines
  ∧ Sha256File.process
      (Sha256File.command (Sha256File.command self p1).1 p2).1 lines
    = Sha256File.process (Sha256File.command self p2).1 lines
  ∧ Md5File.process (Md5File.command (Md5File.command self p1).1 p2).1 lines
    = Md5File.process (Md5File.command self p2).1 lines
  ∧ FindInFile.process
      (FindInFile.command (FindInFile.command self p1 pat1).1 p2 pat2).1 lines
    = FindInFile.process (FindInFile.command self p2 pat2).1 lines.
Proof. repeat split. Qed.
